(** * Provisioning phases of the hosted cluster provider

    A shallow embedding of [pkg/provider/hosted/cluster/handler.go]: the
    state-derivation steps run by [EnsureClusterComplete], the addon phases
    of package [cluster], and the per-machine phases of package [machine]
    (hooks, node kubeconfig, join, mark, node-ready wait, endpoint
    selection).

    Conventions of the embedding.
    - A Go function returning [error] is a state transformer returning an
      [outcome unit]: [Return tt] is [return nil], [Failure e] is
      [return err], [Panicked m] is a run-time panic (nil dereference, index
      out of range).
    - [*common.Cluster] is mutated in place by the derivation steps, so those
      steps thread the record explicitly next to the process state.
    - Every collaborator that lives outside the two packages (k8sutil, certs,
      kubeconfig, joinNode, apiclient, the addon builders, the SSH client,
      the cluster manager, the random sources) is a field of the class
      [Runtime]; theorems hold for every instance.
    - [ctx context.Context] is only passed through to collaborators and is
      left out; loggers are left out as well. *)

From Stdlib Require Import ZArith Lia Ascii.
From stdpp Require Import base option list gmap strings pretty.

Open Scope string_scope.

(** ** Go errors *)

(** [errors.New] and [errors.Wrap] of github.com/pkg/errors; [Error] is the
    method [err.Error()]. *)
Inductive error : Type :=
  | errors_New (msg : string)
  | errors_Wrap (cause : error) (msg : string).

Fixpoint Error (e : error) : string :=
  match e with
  | errors_New msg => msg
  | errors_Wrap cause msg => msg +:+ ": " +:+ Error cause
  end.

(** [errors.Wrapf(err, format, err)] with a format that ends in [%v]. *)
Definition errors_Wrapf (cause : error) (prefix : string) (arg : error) : error :=
  errors_Wrap cause (prefix +:+ Error arg).

(** A Go pair [(value, err)]. *)
Inductive result (A : Type) : Type :=
  | Ok (a : A)
  | Err (e : error).
Arguments Ok {A} a.
Arguments Err {A} e.

(** How a call ends. *)
Inductive outcome (A : Type) : Type :=
  | Return (a : A)
  | Failure (e : error)
  | Panicked (msg : string).
Arguments Return {A} a.
Arguments Failure {A} e.
Arguments Panicked {A} msg.

Definition nil_dereference : string :=
  "runtime error: invalid memory address or nil pointer dereference".
Definition index_out_of_range_0 : string :=
  "runtime error: index out of range [0] with length 0".

(** ** The state-and-error monad of a Go call *)

Definition Go (S A : Type) : Type := S -> outcome A * S.

Definition ret {S A} (a : A) : Go S A := fun s => (Return a, s).
Definition fail {S A} (e : error) : Go S A := fun s => (Failure e, s).
Definition panic {S A} (msg : string) : Go S A := fun s => (Panicked msg, s).

Definition bind {S A B} (m : Go S A) (k : A -> Go S B) : Go S B :=
  fun s =>
    match m s with
    | (Return a, s') => k a s'
    | (Failure e, s') => (Failure e, s')
    | (Panicked msg, s') => (Panicked msg, s')
    end.

Notation "x <- m ;; k" := (bind m (fun x => k))
  (at level 100, m at next level, right associativity).
Notation "m ;;; k" := (bind m (fun _ => k))
  (at level 100, right associativity).

Definition get {S} : Go S S := fun s => (Return s, s).
Definition modify {S} (f : S -> S) : Go S unit := fun s => (Return tt, f s).

(** [*p] for a pointer that may be nil. *)
Definition deref {S A} (p : option A) : Go S A :=
  match p with
  | Some a => ret a
  | None => panic nil_dereference
  end.

(** [v, err := f(...); if err != nil { return wrap(err) }] for a pure [f]. *)
Definition try {S A} (r : result A) (wrap : error -> error) : Go S A :=
  match r with
  | Ok a => ret a
  | Err e => fail (wrap e)
  end.

(** [err := f(...); if err != nil { return wrap(err) }] for an effectful [f]
    that returns only an error. *)
Definition check {S} (f : S -> option error * S) (wrap : error -> error) : Go S unit :=
  fun s =>
    match f s with
    | (None, s') => (Return tt, s')
    | (Some e, s') => (Failure (wrap e), s')
    end.

(** [for _, x := range xs { body }] where the body may return early. *)
Fixpoint for_range {S A} (xs : list A) (body : A -> Go S unit) : Go S unit :=
  match xs with
  | [] => ret tt
  | x :: xs' => body x ;;; for_range xs' body
  end.

(** ** Data model (package devopsv1 and common) *)

(** Modelled from the spec: the declaration of [devopsv1.AddressType] is
    not among the sources; the spec gives an address a type in {Real,
    Advertise}, and the handlers name [AddressReal] and [AddressAdvertise]. *)
Inductive AddressType : Type := AddressReal | AddressAdvertise.

Global Instance AddressType_eq_dec : EqDecision AddressType.
Proof. solve_decision. Defined.

Record ClusterAddress : Type := {
  Type_ : AddressType;
  Host : string;
  Port : Z;
}.

Global Instance ClusterAddress_eq_dec : EqDecision ClusterAddress.
Proof. solve_decision. Defined.

(** Modelled from the spec: the declaration of [devopsv1.HookType] is not
    among the sources; the spec has a pre-install hook, a post-install hook
    and a CNI hook type as distinct configuration keys, and the handlers
    name [HookPostInstall] and [HookCniInstall]. *)
Inductive HookType : Type := HookPreInstall | HookPostInstall | HookCniInstall.

Global Instance HookType_eq_dec : EqDecision HookType.
Proof. solve_decision. Defined.

Definition HookType_to_nat (h : HookType) : nat :=
  match h with HookPreInstall => 0 | HookPostInstall => 1 | HookCniInstall => 2 end.
Definition HookType_of_nat (n : nat) : option HookType :=
  match n with
  | 0 => Some HookPreInstall | 1 => Some HookPostInstall | 2 => Some HookCniInstall
  | _ => None
  end.

Global Instance HookType_countable : Countable HookType.
Proof.
  apply (inj_countable HookType_to_nat HookType_of_nat).
  intros []; reflexivity.
Defined.

Record ClusterMachine : Type := {
  IP : string;
  Labels : gmap string string;
  Taints : list string;
}.

Record DKEHA : Type := { DKEHA_VIP : string }.
Record ThirdPartyHA : Type := { VIP : string; VPort : Z }.
Record HA : Type := {
  HA_DKEHA : option DKEHA;
  HA_ThirdPartyHA : option ThirdPartyHA;
}.

Record ClusterFeature : Type := {
  Features_HA : option HA;
  Hooks : gmap HookType string;
}.

Record ClusterProperty : Type := {
  MaxClusterServiceNum : option Z;
  MaxNodePodNum : option Z;
}.

Record ClusterSpec : Type := {
  Spec_Version : string;
  ClusterCIDR : string;
  Spec_ServiceCIDR : option string;
  Properties : ClusterProperty;
  Machines : list ClusterMachine;
  Features : ClusterFeature;
  PublicAlternativeNames : list string;
}.

Record ClusterStatus : Type := {
  Status_Version : string;
  Status_ServiceCIDR : string;
  NodeCIDRMaskSize : Z;
  DNSIP : string;
  Addresses : list ClusterAddress;
}.

(** [devopsv1.Cluster]. *)
Record DevopsCluster : Type := {
  Name : string;
  Spec : ClusterSpec;
  Status : ClusterStatus;
}.

Record ClusterCredential : Type := {
  Token : option string;
  BootstrapToken : option string;
  CertificateKey : option string;
  CAKey : string;
  CACert : string;
}.

(** [common.Cluster]: the embedded [*devopsv1.Cluster] and
    [*devopsv1.ClusterCredential]. *)
Record Cluster : Type := {
  Cluster_ : DevopsCluster;
  Credential : ClusterCredential;
}.

Record MachineSpec : Type := {
  Machine_ : ClusterMachine;
  TenantID : string;
}.

(** [devopsv1.Machine]. *)
Record Machine : Type := { MSpec : MachineSpec }.

(** Field assignments. *)
Definition set_Status (f : ClusterStatus -> ClusterStatus) (c : Cluster) : Cluster :=
  {| Cluster_ := {| Name := Name (Cluster_ c);
                    Spec := Spec (Cluster_ c);
                    Status := f (Status (Cluster_ c)) |};
     Credential := Credential c |}.

Definition set_Credential (f : ClusterCredential -> ClusterCredential) (c : Cluster) : Cluster :=
  {| Cluster_ := Cluster_ c; Credential := f (Credential c) |}.

Definition with_Version (v : string) (st : ClusterStatus) : ClusterStatus :=
  {| Status_Version := v; Status_ServiceCIDR := Status_ServiceCIDR st;
     NodeCIDRMaskSize := NodeCIDRMaskSize st; DNSIP := DNSIP st;
     Addresses := Addresses st |}.

Definition with_Networking (cidr : string) (mask : Z) (st : ClusterStatus) : ClusterStatus :=
  {| Status_Version := Status_Version st; Status_ServiceCIDR := cidr;
     NodeCIDRMaskSize := mask; DNSIP := DNSIP st;
     Addresses := Addresses st |}.

Definition with_DNSIP (ip : string) (st : ClusterStatus) : ClusterStatus :=
  {| Status_Version := Status_Version st; Status_ServiceCIDR := Status_ServiceCIDR st;
     NodeCIDRMaskSize := NodeCIDRMaskSize st; DNSIP := ip;
     Addresses := Addresses st |}.

Definition with_Token (t : string) (cr : ClusterCredential) : ClusterCredential :=
  {| Token := Some t; BootstrapToken := BootstrapToken cr;
     CertificateKey := CertificateKey cr; CAKey := CAKey cr; CACert := CACert cr |}.

Definition with_BootstrapToken (t : string) (cr : ClusterCredential) : ClusterCredential :=
  {| Token := Token cr; BootstrapToken := Some t;
     CertificateKey := CertificateKey cr; CAKey := CAKey cr; CACert := CACert cr |}.

Definition with_CertificateKey (k : string) (cr : ClusterCredential) : ClusterCredential :=
  {| Token := Token cr; BootstrapToken := BootstrapToken cr;
     CertificateKey := Some k; CAKey := CAKey cr; CACert := CACert cr |}.

(** [corev1.Node], as far as the readiness wait looks at it. *)
Record NodeCondition : Type := {
  Condition_Type : string;
  Condition_Status : string;
}.
Record Node : Type := { Conditions : list NodeCondition }.

Definition NodeReady : string := "Ready".
Definition ConditionTrue : string := "True".

(** [kubeconfig.Option]. *)
Record KubeconfigOption : Type := {
  MasterEndpoint : string;
  ClusterName : string;
  Option_CACert : string;
  Option_Token : string;
}.

(** [time.Duration], in nanoseconds. *)
Definition time_Second : Z := 1000000000.
Definition time_Minute : Z := 60 * time_Second.

(** [wait.ErrWaitTimeout] of k8s.io/apimachinery. *)
Definition ErrWaitTimeout : error := errors_New "timed out waiting for the condition".

(** ** Collaborators outside the two packages

    [World] is everything a phase can change besides the cluster record it
    is handed: remote hosts, the objects of the target cluster, the state of
    the random sources, the clock. The functions below are called by the
    handlers but defined elsewhere (other packages of the module, client-go,
    the Go standard library). *)
Class Runtime : Type := {
  World : Type;
  Config : Type;
  SSHClient : Type;
  Object : Type;
  ClusterCtx : Type;
  Client : Type;
  KubeCli : Type;
  ctx_Client : ClusterCtx -> Client;
  ctx_KubeCli : ClusterCtx -> KubeCli;
  (* identifiers and randomness *)
  ksuid_New : World -> string * World;
  GenerateBootstrapToken : World -> result string * World;
  crypto_rand_Read : nat -> World -> result (list Byte.byte) * World;
  math_rand_Intn : nat -> World -> nat * World;
  math_rand_Intn_lt : forall n w, 0 < n -> fst (math_rand_Intn n w) < n;
  (* package k8sutil and constants *)
  GetNodeCIDRMaskSize : string -> Z -> result Z;
  GetServiceCIDRAndNodeCIDRMaskSize : string -> Z -> Z -> result (string * Z);
  (* [k8sutil.GetIndexedIP] followed by [ip.String()] *)
  GetIndexedIP : string -> Z -> result string;
  DNSIPIndex : Z;
  Reconcile : Client -> Object -> World -> option error * World;
  (* method [AddAddress] of [devopsv1.Cluster], acting on [Status.Addresses] *)
  AddAddress : AddressType -> string -> Z -> list ClusterAddress -> list ClusterAddress;
  (* [c.ClusterManager.Get(name)]: a lookup in the shared manager *)
  ClusterManager_Get : string -> World -> result ClusterCtx;
  (* addon builders *)
  BuildKubeproxyAddon : Config -> Cluster -> result (list Object);
  BuildCoreDNSAddon : Config -> Cluster -> result (list Object);
  BuildFlannelAddon : Config -> Cluster -> result (list Object);
  BuildMetricsServerAddon : Cluster -> result (list Object);
  (* remote access *)
  SSH : MachineSpec -> result SSHClient;
  Exec : SSHClient -> string -> World -> (string * string * Z * option error) * World;
  strconv_Quote : string -> string;
  (* packages certs, kubeconfig, joinNode, apiclient *)
  BuildApiserverEndpoint : string -> Z -> string;
  GetBindPort : DevopsCluster -> Z;
  InstallNode : SSHClient -> KubeconfigOption -> World -> option error * World;
  JoinNodePhase : SSHClient -> Config -> Cluster -> string -> bool -> World -> option error * World;
  MarkNode : KubeCli -> string -> gmap string string -> list string -> World -> option error * World;
  (* [kubeCli.CoreV1().Nodes().Get(ctx, name, opts)] *)
  Nodes_Get : KubeCli -> string -> World -> result Node * World;
  (* the passage of [d] nanoseconds between two polls *)
  Sleep : Z -> World -> World;
}.

Record Provider `{Runtime} : Type := { Cfg : Config }.

(** [hex.EncodeToString]. *)
Definition hex_digit (n : N) : Ascii.ascii :=
  match n with
  | 0 => "0" | 1 => "1" | 2 => "2" | 3 => "3" | 4 => "4" | 5 => "5" | 6 => "6"
  | 7 => "7" | 8 => "8" | 9 => "9" | 10 => "a" | 11 => "b" | 12 => "c"
  | 13 => "d" | 14 => "e" | _ => "f"
  end%N%char.

Fixpoint hex_EncodeToString (bs : list Byte.byte) : string :=
  match bs with
  | [] => ""
  | b :: bs' =>
      let n := Byte.to_N b in
      String (hex_digit (n / 16)) (String (hex_digit (n mod 16)) (hex_EncodeToString bs'))
  end.

(** ** Package cluster *)
Module cluster.
Section with_runtime.
Context `{R : Runtime}.

(** The record behind [cluster *common.Cluster] and the rest of the
process state. *)
Definition St : Type := Cluster * World.

Definition the_cluster : Go St Cluster := fun s => (Return (fst s), s).
Definition update_cluster (f : Cluster -> Cluster) : Go St unit :=
modify (fun s => (f (fst s), snd s)).
Definition in_world {A} (f : World -> A * World) : Go St A :=
fun s => let (a, w) := f (snd s) in (Return a, (fst s, w)).

Definition completeK8sVersion : Go St unit :=
cluster <- the_cluster ;;
update_cluster (set_Status (with_Version (Spec_Version (Spec (Cluster_ cluster))))).

Definition completeNetworking : Go St unit :=
cluster <- the_cluster ;;
let spec := Spec (Cluster_ cluster) in
derived <-
match Spec_ServiceCIDR spec with
| Some serviceCIDR =>
    maxNodePodNum <- deref (MaxNodePodNum (Properties spec)) ;;
    nodeCIDRMaskSize <-
      try (GetNodeCIDRMaskSize (ClusterCIDR spec) maxNodePodNum)
          (fun err => errors_Wrap err "GetNodeCIDRMaskSize error") ;;
    ret (serviceCIDR, nodeCIDRMaskSize)
| None =>
    maxClusterServiceNum <- deref (MaxClusterServiceNum (Properties spec)) ;;
    maxNodePodNum <- deref (MaxNodePodNum (Properties spec)) ;;
    try (GetServiceCIDRAndNodeCIDRMaskSize (ClusterCIDR spec)
           maxClusterServiceNum maxNodePodNum)
        (fun err => errors_Wrap err "GetServiceCIDRAndNodeCIDRMaskSize error")
end ;;
let '(serviceCIDR, nodeCIDRMaskSize) := derived in
update_cluster (set_Status (with_Networking serviceCIDR nodeCIDRMaskSize)).

Definition completeDNS : Go St unit :=
cluster <- the_cluster ;;
ip <- try (GetIndexedIP (Status_ServiceCIDR (Status (Cluster_ cluster))) DNSIPIndex)
        (fun err => errors_Wrap err "get DNS IP error") ;;
update_cluster (set_Status (with_DNSIP ip)).

(** [cluster.AddAddress(t, host, port)]. *)
Definition cluster_AddAddress (t : AddressType) (host : string) (port : Z) : Go St unit :=
update_cluster (set_Status (fun st =>
{| Status_Version := Status_Version st;
   Status_ServiceCIDR := Status_ServiceCIDR st;
   NodeCIDRMaskSize := NodeCIDRMaskSize st;
   DNSIP := DNSIP st;
   Addresses := AddAddress t host port (Addresses st) |})).

Definition completeAddresses : Go St unit :=
cluster <- the_cluster ;;
for_range (Machines (Spec (Cluster_ cluster)))
(fun m => cluster_AddAddress AddressReal (IP m) 6443) ;;;
cluster <- the_cluster ;;
match Features_HA (Features (Spec (Cluster_ cluster))) with
| Some ha =>
  match HA_DKEHA ha with
  | Some dkeha => cluster_AddAddress AddressAdvertise (DKEHA_VIP dkeha) 6443
  | None => ret tt
  end ;;;
  match HA_ThirdPartyHA ha with
  | Some tp => cluster_AddAddress AddressAdvertise (VIP tp) (VPort tp)
  | None => ret tt
  end
| None => ret tt
end.

Definition completeCredential : Go St unit :=
token <- in_world ksuid_New ;;
update_cluster (set_Credential (with_Token token)) ;;;
r <- in_world GenerateBootstrapToken ;;
bootstrapToken <- try r (fun err => err) ;;
update_cluster (set_Credential (with_BootstrapToken bootstrapToken)) ;;;
r <- in_world (crypto_rand_Read 32) ;;
certBytes <- try r (fun err => err) ;;
let certificateKey := hex_EncodeToString certBytes in
update_cluster (set_Credential (with_CertificateKey certificateKey)).

Definition funcs : list (Go St unit) :=
[ completeK8sVersion;
completeNetworking;
completeDNS;
completeAddresses;
completeCredential ].

Definition EnsureClusterComplete (p : Provider) : Go St unit :=
for_range funcs (fun f => f).

(** [for _, obj := range objs { err = Reconcile(...); if err != nil { return Wrapf } }]. *)
Definition reconcile_all (cli : Client) (objs : list Object) : Go World unit :=
for_range objs (fun obj =>
check (Reconcile cli obj) (fun err => errors_Wrapf err "Reconcile  err: " err)).

Definition EnsureAddons (p : Provider) (c : Cluster) : Go World unit :=
fun w =>
match ClusterManager_Get (Name (Cluster_ c)) w with
| Err _ => (Return tt, w)
| Ok clusterCtx =>
    (kubeproxyObjs <- try (BuildKubeproxyAddon (Cfg p) c)
                        (fun err => errors_Wrapf err "build kube-proxy err: " err) ;;
     reconcile_all (ctx_Client clusterCtx) kubeproxyObjs ;;;
     corednsObjs <- try (BuildCoreDNSAddon (Cfg p) c)
                      (fun err => errors_Wrapf err "build kube-proxy err: " err) ;;
     reconcile_all (ctx_Client clusterCtx) corednsObjs) w
end.

Definition EnsureFlannel (p : Provider) (c : Cluster) : Go World unit :=
fun w =>
match ClusterManager_Get (Name (Cluster_ c)) w with
| Err _ => (Return tt, w)
| Ok clusterCtx =>
    (objs <- try (BuildFlannelAddon (Cfg p) c)
               (fun err => errors_Wrapf err "build flannel err: " err) ;;
     reconcile_all (ctx_Client clusterCtx) objs) w
end.

Definition EnsureMetricsServer (p : Provider) (c : Cluster) : Go World unit :=
fun w =>
match ClusterManager_Get (Name (Cluster_ c)) w with
| Err _ => (Return tt, w)
| Ok clusterCtx =>
    (objs <- try (BuildMetricsServerAddon c)
               (fun err => errors_Wrapf err "build metrics-server err: " err) ;;
     reconcile_all (ctx_Client clusterCtx) objs) w
end.

End with_runtime.
End cluster.

(** ** [wait.PollImmediate] of k8s.io/apimachinery, on a logical clock

    The condition is evaluated at once; then once per tick of [interval]
    while the timer of [timeout] has not fired; when the timer fires the
    channel is closed, the condition is evaluated a last time and
    [ErrWaitTimeout] is returned. An error of the condition ends the wait. *)
Fixpoint poll_ticks `{Runtime} (ticks : nat) (interval : Z)
    (condition : Go World bool) : Go World unit :=
  match ticks with
  | 0 =>
      done <- condition ;;
      if done : bool then ret tt else fail ErrWaitTimeout
  | S ticks' =>
      modify (Sleep interval) ;;;
      done <- condition ;;
      if done : bool then ret tt else poll_ticks ticks' interval condition
  end.

Definition wait_PollImmediate `{Runtime} (interval timeout : Z)
    (condition : Go World bool) : Go World unit :=
  done <- condition ;;
  if done : bool then ret tt
  else poll_ticks (Z.to_nat (timeout / interval)) interval condition.

(** ** Package machine *)
Module machine.
Section with_runtime.
Context `{R : Runtime}.

(** An effectful collaborator whose results the caller inspects itself. *)
Definition run {A} (f : World -> A * World) : Go World A :=
fun w => let (a, w') := f w in (Return a, w').

(** [strings.Split(s, " ")[0]]. *)
Fixpoint first_field (s : string) : string :=
match s with
| "" => ""
| String ch s' => if Ascii.eqb ch " " then "" else String ch (first_field s')
end.

(** The verb [%s] applied to an [error] value. *)
Definition fmt_s_error (err : option error) : string :=
match err with
| Some e => Error e
| None => "%!s(<nil>)"
end.

(** [fmt.Errorf("exec %q failed:exit %d:stderr %s:error %s", hook, exit, stderr, err)]. *)
Definition hook_failed (hook : string) (exit : Z) (stderr : string)
(err : option error) : error :=
errors_New ("exec " +:+ strconv_Quote hook +:+ " failed:exit " +:+ pretty exit
          +:+ ":stderr " +:+ stderr +:+ ":error " +:+ fmt_s_error err).

Definition EnsurePreInstallHook (p : Provider) (machine : Machine)
(cluster : Cluster) : Go World unit :=
let hook := default "" (Hooks (Features (Spec (Cluster_ cluster))) !! HookPostInstall) in
if decide (hook = "") then ret tt
else
machineSSH <- try (SSH (MSpec machine)) (fun err => err) ;;
let cmd := first_field hook in
_ <- run (Exec machineSSH ("chmod +x " +:+ cmd)) ;;
r <- run (Exec machineSSH hook) ;;
let '(_, stderr, exit, err) := r in
if bool_decide (is_Some err) || negb (exit =? 0)%Z
then fail (hook_failed hook exit stderr err)
else ret tt.

Definition EnsurePostInstallHook (p : Provider) (machine : Machine)
(cluster : Cluster) : Go World unit :=
let hook := default "" (Hooks (Features (Spec (Cluster_ cluster))) !! HookPostInstall) in
if decide (hook = "") then ret tt
else
machineSSH <- try (SSH (MSpec machine)) (fun err => err) ;;
let cmd := first_field hook in
_ <- run (Exec machineSSH ("chmod +x " +:+ cmd)) ;;
r <- run (Exec machineSSH hook) ;;
let '(_, stderr, exit, err) := r in
if bool_decide (is_Some err) || negb (exit =? 0)%Z
then fail (hook_failed hook exit stderr err)
else ret tt.

Definition EnsureKubeconfig (p : Provider) (machine : Machine)
(c : Cluster) : Go World unit :=
machineSSH <- try (SSH (MSpec machine)) (fun err => err) ;;
ha <- deref (Features_HA (Features (Spec (Cluster_ c)))) ;;
thirdParty <- deref (HA_ThirdPartyHA ha) ;;
let apiserver := BuildApiserverEndpoint (VIP thirdParty) (GetBindPort (Cluster_ c)) in
token <- deref (Token (Credential c)) ;;
let option :=
{| MasterEndpoint := apiserver;
   ClusterName := Name (Cluster_ c);
   Option_CACert := CACert (Credential c);
   Option_Token := token |} in
check (InstallNode machineSSH option) (fun err => err).

(** [names[0]]. *)
Definition index_0 {A} (xs : list A) : Go World A :=
match xs with
| x :: _ => ret x
| [] => panic index_out_of_range_0
end.

Definition EnsureJoinNode (p : Provider) (machine : Machine)
(c : Cluster) : Go World unit :=
sh <- try (SSH (MSpec machine)) (fun err => err) ;;
name <- index_0 (PublicAlternativeNames (Spec (Cluster_ c))) ;;
let apiserver := BuildApiserverEndpoint name (GetBindPort (Cluster_ c)) in
check (JoinNodePhase sh (Cfg p) c apiserver false) (fun err => err).

Definition EnsureMarkNode (p : Provider) (machine : Machine)
(c : Cluster) : Go World unit :=
fun w =>
match ClusterManager_Get (Name (Cluster_ c)) w with
| Err _ => (Return tt, w)
| Ok clusterCtx =>
    check (MarkNode (ctx_KubeCli clusterCtx) (IP (Machine_ (MSpec machine)))
             (Labels (Machine_ (MSpec machine))) (Taints (Machine_ (MSpec machine))))
          (fun err => err) w
end.

(** The loop over [node.Status.Conditions]. *)
Definition has_ready_condition (node : Node) : bool :=
existsb (fun one =>
         bool_decide (Condition_Type one = NodeReady)
         && bool_decide (Condition_Status one = ConditionTrue))
      (Conditions node).

(** The condition function handed to [wait.PollImmediate]. *)
Definition node_ready_condition (clusterCtx : ClusterCtx) (machine : Machine)
: Go World bool :=
r <- run (Nodes_Get (ctx_KubeCli clusterCtx) (IP (Machine_ (MSpec machine)))) ;;
match r with
| Err _ => ret false
| Ok node => ret (has_ready_condition node)
end.

Definition EnsureNodeReady (p : Provider) (machine : Machine)
(c : Cluster) : Go World unit :=
fun w =>
match ClusterManager_Get (Name (Cluster_ c)) w with
| Err _ => (Return tt, w)
| Ok clusterCtx =>
    wait_PollImmediate (5 * time_Second) (5 * time_Minute)
      (node_ready_condition clusterCtx machine) w
end.

(** Pointers to [ClusterAddress] values: locations of a heap. *)
Definition loc : Type := nat.

Record locals : Type := {
heap : gmap loc ClusterAddress;
advertise : list loc;
internal : list loc;
}.

(** [for _, one := range addresses] declares the variable [one] once for
the whole loop (the rule of the language before Go 1.22, kept by every
module that does not ask for 1.22 in its go.mod); [&one] makes it
escape to the heap, to the single cell [one_loc]. *)
Definition one_loc : loc := 0.

(** One iteration: [one = elem], then the two tests on [one.Type], each
appending the pointer [&one]. *)
Definition range_step (st : locals) (elem : ClusterAddress) : locals :=
let h := <[one_loc := elem]> (heap st) in
let advertise' :=
if decide (Type_ elem = AddressAdvertise) then (advertise st ++ [one_loc])%list
else advertise st in
let internal' :=
if decide (Type_ elem = AddressReal) then (internal st ++ [one_loc])%list
else internal st in
{| heap := h; advertise := advertise'; internal := internal' |}.

(** [ptrs[rand.Intn(len(ptrs))]]. *)
Definition pick (ptrs : list loc) : Go World loc :=
i <- run (math_rand_Intn (length ptrs)) ;;
match ptrs !! i with
| Some l => ret l
| None => panic "runtime error: index out of range"
end.

Definition no_address : error :=
errors_New "no advertise or internal address for the cluster".

Definition GetMasterEndpoint (addresses : list ClusterAddress) : Go World string :=
let st := fold_left range_step addresses
          {| heap := ∅; advertise := []; internal := [] |} in
address <-
match advertise st with
| _ :: _ => l <- pick (advertise st) ;; ret (Some l)
| [] =>
    match internal st with
    | _ :: _ => l <- pick (internal st) ;; ret (Some l)
    | [] => ret None
    end
end ;;
match address with
| None => fail no_address
| Some l =>
  address <- deref (heap st !! l) ;;
  ret ("https://" +:+ Host address +:+ ":" +:+ pretty (Port address))
end.

End with_runtime.
End machine.

(** The text [fmt.Sprintf("https://%s:%d", a.Host, a.Port)] of an address. *)
Definition endpoint_of (a : ClusterAddress) : string :=
  "https://" +:+ Host a +:+ ":" +:+ pretty (Port a).

Definition has_type (t : AddressType) (a : ClusterAddress) : Prop := Type_ a = t.

Global Instance has_type_dec t a : Decision (has_type t a).
Proof. unfold has_type. apply _. Defined.

(** ** A concrete runtime

    A recording double of the collaborators, used to run the handlers on
    concrete records. Its world is the trace of the calls that reached a
    collaborator, newest first, together with the counters of the random
    sources. A [Scenario] fixes how the collaborators answer. *)
Module sim.

Inductive Call : Type :=
| call_Exec (host cmd : string)
| call_InstallNode (host : string) (option : KubeconfigOption)
| call_JoinNodePhase (host apiserver : string) (rejoin : bool)
| call_MarkNode (node : string)
| call_Reconcile (obj : string)
| call_Nodes_Get (node : string)
| call_Sleep (d : Z).

Record Scenario : Type := {
sc_ksuids : list string;
sc_bootstrap : result string;
sc_rand_bytes : result (list Byte.byte);
sc_service_cidr : string;
sc_dns_ip : string;
sc_ssh_ok : bool;
sc_client_ok : bool;
sc_exec : string * Z * option error;
sc_ready_after : option nat;
}.

Record SimWorld : Type := {
calls : list Call;
ksuids_drawn : nat;
rand_seed : nat;
node_gets : nat;
}.

Definition log (c : Call) (w : SimWorld) : SimWorld :=
{| calls := c :: calls w; ksuids_drawn := ksuids_drawn w;
   rand_seed := rand_seed w; node_gets := node_gets w |}.

Definition fresh (seed : nat) : SimWorld :=
{| calls := []; ksuids_drawn := 0; rand_seed := seed; node_gets := 0 |}.

Definition sim_ksuid_New (sc : Scenario) (w : SimWorld) : string * SimWorld :=
(nth (ksuids_drawn w) (sc_ksuids sc) "",
 {| calls := calls w; ksuids_drawn := S (ksuids_drawn w);
    rand_seed := rand_seed w; node_gets := node_gets w |}).

Definition sim_Intn (n : nat) (w : SimWorld) : nat * SimWorld :=
(rand_seed w mod n,
 {| calls := calls w; ksuids_drawn := ksuids_drawn w;
    rand_seed := S (rand_seed w); node_gets := node_gets w |}).

Definition sim_mask_size (maxNodePodNum : Z) : result Z :=
if (maxNodePodNum <=? 0)%Z then Err (errors_New "maxNodePodNum must more than 0")
else Ok (32 - Z.log2_up maxNodePodNum)%Z.

Definition sim_service_cidr_and_mask (sc : Scenario) (maxServices maxPods : Z)
  : result (string * Z) :=
if (maxServices <=? 0)%Z then Err (errors_New "maxClusterServiceNum must more than 0")
else match sim_mask_size maxPods with
     | Ok mask => Ok (sc_service_cidr sc, mask)
     | Err e => Err e
     end.

(** Modelled from the spec: the method [AddAddress] of [devopsv1.Cluster]
  is not among the sources at hand; the spec has the addresses step
  register an address, which the double does by appending it to the
  address list. *)
Definition sim_AddAddress (t : AddressType) (host : string) (port : Z)
  (addrs : list ClusterAddress) : list ClusterAddress :=
(addrs ++ [ {| Type_ := t; Host := host; Port := port |} ])%list.

Definition sim_Nodes_Get (sc : Scenario) (name : string) (w : SimWorld)
  : result Node * SimWorld :=
let ready :=
  match sc_ready_after sc with
  | Some k => Nat.leb k (node_gets w)
  | None => false
  end in
(Ok {| Conditions :=
         [ {| Condition_Type := "MemoryPressure"; Condition_Status := "False" |};
           {| Condition_Type := NodeReady;
              Condition_Status := if ready then ConditionTrue else "False" |} ] |},
 {| calls := call_Nodes_Get name :: calls w; ksuids_drawn := ksuids_drawn w;
    rand_seed := rand_seed w; node_gets := S (node_gets w) |}).

Definition double_quote : string := String (ascii_of_nat 34) "".

Definition runtime (sc : Scenario) : Runtime :=
{| World := SimWorld;
   Config := unit;
   SSHClient := string;
   Object := string;
   ClusterCtx := string;
   Client := string;
   KubeCli := string;
   ctx_Client := fun ctx => ctx;
   ctx_KubeCli := fun ctx => ctx;
   ksuid_New := sim_ksuid_New sc;
   GenerateBootstrapToken := fun w => (sc_bootstrap sc, w);
   crypto_rand_Read := fun _ w => (sc_rand_bytes sc, w);
   math_rand_Intn := sim_Intn;
   math_rand_Intn_lt := fun n w Hn =>
     Nat.mod_upper_bound (rand_seed w) n (proj2 (Nat.neq_0_lt_0 n) Hn);
   GetNodeCIDRMaskSize := fun _ maxPods => sim_mask_size maxPods;
   GetServiceCIDRAndNodeCIDRMaskSize := fun _ => sim_service_cidr_and_mask sc;
   GetIndexedIP := fun _ _ => Ok (sc_dns_ip sc);
   DNSIPIndex := 10;
   Reconcile := fun _ obj w => (None, log (call_Reconcile obj) w);
   AddAddress := sim_AddAddress;
   ClusterManager_Get := fun name _ =>
     if sc_client_ok sc then Ok name
     else Err (errors_New ("cluster " +:+ name +:+ " not found"));
   BuildKubeproxyAddon := fun _ _ => Ok ["kube-proxy"];
   BuildCoreDNSAddon := fun _ _ => Ok ["coredns"];
   BuildFlannelAddon := fun _ _ => Ok ["kube-flannel"];
   BuildMetricsServerAddon := fun _ => Ok ["metrics-server"];
   SSH := fun spec =>
     if sc_ssh_ok sc then Ok (IP (Machine_ spec))
     else Err (errors_New "ssh: handshake failed");
   Exec := fun sh cmd w =>
     let '(stderr, exit, err) := sc_exec sc in
     (("", stderr, exit, err), log (call_Exec sh cmd) w);
   strconv_Quote := fun s => double_quote +:+ s +:+ double_quote;
   BuildApiserverEndpoint := fun host port => "https://" +:+ host +:+ ":" +:+ pretty port;
   GetBindPort := fun _ => 6443%Z;
   InstallNode := fun sh option w => (None, log (call_InstallNode sh option) w);
   JoinNodePhase := fun sh _ _ apiserver rejoin w =>
     (None, log (call_JoinNodePhase sh apiserver rejoin) w);
   MarkNode := fun _ node _ _ w => (None, log (call_MarkNode node) w);
   Nodes_Get := fun _ name w => sim_Nodes_Get sc name w;
   Sleep := fun d w => log (call_Sleep d) w |}.

Definition provider (sc : Scenario) : @Provider (runtime sc) := @Build_Provider (runtime sc) tt.

(** Everything answers and succeeds; the node is ready from the start. *)
Definition healthy : Scenario :=
{| sc_ksuids := ["1srOrx2ZWZBpBUvZwXKQmoEYga2"; "1sbuImMYkxzvAorsCEqrW81uMBH";
                 "1sbuIp6SddKrtJrBCwdwuX3yp8j"];
   sc_bootstrap := Ok "abcdef.0123456789abcdef";
   sc_rand_bytes := Ok (repeat Byte.x2a 32);
   sc_service_cidr := "10.0.240.0/20";
   sc_dns_ip := "10.0.240.10";
   sc_ssh_ok := true;
   sc_client_ok := true;
   sc_exec := ("", 0%Z, None);
   sc_ready_after := Some 0 |}.

Definition with_exec (r : string * Z * option error) (sc : Scenario) : Scenario :=
{| sc_ksuids := sc_ksuids sc; sc_bootstrap := sc_bootstrap sc;
   sc_rand_bytes := sc_rand_bytes sc; sc_service_cidr := sc_service_cidr sc;
   sc_dns_ip := sc_dns_ip sc; sc_ssh_ok := sc_ssh_ok sc;
   sc_client_ok := sc_client_ok sc; sc_exec := r;
   sc_ready_after := sc_ready_after sc |}.

Definition without_ssh (sc : Scenario) : Scenario :=
{| sc_ksuids := sc_ksuids sc; sc_bootstrap := sc_bootstrap sc;
   sc_rand_bytes := sc_rand_bytes sc; sc_service_cidr := sc_service_cidr sc;
   sc_dns_ip := sc_dns_ip sc; sc_ssh_ok := false;
   sc_client_ok := sc_client_ok sc; sc_exec := sc_exec sc;
   sc_ready_after := sc_ready_after sc |}.

Definition without_client (sc : Scenario) : Scenario :=
{| sc_ksuids := sc_ksuids sc; sc_bootstrap := sc_bootstrap sc;
   sc_rand_bytes := sc_rand_bytes sc; sc_service_cidr := sc_service_cidr sc;
   sc_dns_ip := sc_dns_ip sc; sc_ssh_ok := sc_ssh_ok sc;
   sc_client_ok := false; sc_exec := sc_exec sc;
   sc_ready_after := sc_ready_after sc |}.

Definition ready_after (k : option nat) (sc : Scenario) : Scenario :=
{| sc_ksuids := sc_ksuids sc; sc_bootstrap := sc_bootstrap sc;
   sc_rand_bytes := sc_rand_bytes sc; sc_service_cidr := sc_service_cidr sc;
   sc_dns_ip := sc_dns_ip sc; sc_ssh_ok := sc_ssh_ok sc;
   sc_client_ok := sc_client_ok sc; sc_exec := sc_exec sc;
   sc_ready_after := k |}.

(** Sample records: three machines, no HA, as in the spec's scenario; and a
  variant with both HA mechanisms. *)
Definition machine_at (ip : string) : ClusterMachine :=
{| IP := ip; Labels := ∅; Taints := [] |}.

Definition sample_spec : ClusterSpec :=
{| Spec_Version := "1.18.5";
   ClusterCIDR := "10.0.0.0/16";
   Spec_ServiceCIDR := None;
   Properties := {| MaxClusterServiceNum := Some 4096%Z; MaxNodePodNum := Some 64%Z |};
   Machines := [machine_at "10.1.0.1"; machine_at "10.1.0.2"; machine_at "10.1.0.3"];
   Features := {| Features_HA := None; Hooks := ∅ |};
   PublicAlternativeNames := ["api.example.test"] |}.

Definition empty_status : ClusterStatus :=
{| Status_Version := ""; Status_ServiceCIDR := ""; NodeCIDRMaskSize := 0;
   DNSIP := ""; Addresses := [] |}.

Definition empty_credential : ClusterCredential :=
{| Token := None; BootstrapToken := None; CertificateKey := None;
   CAKey := "ca-key"; CACert := "ca-cert" |}.

Definition sample_cluster : Cluster :=
{| Cluster_ := {| Name := "demo"; Spec := sample_spec; Status := empty_status |};
   Credential := empty_credential |}.

Definition with_spec (f : ClusterSpec -> ClusterSpec) (c : Cluster) : Cluster :=
{| Cluster_ := {| Name := Name (Cluster_ c); Spec := f (Spec (Cluster_ c));
                  Status := Status (Cluster_ c) |};
   Credential := Credential c |}.

Definition with_features (ft : ClusterFeature) (sp : ClusterSpec) : ClusterSpec :=
{| Spec_Version := Spec_Version sp; ClusterCIDR := ClusterCIDR sp;
   Spec_ServiceCIDR := Spec_ServiceCIDR sp; Properties := Properties sp;
   Machines := Machines sp; Features := ft;
   PublicAlternativeNames := PublicAlternativeNames sp |}.

Definition with_names (names : list string) (sp : ClusterSpec) : ClusterSpec :=
{| Spec_Version := Spec_Version sp; ClusterCIDR := ClusterCIDR sp;
   Spec_ServiceCIDR := Spec_ServiceCIDR sp; Properties := Properties sp;
   Machines := Machines sp; Features := Features sp;
   PublicAlternativeNames := names |}.

Definition with_service_cidr (cidr : option string) (sp : ClusterSpec) : ClusterSpec :=
{| Spec_Version := Spec_Version sp; ClusterCIDR := ClusterCIDR sp;
   Spec_ServiceCIDR := cidr; Properties := Properties sp;
   Machines := Machines sp; Features := Features sp;
   PublicAlternativeNames := PublicAlternativeNames sp |}.

Definition with_properties (pr : ClusterProperty) (sp : ClusterSpec) : ClusterSpec :=
{| Spec_Version := Spec_Version sp; ClusterCIDR := ClusterCIDR sp;
   Spec_ServiceCIDR := Spec_ServiceCIDR sp; Properties := pr;
   Machines := Machines sp; Features := Features sp;
   PublicAlternativeNames := PublicAlternativeNames sp |}.

Definition with_credential (cr : ClusterCredential) (c : Cluster) : Cluster :=
{| Cluster_ := Cluster_ c; Credential := cr |}.

(** The sample record after one successful derivation, and the world it
  leaves behind. *)
Definition derived : cluster.St (R := runtime healthy) :=
snd (cluster.EnsureClusterComplete (provider healthy) (sample_cluster, fresh 0)).

(** A record asking for no pod capacity at all. *)
Definition no_capacity_cluster : Cluster :=
with_spec (with_properties
             {| MaxClusterServiceNum := Some 4096%Z; MaxNodePodNum := Some 0%Z |})
          sample_cluster.

(** A record that declares its service CIDR. *)
Definition declared_cidr_cluster : Cluster :=
with_spec (with_service_cidr (Some "10.96.0.0/12")) sample_cluster.

Definition both_ha : HA :=
{| HA_DKEHA := Some {| DKEHA_VIP := "10.1.0.100" |};
   HA_ThirdPartyHA := Some {| VIP := "10.1.0.200"; VPort := 8443 |} |}.

Definition sample_machine : Machine :=
{| MSpec := {| Machine_ := machine_at "10.1.0.2"; TenantID := "default" |} |}.

(** The sample record with both HA mechanisms and a derived credential. *)
Definition ha_cluster : Cluster :=
  with_credential
    {| Token := Some "1srOrx2ZWZBpBUvZwXKQmoEYga2";
       BootstrapToken := Some "abcdef.0123456789abcdef";
       CertificateKey := Some "2a2a";
       CAKey := "ca-key"; CACert := "ca-cert" |}
    (with_spec (with_features {| Features_HA := Some both_ha; Hooks := ∅ |}) sample_cluster).

(** The same credential, no HA. *)
Definition no_ha_cluster : Cluster :=
  with_credential (Credential ha_cluster) sample_cluster.

(** A hook configured under the pre-install key only, and one under the
    post-install key only. *)
Definition pre_hook_cluster : Cluster :=
  with_spec (with_features
               {| Features_HA := None;
                  Hooks := {[ HookPreInstall := "/opt/hooks/pre.sh --strict" ]} |})
            sample_cluster.

Definition post_hook_cluster : Cluster :=
  with_spec (with_features
               {| Features_HA := None;
                  Hooks := {[ HookPostInstall := "/opt/hooks/post.sh --all" ]} |})
            sample_cluster.

(** Remote commands exit with status 1 and write to stderr. *)
Definition failing_exec : Scenario := with_exec ("boom", 1%Z, None) healthy.

(** A record without public alternative names. *)
Definition no_names_cluster : Cluster := with_spec (with_names []) sample_cluster.

(** One Advertise address followed by one Real address. *)
Definition mixed_addresses : list ClusterAddress :=
  [ {| Type_ := AddressAdvertise; Host := "10.1.0.100"; Port := 6443 |};
    {| Type_ := AddressReal; Host := "10.1.0.1"; Port := 6443 |} ].

End sim.

(** ** What the addresses step is asked to register

    Written after the spec: one Real address at the API port for every
    declared machine, then one Advertise address for every configured HA
    mechanism. *)
Definition api_port : Z := 6443.

Definition real_addresses (spec : ClusterSpec) : list ClusterAddress :=
  map (fun m => {| Type_ := AddressReal; Host := IP m; Port := api_port |}) (Machines spec).

Definition advertise_addresses (spec : ClusterSpec) : list ClusterAddress :=
  match Features_HA (Features spec) with
  | None => []
  | Some ha =>
      (match HA_DKEHA ha with
       | Some dkeha => [ {| Type_ := AddressAdvertise; Host := DKEHA_VIP dkeha; Port := api_port |} ]
       | None => []
       end ++
       match HA_ThirdPartyHA ha with
       | Some tp => [ {| Type_ := AddressAdvertise; Host := VIP tp; Port := VPort tp |} ]
       | None => []
       end)%list
  end.

Definition declared_addresses (spec : ClusterSpec) : list ClusterAddress :=
  (real_addresses spec ++ advertise_addresses spec)%list.

(** The number of HA mechanisms a spec configures. *)
Definition ha_mechanisms (spec : ClusterSpec) : nat :=
  match Features_HA (Features spec) with
  | None => 0
  | Some ha =>
      (if HA_DKEHA ha is Some _ then 1 else 0) + (if HA_ThirdPartyHA ha is Some _ then 1 else 0)
  end.

(** Registering a list of addresses, one [AddAddress] call each, in order. *)
Definition register_all `{Runtime} (addrs : list ClusterAddress) (c : Cluster) : Cluster :=
  set_Status (fun st =>
    {| Status_Version := Status_Version st;
       Status_ServiceCIDR := Status_ServiceCIDR st;
       NodeCIDRMaskSize := NodeCIDRMaskSize st;
       DNSIP := DNSIP st;
       Addresses := fold_left (fun l a => AddAddress (Type_ a) (Host a) (Port a) l)
                              addrs (Addresses st) |}) c.

(** The steps of the derivation that run before the credentials step. *)
Definition first_four `{Runtime} : list (Go cluster.St unit) :=
  [ cluster.completeK8sVersion; cluster.completeNetworking;
    cluster.completeDNS; cluster.completeAddresses ].

(** ** The polls of the node-ready wait

    [observe] is one evaluation of the condition: whether the node shows
    Ready, and the world after the request. [before_poll k] is the world in
    which evaluation [k] takes place when all earlier ones were negative:
    evaluation 0 is immediate, evaluations 1 to [ticks] each follow a sleep
    of [interval], the last one (number [ticks + 1]) follows the closing of
    the channel. *)
Section polls.
Context `{R : Runtime}.
Variables (clusterCtx : ClusterCtx) (machine : Machine).
Variables (interval : Z) (ticks : nat).

Definition observe (w : World) : bool * World :=
let (r, w') := Nodes_Get (ctx_KubeCli clusterCtx) (IP (Machine_ (MSpec machine))) w in
(match r with
 | Ok node => machine.has_ready_condition node
 | Err _ => false
 end, w').

Fixpoint before_poll (k : nat) (w0 : World) : World :=
match k with
| 0 => w0
| S k' =>
    let w := snd (observe (before_poll k' w0)) in
    if Nat.ltb k' ticks then Sleep interval w else w
end.
End polls.

(** The polling schedule of [EnsureNodeReady]: a tick every 5 s for 5 min. *)
Definition node_ready_interval : Z := 5 * time_Second.
Definition node_ready_ticks : nat := Z.to_nat (5 * time_Minute / (5 * time_Second)).

(** [sub] occurs in [s]. *)
Definition contains (s sub : string) : Prop :=
  exists pre post, s = pre +:+ sub +:+ post.

(** ** Further collaborators of the handlers

    What the remaining phases of the two packages call: the installer
    routines, the preflight checks, the host-file helper, the CNI helpers,
    the object builders of the control plane and the kubeconfig helpers of
    package certs; and the fields of the provider configuration they read. *)
Class PhaseRuntime `{R : Runtime} : Type := {
  (* the SSH client *)
  HostIP : SSHClient -> string;
  CombinedOutput : SSHClient -> string -> World -> result string * World;
  (* package constants and pkiutil *)
  KubernetesDir : string;
  ExternalAdminKubeConfigFileName : string;
  (* [p.Cfg.NeedSetHosts()], [p.Cfg.Registry.Domain], [p.Cfg.Registry.IP] *)
  NeedSetHosts : Config -> bool;
  Registry_Domain : Config -> string;
  Registry_IP : Config -> string;
  (* [hosts.RemoteHosts{Host: host, SSH: ssh}.Set(ip)] *)
  RemoteHosts_Set : SSHClient -> string -> string -> World -> option error * World;
  (* packages preflight, system, k8scomponent, cni *)
  RunNodeChecks : SSHClient -> World -> option error * World;
  system_Install : SSHClient -> Cluster -> World -> option error * World;
  k8scomponent_Install : SSHClient -> Cluster -> World -> option error * World;
  ApplyEth : SSHClient -> Cluster -> World -> option error * World;
  ApplyCniCfg : SSHClient -> Cluster -> World -> option error * World;
  (* the methods of [Reconciler{Obj: c, Provider: p}] *)
  apiServerDeployment : Provider -> Cluster -> Object;
  apiServerSvc : Provider -> Cluster -> Object;
  controllerManagerDeployment : Provider -> Cluster -> Object;
  schedulerDeployment : Provider -> Cluster -> Object;
  (* package certs: the kubeconfigs of the returned map, in the order the
     range statement visits them *)
  KubeConfig : Type;
  CreateApiserverKubeConfigFile :
    string -> string -> string -> string -> World -> result (list KubeConfig) * World;
  BuildKubeConfigByte : KubeConfig -> result string;
}.

(** ** Package machine, the remaining phases *)
Module machine_phases.
Section with_runtime.
Context `{PR : PhaseRuntime}.

Definition EnsureClean (p : Provider) (machine : Machine) (cluster : Cluster) : Go World unit :=
  machineSSH <- try (SSH (MSpec machine)) (fun err => err) ;;
  r <- machine.run (CombinedOutput machineSSH ("rm -rf " +:+ KubernetesDir)) ;;
  _ <- try r (fun err => err) ;;
  ret tt.

Definition EnsurePreflight (p : Provider) (machine : Machine) (cluster : Cluster) : Go World unit :=
  machineSSH <- try (SSH (MSpec machine)) (fun err => err) ;;
  check (RunNodeChecks machineSSH) (fun err => err).

(** The slice [domains] of [EnsureRegistryHosts]. *)
Definition registry_domains (p : Provider) (machine : Machine) : list string :=
  [ Registry_Domain (Cfg p);
    TenantID (MSpec machine) +:+ "." +:+ Registry_Domain (Cfg p) ].

Definition EnsureRegistryHosts (p : Provider) (machine : Machine)
    (cluster : Cluster) : Go World unit :=
  if negb (NeedSetHosts (Cfg p)) then ret tt
  else
    machineSSH <- try (SSH (MSpec machine)) (fun err => err) ;;
    for_range (registry_domains p machine) (fun one =>
      check (RemoteHosts_Set machineSSH one (Registry_IP (Cfg p))) (fun err => err)).

Definition EnsureSystem (p : Provider) (machine : Machine) (c : Cluster) : Go World unit :=
  sh <- try (SSH (MSpec machine)) (fun err => err) ;;
  check (system_Install sh c) (fun err => errors_Wrap err (HostIP sh)).

Definition EnsureK8sComponent (p : Provider) (machine : Machine)
    (c : Cluster) : Go World unit :=
  sh <- try (SSH (MSpec machine)) (fun err => err) ;;
  check (k8scomponent_Install sh c) (fun err => errors_Wrap err (HostIP sh)).

Definition EnsureEth (p : Provider) (machine : Machine) (c : Cluster) : Go World unit :=
  match Hooks (Features (Spec (Cluster_ c))) !! HookCniInstall with
  | None => ret tt
  | Some cniType =>
      if decide (cniType = "dke-cni") then
        sh <- try (SSH (MSpec machine)) (fun err => err) ;;
        check (ApplyEth sh c) (fun err => err)
      else ret tt
  end.

Definition EnsureCni (p : Provider) (machine : Machine) (c : Cluster) : Go World unit :=
  match Hooks (Features (Spec (Cluster_ c))) !! HookCniInstall with
  | None => ret tt
  | Some cniType =>
      if decide (cniType = "dke-cni") then
        sh <- try (SSH (MSpec machine)) (fun err => err) ;;
        check (ApplyCniCfg sh c) (fun err => err)
      else ret tt
  end.

End with_runtime.
End machine_phases.

(** ** Package cluster, the control-plane phases *)
Module cluster_phases.
Section with_runtime.
Context `{PR : PhaseRuntime}.

(** The slice [fs] of [EnsureKubeMaster]. *)
Definition control_plane_objects (p : Provider) (c : Cluster) : list Object :=
  [ apiServerDeployment p c; apiServerSvc p c;
    controllerManagerDeployment p c; schedulerDeployment p c ].

(** [client] is the field [c.Client], the client of the management
    cluster, which the record [Cluster] leaves out. *)
Definition EnsureKubeMaster (p : Provider) (c : Cluster) (client : Client) : Go World unit :=
  for_range (control_plane_objects p c) (fun obj =>
    check (Reconcile client obj) (fun err => errors_Wrapf err "create kubeconfig err: " err)).

(** The map [c.ClusterCredential.ExtData], nil or not, which the record
    [ClusterCredential] leaves out, next to the process state. *)
Definition ExtSt : Type := option (gmap string string) * World.

(** [ExtData[key] = value]; a write to a nil map panics. *)
Definition ExtData_store (key value : string) : Go ExtSt unit :=
  fun s =>
    match fst s with
    | Some extData => (Return tt, (Some (<[key := value]> extData), snd s))
    | None => (Panicked "assignment to entry in nil map", s)
    end.

Definition EnsureExtKubeconfig (p : Provider) (c : Cluster) : Go ExtSt unit :=
  modify (fun s => (match fst s with
                    | None => Some ∅
                    | Some extData => Some extData
                    end, snd s)) ;;;
  ha <- deref (Features_HA (Features (Spec (Cluster_ c)))) ;;
  thirdParty <- deref (HA_ThirdPartyHA ha) ;;
  let apiserver := BuildApiserverEndpoint (VIP thirdParty) (GetBindPort (Cluster_ c)) in
  r <- (fun s : ExtSt =>
          let (r, w) := CreateApiserverKubeConfigFile (CAKey (Credential c))
                          (CACert (Credential c)) apiserver (Name (Cluster_ c)) (snd s) in
          (Return r, (fst s, w))) ;;
  cfgMaps <- try r (fun err => err) ;;
  for_range cfgMaps (fun v =>
    by_ <- try (BuildKubeConfigByte v) (fun err => err) ;;
    ExtData_store ExternalAdminKubeConfigFileName by_).

End with_runtime.
End cluster_phases.

(** ** Package apimanager/v1: the cluster queries of [metacluster.go]

    A handler reads the query parameters, asks the management cluster and
    writes one response. The store is only read, so a handler is a function
    of the store; [resp.RespError] and [resp.RespSuccess] are the two
    constructors of [Response]. *)
Module apimanager.

(** [devopsv1.Cluster], as far as these handlers look at it. *)
Record ClusterItem : Type := {
  Name : string;
  Labels : gmap string string;
  NodeCount : Z;
}.

(** [&devopsv1.Cluster{}]. *)
Definition empty_cluster : ClusterItem := {| Name := ""; Labels := ∅; NodeCount := 0 |}.

Definition with_NodeCount (n : Z) (item : ClusterItem) : ClusterItem :=
  {| Name := Name item; Labels := Labels item; NodeCount := n |}.

(** [corev1.Node], as far as the count looks at it. *)
Record NodeItem : Type := { NodeLabels : gmap string string }.

Inductive Data : Type :=
  | ClusterListData (items : list ClusterItem)
  | ClusterData (item : ClusterItem)
  | CountData (counts : gmap string Z).

Inductive Response : Type :=
  | RespError (msg : string)
  | RespSuccess (code : bool) (msg : string) (data : Data) (count : Z).

Definition cluster_role_label : string := "cluster-role.kunkka.io/cluster-role".
Definition master_role_label : string := "node-role.kubernetes.io/master".

Class Backend : Type := {
  Store : Type;
  NodeClient : Type;
  (* [cli.List(ctx, clusters)] on the management cluster *)
  List_clusters : Store -> result (list ClusterItem);
  IsNotFound : error -> bool;
  BuildMetaObj : Store -> result ClusterItem;
  (* [m.getClient(name)]: a client, an error, or neither *)
  getClient : string -> Store -> option NodeClient * option error;
  (* [cli.List(ctx, nodes)] on a member cluster *)
  List_nodes : NodeClient -> Store -> result (list NodeItem);
}.

Section with_backend.
Context `{B : Backend}.

Definition getCount (name : string) (st : Store) : Z :=
  match getClient name st with
  | (Some cli, None) =>
      match List_nodes cli st with
      | Ok nodes => Z.of_nat (length nodes)
      | Err _ => 0
      end
  | _ => 0
  end.

(** [cli.List] followed by the append of the meta cluster; the error branch
    carries the response already. *)
Definition list_with_meta (st : Store) : Response + list ClusterItem :=
  match List_clusters st with
  | Err err =>
      let err := if IsNotFound err then errors_New "cluster is not found." else err in
      inl (RespError (Error err))
  | Ok items =>
      match BuildMetaObj st with
      | Err _ => inl (RespError "build meta cluster error!")
      | Ok metaObj => inr (items ++ [metaObj])%list
      end
  end.

(** One turn of the loop of [getClusterList]: set the node count of
    [Items[i]], then the two tests, each appending [&Items[i]]. *)
Definition select_step (lable : string) (st : Store)
    (clusterList : list ClusterItem) (item : ClusterItem) : list ClusterItem :=
  let item := with_NodeCount (getCount (Name item) st) item in
  let role := default "" (Labels item !! cluster_role_label) in
  let clusterList :=
    if bool_decide (lable = "meta") && bool_decide (role = lable)
    then (clusterList ++ [item])%list else clusterList in
  if bool_decide (lable = "member") && bool_decide (role = lable)
  then (clusterList ++ [item])%list else clusterList.

Definition getClusterList (lable : string) (st : Store) : Response :=
  match list_with_meta st with
  | inl resp => resp
  | inr items =>
      let clusterList := fold_left (select_step lable st) items [] in
      RespSuccess true "success" (ClusterListData clusterList) (Z.of_nat (length clusterList))
  end.

(** The loop of [GetClusterDetail]: the first item of that name ends the
    loop, the range variable then holds it. *)
Fixpoint range_until_name (name : string) (items : list ClusterItem)
    (clusterDetail : ClusterItem) : ClusterItem :=
  match items with
  | [] => clusterDetail
  | cls :: items' =>
      if decide (Name cls = name) then cls
      else range_until_name name items' clusterDetail
  end.

Definition GetClusterDetail (name : string) (st : Store) : Response :=
  match list_with_meta st with
  | inl resp => resp
  | inr items =>
      RespSuccess true "success" (ClusterData (range_until_name name items empty_cluster)) 1
  end.

(** [clusterCount[key] += 1]. *)
Definition increment (key : string) (counts : gmap string Z) : gmap string Z :=
  <[key := (default 0 (counts !! key) + 1)%Z]> counts.

Definition count_step (clusterCount : gmap string Z) (cls : NodeItem) : gmap string Z :=
  match NodeLabels cls !! master_role_label with
  | Some _ => increment "masterCount" clusterCount
  | None => increment "masterWorkerCount" clusterCount
  end.

Definition GetClusterCounts (clusterName : string) (st : Store) : outcome Response :=
  match getClient clusterName st with
  | (_, Some _) => Return (RespError "get cluster client error.")
  | (None, None) => Panicked nil_dereference
  | (Some cli, None) =>
      match List_nodes cli st with
      | Err _ => Return (RespError "get cluster count error")
      | Ok nodes =>
          let clusterCount :=
            fold_left count_step nodes
              (<["masterCount" := 0%Z]> (<["masterWorkerCount" := 0%Z]> ∅)) in
          Return (RespSuccess true "success" (CountData clusterCount)
                    (Z.of_nat (size clusterCount)))
      end
  end.

End with_backend.
End apimanager.

(** ** Concrete collaborators for the remaining phases

    The recording double of [sim], with builders and reconciles that can be
    made to fail, and a double of the further collaborators that records the
    calls in the same trace. *)
Module sim_phases.

Record PhaseScenario : Type := {
  ps_kubeproxy : result (list string);
  ps_coredns : result (list string);
  ps_refused : list string;
  ps_need_hosts : bool;
  ps_hosts_down : list string;
  ps_install : option error;
  ps_kubeconfigs : result (list string);
}.

Definition sim_Reconcile (ps : PhaseScenario) (obj : string) (w : sim.SimWorld)
    : option error * sim.SimWorld :=
  (if bool_decide (obj ∈ ps_refused ps)
   then Some (errors_New ("admission refused " +:+ obj)) else None,
   sim.log (sim.call_Reconcile obj) w).

Definition runtime (sc : sim.Scenario) (ps : PhaseScenario) : Runtime :=
  {| World := sim.SimWorld;
     Config := unit;
     SSHClient := string;
     Object := string;
     ClusterCtx := string;
     Client := string;
     KubeCli := string;
     ctx_Client := fun ctx => ctx;
     ctx_KubeCli := fun ctx => ctx;
     ksuid_New := sim.sim_ksuid_New sc;
     GenerateBootstrapToken := fun w => (sim.sc_bootstrap sc, w);
     crypto_rand_Read := fun _ w => (sim.sc_rand_bytes sc, w);
     math_rand_Intn := sim.sim_Intn;
     math_rand_Intn_lt := fun n w Hn =>
       Nat.mod_upper_bound (sim.rand_seed w) n (proj2 (Nat.neq_0_lt_0 n) Hn);
     GetNodeCIDRMaskSize := fun _ maxPods => sim.sim_mask_size maxPods;
     GetServiceCIDRAndNodeCIDRMaskSize := fun _ => sim.sim_service_cidr_and_mask sc;
     GetIndexedIP := fun _ _ => Ok (sim.sc_dns_ip sc);
     DNSIPIndex := 10;
     Reconcile := fun _ obj w => sim_Reconcile ps obj w;
     AddAddress := sim.sim_AddAddress;
     ClusterManager_Get := fun name _ =>
       if sim.sc_client_ok sc then Ok name
       else Err (errors_New ("cluster " +:+ name +:+ " not found"));
     BuildKubeproxyAddon := fun _ _ => ps_kubeproxy ps;
     BuildCoreDNSAddon := fun _ _ => ps_coredns ps;
     BuildFlannelAddon := fun _ _ => Ok ["kube-flannel"];
     BuildMetricsServerAddon := fun _ => Ok ["metrics-server"];
     SSH := fun spec =>
       if sim.sc_ssh_ok sc then Ok (IP (Machine_ spec))
       else Err (errors_New "ssh: handshake failed");
     Exec := fun sh cmd w =>
       let '(stderr, exit, err) := sim.sc_exec sc in
       (("", stderr, exit, err), sim.log (sim.call_Exec sh cmd) w);
     strconv_Quote := fun s => sim.double_quote +:+ s +:+ sim.double_quote;
     BuildApiserverEndpoint := fun host port => "https://" +:+ host +:+ ":" +:+ pretty port;
     GetBindPort := fun _ => 6443%Z;
     InstallNode := fun sh option w => (None, sim.log (sim.call_InstallNode sh option) w);
     JoinNodePhase := fun sh _ _ apiserver rejoin w =>
       (None, sim.log (sim.call_JoinNodePhase sh apiserver rejoin) w);
     MarkNode := fun _ node _ _ w => (None, sim.log (sim.call_MarkNode node) w);
     Nodes_Get := fun _ name w => sim.sim_Nodes_Get sc name w;
     Sleep := fun d w => sim.log (sim.call_Sleep d) w |}.

Definition provider (sc : sim.Scenario) (ps : PhaseScenario) : @Provider (runtime sc ps) :=
  @Build_Provider (runtime sc ps) tt.

(** Remote helpers leave their trace as the command they stand for. *)
Definition sim_remote (ps : PhaseScenario) (sh what : string) (w : sim.SimWorld)
    : option error * sim.SimWorld :=
  (ps_install ps, sim.log (sim.call_Exec sh what) w).

Definition sim_hosts_Set (ps : PhaseScenario) (sh host ip : string) (w : sim.SimWorld)
    : option error * sim.SimWorld :=
  (if bool_decide (host ∈ ps_hosts_down ps)
   then Some (errors_New ("cannot write hosts entry for " +:+ host)) else None,
   sim.log (sim.call_Exec sh ("hosts " +:+ ip +:+ " " +:+ host)) w).

Definition phases (sc : sim.Scenario) (ps : PhaseScenario) : @PhaseRuntime (runtime sc ps) :=
  @Build_PhaseRuntime (runtime sc ps)
    (fun sh => sh)
    (fun sh cmd w => (Ok "", sim.log (sim.call_Exec sh cmd) w))
    "/etc/kubernetes"
    "admin.kubeconfig"
    (fun _ => ps_need_hosts ps)
    (fun _ => "registry.example.test")
    (fun _ => "10.1.0.250")
    (sim_hosts_Set ps)
    (fun sh w => sim_remote ps sh "preflight" w)
    (fun sh _ w => sim_remote ps sh "install system" w)
    (fun sh _ w => sim_remote ps sh "install k8s components" w)
    (fun sh _ w => sim_remote ps sh "apply eth" w)
    (fun sh _ w => sim_remote ps sh "apply cni" w)
    (fun _ _ => "kube-apiserver")
    (fun _ _ => "kube-apiserver-svc")
    (fun _ _ => "kube-controller-manager")
    (fun _ _ => "kube-scheduler")
    string
    (fun _ _ _ _ w => (ps_kubeconfigs ps, w))
    (fun cfg => if bool_decide (cfg = "") then Err (errors_New "empty kubeconfig") else Ok cfg).

(** Everything succeeds. *)
Definition fine : PhaseScenario :=
  {| ps_kubeproxy := Ok ["kube-proxy-cm"; "kube-proxy"];
     ps_coredns := Ok ["coredns"];
     ps_refused := [];
     ps_need_hosts := true;
     ps_hosts_down := [];
     ps_install := None;
     ps_kubeconfigs := Ok ["kubeconfig-a"; "kubeconfig-b"] |}.

Definition coredns_unbuildable : PhaseScenario :=
  {| ps_kubeproxy := Ok ["kube-proxy-cm"; "kube-proxy"];
     ps_coredns := Err (errors_New "no DNS address");
     ps_refused := [];
     ps_need_hosts := true;
     ps_hosts_down := [];
     ps_install := None;
     ps_kubeconfigs := Ok ["kubeconfig-a"; "kubeconfig-b"] |}.

Definition kubeproxy_unbuildable : PhaseScenario :=
  {| ps_kubeproxy := Err (errors_New "no cluster CIDR");
     ps_coredns := Ok ["coredns"];
     ps_refused := [];
     ps_need_hosts := true;
     ps_hosts_down := [];
     ps_install := None;
     ps_kubeconfigs := Ok ["kubeconfig-a"; "kubeconfig-b"] |}.

Definition refusing (objs : list string) : PhaseScenario :=
  {| ps_kubeproxy := Ok ["kube-proxy-cm"; "kube-proxy"];
     ps_coredns := Ok ["coredns"];
     ps_refused := objs;
     ps_need_hosts := true;
     ps_hosts_down := [];
     ps_install := None;
     ps_kubeconfigs := Ok ["kubeconfig-a"; "kubeconfig-b"] |}.

Definition hosts_down (hosts : list string) : PhaseScenario :=
  {| ps_kubeproxy := Ok ["kube-proxy-cm"; "kube-proxy"];
     ps_coredns := Ok ["coredns"];
     ps_refused := [];
     ps_need_hosts := true;
     ps_hosts_down := hosts;
     ps_install := None;
     ps_kubeconfigs := Ok ["kubeconfig-a"; "kubeconfig-b"] |}.

Definition install_failing : PhaseScenario :=
  {| ps_kubeproxy := Ok ["kube-proxy-cm"; "kube-proxy"];
     ps_coredns := Ok ["coredns"];
     ps_refused := [];
     ps_need_hosts := false;
     ps_hosts_down := [];
     ps_install := Some (errors_New "yum: no package kubelet available");
     ps_kubeconfigs := Ok ["kubeconfig-a"; "kubeconfig-b"] |}.

(** The random source is exhausted when the bootstrap token is drawn, or
    when the certificate key is drawn. *)
Definition bootstrap_down : sim.Scenario :=
  {| sim.sc_ksuids := sim.sc_ksuids sim.healthy;
     sim.sc_bootstrap := Err (errors_New "entropy exhausted");
     sim.sc_rand_bytes := sim.sc_rand_bytes sim.healthy;
     sim.sc_service_cidr := sim.sc_service_cidr sim.healthy;
     sim.sc_dns_ip := sim.sc_dns_ip sim.healthy;
     sim.sc_ssh_ok := true; sim.sc_client_ok := true;
     sim.sc_exec := sim.sc_exec sim.healthy;
     sim.sc_ready_after := sim.sc_ready_after sim.healthy |}.

Definition rand_down : sim.Scenario :=
  {| sim.sc_ksuids := sim.sc_ksuids sim.healthy;
     sim.sc_bootstrap := sim.sc_bootstrap sim.healthy;
     sim.sc_rand_bytes := Err (errors_New "entropy exhausted");
     sim.sc_service_cidr := sim.sc_service_cidr sim.healthy;
     sim.sc_dns_ip := sim.sc_dns_ip sim.healthy;
     sim.sc_ssh_ok := true; sim.sc_client_ok := true;
     sim.sc_exec := sim.sc_exec sim.healthy;
     sim.sc_ready_after := sim.sc_ready_after sim.healthy |}.

(** A record asking for the CNI hook. *)
Definition cni_cluster (cniType : string) : Cluster :=
  sim.with_spec (sim.with_features
                   {| Features_HA := None; Hooks := {[ HookCniInstall := cniType ]} |})
                sim.sample_cluster.

(** A management cluster with two members, and the meta cluster. *)
Definition member (name : string) : apimanager.ClusterItem :=
  {| apimanager.Name := name;
     apimanager.Labels := {[ apimanager.cluster_role_label := "member" ]};
     apimanager.NodeCount := 0 |}.

Definition meta_cluster : apimanager.ClusterItem :=
  {| apimanager.Name := "meta";
     apimanager.Labels := {[ apimanager.cluster_role_label := "meta" ]};
     apimanager.NodeCount := 0 |}.

Definition master_node : apimanager.NodeItem :=
  {| apimanager.NodeLabels := {[ apimanager.master_role_label := "" ]} |}.
Definition worker_node : apimanager.NodeItem :=
  {| apimanager.NodeLabels := {[ "kubernetes.io/os" := "linux" ]} |}.

(** The client of "east" is known and lists three nodes; "west" has no
    client yet. *)
Definition backend : apimanager.Backend :=
  {| apimanager.Store := unit;
     apimanager.NodeClient := string;
     apimanager.List_clusters := fun _ => Ok [member "east"; member "west"];
     apimanager.IsNotFound := fun _ => false;
     apimanager.BuildMetaObj := fun _ => Ok meta_cluster;
     apimanager.getClient := fun name _ =>
       if bool_decide (name = "east") then (Some name, None)
       else (None, Some (errors_New "no client"));
     apimanager.List_nodes := fun _ _ => Ok [master_node; worker_node; worker_node] |}.

(** A record that declares its service CIDR and leaves max-pods-per-node
    unset. *)
Definition unset_pods_cluster : Cluster :=
  sim.with_spec (sim.with_properties
                   {| MaxClusterServiceNum := Some 4096%Z; MaxNodePodNum := None |})
                sim.declared_cidr_cluster.

End sim_phases.

(** The sixteen digits [hex.EncodeToString] writes. *)
Definition is_hex_digit (ch : ascii) : bool :=
  existsb (Ascii.eqb ch) (String.list_ascii_of_string "0123456789abcdef").

(** No space among the characters of [s]. *)
Definition space_free (s : string) : Prop :=
  Forall (fun ch => ch <> " "%char) (String.list_ascii_of_string s).

(** ** Monad lemmas *)

Ltac go_unfold :=
  cbv [bind ret fail panic get modify deref try check
       cluster.the_cluster cluster.update_cluster cluster.in_world machine.run] in *.

Lemma for_range_app {S A} (xs ys : list A) (body : A -> Go S unit) (s : S) :
  for_range (xs ++ ys) body s = (for_range xs body ;;; for_range ys body) s.
Proof.
  revert s. induction xs as [|x xs IH]; intros s; simpl.
  - reflexivity.
  - unfold bind. destruct (body x s) as [[[]|e|msg] s']; try reflexivity.
    rewrite IH. reflexivity.
Qed.

Lemma for_range_abort {S A} (pre post : list A) (x : A) (body : A -> Go S unit)
    (s s1 s2 : S) (e : error) :
  for_range pre body s = (Return tt, s1) ->
  body x s1 = (Failure e, s2) ->
  for_range (pre ++ x :: post) body s = (Failure e, s2).
Proof.
  intros Hpre Hx. rewrite for_range_app. unfold bind. rewrite Hpre.
  simpl. unfold bind. rewrite Hx. reflexivity.
Qed.

Lemma for_range_not_returned {S A} (pre post : list A) (body : A -> Go S unit)
    (s s1 : S) (r : outcome unit) :
  for_range pre body s = (r, s1) ->
  r <> Return tt ->
  for_range (pre ++ post) body s = (r, s1).
Proof.
  intros Hpre Hr. rewrite for_range_app. unfold bind. rewrite Hpre.
  destruct r as [[]|e|msg]; [congruence | reflexivity | reflexivity].
Qed.

(** ** State derivation *)

Section cluster_facts.
Context `{R : Runtime}.

Lemma register_all_nil (c : Cluster) : register_all [] c = c.
Proof. destruct c as [[n sp []] cr]. reflexivity. Qed.

Lemma register_all_app (xs ys : list ClusterAddress) (c : Cluster) :
register_all (xs ++ ys) c = register_all ys (register_all xs c).
Proof. unfold register_all, set_Status. simpl. rewrite fold_left_app. reflexivity. Qed.

Lemma cluster_AddAddress_registers t host port (c : Cluster) (w : World) :
cluster.cluster_AddAddress t host port (c, w)
= (Return tt, (register_all [ {| Type_ := t; Host := host; Port := port |} ] c, w)).
Proof. reflexivity. Qed.

Lemma range_machines_registers (ms : list ClusterMachine) (c : Cluster) (w : World) :
for_range ms (fun m => cluster.cluster_AddAddress AddressReal (IP m) 6443) (c, w)
= (Return tt,
   (register_all
      (map (fun m => {| Type_ := AddressReal; Host := IP m; Port := api_port |}) ms) c, w)).
Proof.
revert c. induction ms as [|m ms IH]; intros c; simpl.
- rewrite register_all_nil. reflexivity.
- unfold bind. rewrite cluster_AddAddress_registers, IH.
  rewrite <- register_all_app. reflexivity.
Qed.

Lemma completeAddresses_registers (c : Cluster) (w : World) :
cluster.completeAddresses (c, w)
= (Return tt, (register_all (declared_addresses (Spec (Cluster_ c))) c, w)).
Proof.
unfold cluster.completeAddresses, declared_addresses, real_addresses, advertise_addresses.
unfold bind at 1. simpl. unfold bind at 1. rewrite range_machines_registers.
rewrite register_all_app.
set (c1 := register_all _ c).
unfold bind, cluster.the_cluster. simpl.
destruct (Features_HA (Features (Spec (Cluster_ c)))) as [ha|]; simpl.
- destruct (HA_DKEHA ha) as [d|], (HA_ThirdPartyHA ha) as [t|]; simpl;
    rewrite ?cluster_AddAddress_registers, ?register_all_nil; reflexivity.
- rewrite register_all_nil. reflexivity.
Qed.

Lemma filter_real_declared (spec : ClusterSpec) :
filter (has_type AddressReal) (declared_addresses spec) = real_addresses spec.
Proof.
unfold declared_addresses. rewrite filter_app.
assert (Hreal : filter (has_type AddressReal) (real_addresses spec) = real_addresses spec).
{ unfold real_addresses. induction (Machines spec) as [|m ms IH]; simpl; [reflexivity|].
  rewrite filter_cons_True by reflexivity.
  f_equal. exact IH. }
assert (Hadv : filter (has_type AddressReal) (advertise_addresses spec) = []).
{ unfold advertise_addresses.
  destruct (Features_HA (Features spec)) as [ha|]; [|reflexivity].
  destruct (HA_DKEHA ha), (HA_ThirdPartyHA ha); reflexivity. }
rewrite Hreal, Hadv. apply app_nil_r.
Qed.

Lemma filter_advertise_declared (spec : ClusterSpec) :
filter (has_type AddressAdvertise) (declared_addresses spec) = advertise_addresses spec.
Proof.
unfold declared_addresses. rewrite filter_app.
assert (Hreal : filter (has_type AddressAdvertise) (real_addresses spec) = []).
{ unfold real_addresses. induction (Machines spec) as [|m ms IH]; simpl; [reflexivity|].
  rewrite filter_cons_False by (unfold has_type; simpl; discriminate).
  exact IH. }
assert (Hadv : filter (has_type AddressAdvertise) (advertise_addresses spec)
               = advertise_addresses spec).
{ unfold advertise_addresses.
  destruct (Features_HA (Features spec)) as [ha|]; [|reflexivity].
  destruct (HA_DKEHA ha), (HA_ThirdPartyHA ha); reflexivity. }
rewrite Hreal, Hadv. reflexivity.
Qed.

Lemma length_advertise_addresses (spec : ClusterSpec) :
length (advertise_addresses spec) = ha_mechanisms spec.
Proof.
unfold advertise_addresses, ha_mechanisms.
destruct (Features_HA (Features spec)) as [ha|]; [|reflexivity].
destruct (HA_DKEHA ha), (HA_ThirdPartyHA ha); reflexivity.
Qed.

(** The first four steps leave the credential and the world alone. *)
Lemma K8sVersion_keeps_credential (s : cluster.St) :
exists r c', cluster.completeK8sVersion s = (r, (c', snd s))
             /\ Credential c' = Credential (fst s).
Proof. destruct s as [c w]. do 2 eexists. split; reflexivity. Qed.

Lemma Networking_keeps_credential (s : cluster.St) :
exists r c', cluster.completeNetworking s = (r, (c', snd s))
             /\ Credential c' = Credential (fst s).
Proof.
destruct s as [c w]. unfold cluster.completeNetworking. go_unfold. simpl.
destruct (Spec_ServiceCIDR (Spec (Cluster_ c))) as [svc|]; simpl.
- destruct (MaxNodePodNum (Properties (Spec (Cluster_ c)))) as [n|]; simpl;
    [|do 2 eexists; split; reflexivity].
  destruct (GetNodeCIDRMaskSize _ n); simpl; do 2 eexists; split; reflexivity.
- destruct (MaxClusterServiceNum (Properties (Spec (Cluster_ c)))) as [m|]; simpl;
    [|do 2 eexists; split; reflexivity].
  destruct (MaxNodePodNum (Properties (Spec (Cluster_ c)))) as [n|]; simpl;
    [|do 2 eexists; split; reflexivity].
  destruct (GetServiceCIDRAndNodeCIDRMaskSize _ m n) as [[s' mask]|e]; simpl;
    do 2 eexists; split; reflexivity.
Qed.

Lemma DNS_keeps_credential (s : cluster.St) :
exists r c', cluster.completeDNS s = (r, (c', snd s))
             /\ Credential c' = Credential (fst s).
Proof.
destruct s as [c w]. unfold cluster.completeDNS. go_unfold. simpl.
destruct (GetIndexedIP _ _); simpl; do 2 eexists; split; reflexivity.
Qed.

Lemma Addresses_keeps_credential (s : cluster.St) :
exists r c', cluster.completeAddresses s = (r, (c', snd s))
             /\ Credential c' = Credential (fst s).
Proof.
destruct s as [c w]. rewrite completeAddresses_registers.
do 2 eexists. split; reflexivity.
Qed.

Lemma first_four_keep_credential (s : cluster.St) (r : outcome unit) (s4 : cluster.St) :
for_range first_four (fun f => f) s = (r, s4) ->
Credential (fst s4) = Credential (fst s) /\ snd s4 = snd s.
Proof.
unfold first_four. simpl. unfold bind, ret.
destruct (K8sVersion_keeps_credential s) as (r1 & c1 & E1 & H1). rewrite E1.
destruct (Networking_keeps_credential (c1, snd s)) as (r2 & c2 & E2 & H2).
destruct (DNS_keeps_credential (c2, snd s)) as (r3 & c3 & E3 & H3).
destruct (Addresses_keeps_credential (c3, snd s)) as (r4 & c4 & E4 & H4).
simpl in *.
destruct r1 as [[]|e|m]; [|intros [= <- <-]; auto..].
rewrite E2. destruct r2 as [[]|e|m]; [|intros [= <- <-]; simpl; split; congruence..].
rewrite E3. destruct r3 as [[]|e|m]; [|intros [= <- <-]; simpl; split; congruence..].
rewrite E4. destruct r4 as [[]|e|m]; intros [= <- <-]; simpl; split; congruence.
Qed.

Lemma completeCredential_token (c : Cluster) (w : World) :
Token (Credential (fst (snd (cluster.completeCredential (c, w)))))
= Some (fst (ksuid_New w)).
Proof.
unfold cluster.completeCredential. go_unfold. simpl.
destruct (ksuid_New w) as [token w1]; simpl.
destruct (GenerateBootstrapToken w1) as [[b|e] w2]; simpl; [|reflexivity].
destruct (crypto_rand_Read 32 w2) as [[bs|e] w3]; reflexivity.
Qed.

Lemma funcs_split : cluster.funcs = (first_four ++ [cluster.completeCredential])%list.
Proof. reflexivity. Qed.

End cluster_facts.

(** C6. State derivation runs exactly the five steps version, networking,
    DNS, addresses, credentials, in that order; and when the steps before
    some step [f] return nil and [f] returns an error, the derivation
    returns that very error from the state [f] left: no later step runs. *)
Theorem EnsureClusterComplete_in_order_first_error_aborts `{R : Runtime}
    (p : Provider) (s : cluster.St) :
  cluster.EnsureClusterComplete p s
  = (cluster.completeK8sVersion ;;; cluster.completeNetworking ;;;
     cluster.completeDNS ;;; cluster.completeAddresses ;;;
     cluster.completeCredential) s
  /\ forall (pre post : list (Go cluster.St unit)) (f : Go cluster.St unit)
            (s1 s2 : cluster.St) (e : error),
       [ cluster.completeK8sVersion; cluster.completeNetworking; cluster.completeDNS;
         cluster.completeAddresses; cluster.completeCredential ] = (pre ++ f :: post)%list ->
       for_range pre (fun g => g) s = (Return tt, s1) ->
       f s1 = (Failure e, s2) ->
       cluster.EnsureClusterComplete p s = (Failure e, s2).
Proof.
  split.
  - unfold cluster.EnsureClusterComplete, cluster.funcs. simpl. unfold bind, ret.
    destruct (cluster.completeK8sVersion s) as [[[]|?|?] s1]; try reflexivity.
    destruct (cluster.completeNetworking s1) as [[[]|?|?] s2]; try reflexivity.
    destruct (cluster.completeDNS s2) as [[[]|?|?] s3]; try reflexivity.
    destruct (cluster.completeAddresses s3) as [[[]|?|?] s4]; try reflexivity.
    destruct (cluster.completeCredential s4) as [[[]|?|?] s5]; reflexivity.
  - intros pre post f s1 s2 e Hsplit Hpre Hf.
    unfold cluster.EnsureClusterComplete, cluster.funcs. rewrite Hsplit.
    exact (for_range_abort pre post f (fun g => g) s s1 s2 e Hpre Hf).
Qed.

Lemma EnsureClusterComplete_in_order_first_error_aborts_witness :
  cluster.EnsureClusterComplete (R := sim.runtime sim.healthy) (sim.provider sim.healthy)
      (sim.no_capacity_cluster, sim.fresh 0)
  = (Failure (errors_Wrap (errors_New "maxNodePodNum must more than 0")
                          "GetServiceCIDRAndNodeCIDRMaskSize error"),
     (set_Status (with_Version "1.18.5") sim.no_capacity_cluster, sim.fresh 0)).
Proof.
  apply (proj2 (EnsureClusterComplete_in_order_first_error_aborts
                  (R := sim.runtime sim.healthy) (sim.provider sim.healthy)
                  (sim.no_capacity_cluster, sim.fresh 0))
               [cluster.completeK8sVersion]
               [cluster.completeDNS; cluster.completeAddresses; cluster.completeCredential]
               cluster.completeNetworking
               (set_Status (with_Version "1.18.5") sim.no_capacity_cluster, sim.fresh 0)).
  - reflexivity.
  - reflexivity.
  - reflexivity.
Defined.

(** C1, as the code has it. Re-running completion regenerates the token:
    whatever token the record holds, once the four steps before the
    credentials step have returned nil the stored token is the identifier
    freshly drawn from the generator; the token stays as it was only when
    one of those four steps does not return nil. *)
Theorem completion_regenerates_token `{R : Runtime}
    (p : Provider) (c : Cluster) (w : World) (r : outcome unit) (s4 : cluster.St) :
  for_range first_four (fun f => f) (c, w) = (r, s4) ->
  Token (Credential (fst (snd (cluster.EnsureClusterComplete p (c, w)))))
  = match r with
    | Return _ => Some (fst (ksuid_New w))
    | _ => Token (Credential c)
    end.
Proof.
  intros H4.
  destruct (first_four_keep_credential _ _ _ H4) as [Hcred Hw]. simpl in Hcred, Hw.
  unfold cluster.EnsureClusterComplete. rewrite funcs_split, for_range_app.
  unfold bind at 1. rewrite H4.
  destruct r as [[]|e|m]; simpl; [|congruence..].
  unfold bind, ret. destruct s4 as [c4 w4]. simpl in Hw. subst w4.
  pose proof (completeCredential_token c4 w) as Htok.
  destruct (cluster.completeCredential (c4, w)) as [[[]|?|?] s5]; exact Htok.
Qed.

Lemma completion_regenerates_token_witness :
  Token (Credential (fst sim.derived)) = Some "1srOrx2ZWZBpBUvZwXKQmoEYga2"
  /\ Token (Credential (fst (snd (cluster.EnsureClusterComplete (R := sim.runtime sim.healthy)
                                    (sim.provider sim.healthy)
                                    (fst sim.derived, snd sim.derived)))))
     = Some "1sbuImMYkxzvAorsCEqrW81uMBH".
Proof.
  split; [vm_compute; reflexivity|].
  pose proof (completion_regenerates_token (R := sim.runtime sim.healthy)
                (sim.provider sim.healthy) (fst sim.derived) (snd sim.derived) (Return tt)
                (snd (for_range (first_four (H := sim.runtime sim.healthy)) (fun f => f)
                        (fst sim.derived, snd sim.derived)))) as X.
  assert (H4 : for_range (first_four (H := sim.runtime sim.healthy)) (fun f => f)
                 (fst sim.derived, snd sim.derived)
               = (Return tt,
                  snd (for_range (first_four (H := sim.runtime sim.healthy)) (fun f => f)
                         (fst sim.derived, snd sim.derived))))
    by (vm_compute; reflexivity).
  specialize (X H4). vm_compute in X. vm_compute. exact X.
Defined.

(** C1, as the spec has it, fails: the sample record has been derived and
    holds a token; completing it a second time succeeds and leaves another
    token in its place. *)
Lemma second_completion_changes_token :
  Token (Credential (fst sim.derived)) = Some "1srOrx2ZWZBpBUvZwXKQmoEYga2"
  /\ fst (cluster.EnsureClusterComplete (R := sim.runtime sim.healthy)
            (sim.provider sim.healthy) sim.derived) = Return tt
  /\ Token (Credential (fst (snd (cluster.EnsureClusterComplete (R := sim.runtime sim.healthy)
                                    (sim.provider sim.healthy) sim.derived))))
     <> Token (Credential (fst sim.derived)).
Proof.
  split; [vm_compute; reflexivity|]. split; [vm_compute; reflexivity|].
  vm_compute. discriminate.
Qed.

(** C8. The addresses step registers, in order, one Real address at port
    6443 for every declared machine and then one Advertise address for every
    configured HA mechanism (the self-managed VIP at port 6443, the
    third-party VIP at its own port); it registers nothing else, so without
    HA no Advertise address is registered. *)
Theorem completeAddresses_registers_declared `{R : Runtime} (c : Cluster) (w : World) :
  cluster.completeAddresses (c, w)
  = (Return tt, (register_all (declared_addresses (Spec (Cluster_ c))) c, w))
  /\ filter (has_type AddressReal) (declared_addresses (Spec (Cluster_ c)))
     = map (fun m => {| Type_ := AddressReal; Host := IP m; Port := 6443 |})
           (Machines (Spec (Cluster_ c)))
  /\ filter (has_type AddressAdvertise) (declared_addresses (Spec (Cluster_ c)))
     = match Features_HA (Features (Spec (Cluster_ c))) with
       | None => []
       | Some ha =>
           (match HA_DKEHA ha with
            | Some dkeha =>
                [ {| Type_ := AddressAdvertise; Host := DKEHA_VIP dkeha; Port := 6443 |} ]
            | None => []
            end ++
            match HA_ThirdPartyHA ha with
            | Some tp => [ {| Type_ := AddressAdvertise; Host := VIP tp; Port := VPort tp |} ]
            | None => []
            end)%list
       end
  /\ length (filter (has_type AddressAdvertise) (declared_addresses (Spec (Cluster_ c))))
     = ha_mechanisms (Spec (Cluster_ c)).
Proof.
  split; [apply completeAddresses_registers|].
  split; [apply filter_real_declared|].
  split; [apply filter_advertise_declared|].
  rewrite filter_advertise_declared. apply length_advertise_addresses.
Qed.

(** The scenario of the spec: three machines, no HA, cluster CIDR
    10.0.0.0/16, 4096 services, 64 pods per node. *)
Example derivation_scenario :
  fst (cluster.EnsureClusterComplete (R := sim.runtime sim.healthy)
         (sim.provider sim.healthy) (sim.sample_cluster, sim.fresh 0)) = Return tt
  /\ Addresses (Status (Cluster_ (fst sim.derived)))
     = [ {| Type_ := AddressReal; Host := "10.1.0.1"; Port := 6443 |};
         {| Type_ := AddressReal; Host := "10.1.0.2"; Port := 6443 |};
         {| Type_ := AddressReal; Host := "10.1.0.3"; Port := 6443 |} ]
  /\ NodeCIDRMaskSize (Status (Cluster_ (fst sim.derived))) = 26%Z
  /\ Token (Credential (fst sim.derived)) = Some "1srOrx2ZWZBpBUvZwXKQmoEYga2"
  /\ BootstrapToken (Credential (fst sim.derived)) = Some "abcdef.0123456789abcdef".
Proof. repeat split; vm_compute; reflexivity. Qed.

(** With both HA mechanisms the two Advertise addresses follow the Real
    ones. *)
Example derivation_scenario_ha :
  Addresses (Status (Cluster_ (fst (snd (cluster.completeAddresses
                                           (R := sim.runtime sim.healthy)
                                           (sim.ha_cluster, sim.fresh 0))))))
  = [ {| Type_ := AddressReal; Host := "10.1.0.1"; Port := 6443 |};
      {| Type_ := AddressReal; Host := "10.1.0.2"; Port := 6443 |};
      {| Type_ := AddressReal; Host := "10.1.0.3"; Port := 6443 |};
      {| Type_ := AddressAdvertise; Host := "10.1.0.100"; Port := 6443 |};
      {| Type_ := AddressAdvertise; Host := "10.1.0.200"; Port := 8443 |} ].
Proof. vm_compute. reflexivity. Qed.

(** C9, as the code has it. For a record whose max-pods-per-node is set
    (and whose max-services is set when no service CIDR is declared): with a
    declared service CIDR the networking step copies it into status and
    derives only the node-CIDR mask size, from the cluster CIDR and
    max-pods-per-node; without one it derives the service CIDR and the mask
    size together, from the cluster CIDR, max-services and
    max-pods-per-node. On success the two status fields hold the derived
    values and nothing else of the record changes; a derivation error is
    returned (wrapped) and leaves the record as it was: status is written
    only on success. *)
Theorem completeNetworking_derives `{R : Runtime} (c : Cluster) (w : World) (maxPods : Z) :
  MaxNodePodNum (Properties (Spec (Cluster_ c))) = Some maxPods ->
  (Spec_ServiceCIDR (Spec (Cluster_ c)) = None ->
   is_Some (MaxClusterServiceNum (Properties (Spec (Cluster_ c))))) ->
  match Spec_ServiceCIDR (Spec (Cluster_ c)) with
  | Some declared =>
      match GetNodeCIDRMaskSize (ClusterCIDR (Spec (Cluster_ c))) maxPods with
      | Ok mask =>
          exists c',
            cluster.completeNetworking (c, w) = (Return tt, (c', w))
            /\ Status_ServiceCIDR (Status (Cluster_ c')) = declared
            /\ NodeCIDRMaskSize (Status (Cluster_ c')) = mask
            /\ Status_Version (Status (Cluster_ c')) = Status_Version (Status (Cluster_ c))
            /\ DNSIP (Status (Cluster_ c')) = DNSIP (Status (Cluster_ c))
            /\ Addresses (Status (Cluster_ c')) = Addresses (Status (Cluster_ c))
            /\ Name (Cluster_ c') = Name (Cluster_ c)
            /\ Spec (Cluster_ c') = Spec (Cluster_ c)
            /\ Credential c' = Credential c
      | Err err =>
          cluster.completeNetworking (c, w)
          = (Failure (errors_Wrap err "GetNodeCIDRMaskSize error"), (c, w))
      end
  | None =>
      exists maxServices,
        MaxClusterServiceNum (Properties (Spec (Cluster_ c))) = Some maxServices
        /\ match GetServiceCIDRAndNodeCIDRMaskSize (ClusterCIDR (Spec (Cluster_ c)))
                   maxServices maxPods with
           | Ok (cidr, mask) =>
               exists c',
                 cluster.completeNetworking (c, w) = (Return tt, (c', w))
                 /\ Status_ServiceCIDR (Status (Cluster_ c')) = cidr
                 /\ NodeCIDRMaskSize (Status (Cluster_ c')) = mask
                 /\ Status_Version (Status (Cluster_ c'))
                    = Status_Version (Status (Cluster_ c))
                 /\ DNSIP (Status (Cluster_ c')) = DNSIP (Status (Cluster_ c))
                 /\ Addresses (Status (Cluster_ c')) = Addresses (Status (Cluster_ c))
                 /\ Name (Cluster_ c') = Name (Cluster_ c)
                 /\ Spec (Cluster_ c') = Spec (Cluster_ c)
                 /\ Credential c' = Credential c
           | Err err =>
               cluster.completeNetworking (c, w)
               = (Failure (errors_Wrap err "GetServiceCIDRAndNodeCIDRMaskSize error"), (c, w))
           end
  end.
Proof.
  intros Hpods Hsvc. unfold cluster.completeNetworking. go_unfold. simpl.
  destruct (Spec_ServiceCIDR (Spec (Cluster_ c))) as [declared|].
  - rewrite Hpods. simpl.
    destruct (GetNodeCIDRMaskSize _ maxPods) as [mask|err]; [|reflexivity].
    eexists. split; [reflexivity|]. simpl. repeat split.
  - destruct (Hsvc eq_refl) as [maxServices Hm]. exists maxServices. split; [exact Hm|].
    rewrite Hm, Hpods. simpl.
    destruct (GetServiceCIDRAndNodeCIDRMaskSize _ maxServices maxPods) as [[cidr mask]|err];
      [|reflexivity].
    eexists. split; [reflexivity|]. simpl. repeat split.
Qed.

Lemma completeNetworking_derives_witness :
  (MaxNodePodNum (Properties (Spec (Cluster_ sim.declared_cidr_cluster))) = Some 64%Z
   /\ exists c',
        cluster.completeNetworking (R := sim.runtime sim.healthy)
          (sim.declared_cidr_cluster, sim.fresh 0) = (Return tt, (c', sim.fresh 0))
        /\ Status_ServiceCIDR (Status (Cluster_ c')) = "10.96.0.0/12"
        /\ NodeCIDRMaskSize (Status (Cluster_ c')) = 26%Z)
  /\ (MaxNodePodNum (Properties (Spec (Cluster_ sim.no_capacity_cluster))) = Some 0%Z
      /\ exists maxServices,
           MaxClusterServiceNum (Properties (Spec (Cluster_ sim.no_capacity_cluster)))
           = Some maxServices
           /\ cluster.completeNetworking (R := sim.runtime sim.healthy)
                (sim.no_capacity_cluster, sim.fresh 0)
              = (Failure (errors_Wrap (errors_New "maxNodePodNum must more than 0")
                                      "GetServiceCIDRAndNodeCIDRMaskSize error"),
                 (sim.no_capacity_cluster, sim.fresh 0))).
Proof.
  split; (split; [reflexivity|]).
  - destruct (completeNetworking_derives (R := sim.runtime sim.healthy)
                sim.declared_cidr_cluster (sim.fresh 0) 64%Z)
      as (c' & E & Hcidr & Hmask & _).
    + reflexivity.
    + simpl. discriminate.
    + exists c'. split; [exact E|]. split; [exact Hcidr | exact Hmask].
  - destruct (completeNetworking_derives (R := sim.runtime sim.healthy)
                sim.no_capacity_cluster (sim.fresh 0) 0%Z)
      as [maxServices [Hm H]].
    + reflexivity.
    + intros _. simpl. eexists. reflexivity.
    + exists maxServices. split; [exact Hm|].
      simpl in Hm. injection Hm as <-. exact H.
Defined.

(** C9, as stated, fails: the record declares its service CIDR, but its
    max-pods-per-node is nil; the networking step panics on the nil
    dereference, returns neither nil nor an error, and the declared CIDR is
    not copied into status. *)
Lemma completeNetworking_panics_on_nil_pod_limit :
  Spec_ServiceCIDR (Spec (Cluster_ sim_phases.unset_pods_cluster)) = Some "10.96.0.0/12"
  /\ MaxNodePodNum (Properties (Spec (Cluster_ sim_phases.unset_pods_cluster))) = None
  /\ cluster.completeNetworking (R := sim.runtime sim.healthy)
       (sim_phases.unset_pods_cluster, sim.fresh 0)
     = (Panicked nil_dereference, (sim_phases.unset_pods_cluster, sim.fresh 0))
  /\ Status_ServiceCIDR (Status (Cluster_ sim_phases.unset_pods_cluster)) <> "10.96.0.0/12".
Proof.
  split; [vm_compute; reflexivity|].
  split; [vm_compute; reflexivity|].
  split; [vm_compute; reflexivity|].
  vm_compute. discriminate.
Qed.


(** ** Phases that need the client of the target cluster *)

(** C3. When the lookup of the target cluster's client fails, the addon
    phases, the mark-node phase and the node-ready wait return nil and leave
    the world as it was. *)
Theorem client_lookup_failure_is_benign `{R : Runtime}
    (p : Provider) (m : Machine) (c : Cluster) (w : World) (e : error) :
  ClusterManager_Get (Name (Cluster_ c)) w = Err e ->
  cluster.EnsureAddons p c w = (Return tt, w)
  /\ cluster.EnsureFlannel p c w = (Return tt, w)
  /\ cluster.EnsureMetricsServer p c w = (Return tt, w)
  /\ machine.EnsureMarkNode p m c w = (Return tt, w)
  /\ machine.EnsureNodeReady p m c w = (Return tt, w).
Proof.
  intros Hget.
  unfold cluster.EnsureAddons, cluster.EnsureFlannel, cluster.EnsureMetricsServer,
    machine.EnsureMarkNode, machine.EnsureNodeReady.
  rewrite Hget. repeat split.
Qed.

Lemma client_lookup_failure_is_benign_witness :
  ClusterManager_Get (Runtime := sim.runtime (sim.without_client sim.healthy))
    (Name (Cluster_ sim.sample_cluster)) (sim.fresh 0)
  = Err (errors_New "cluster demo not found")
  /\ cluster.EnsureAddons (R := sim.runtime (sim.without_client sim.healthy))
       (sim.provider _) sim.sample_cluster (sim.fresh 0) = (Return tt, sim.fresh 0)
  /\ cluster.EnsureFlannel (R := sim.runtime (sim.without_client sim.healthy))
       (sim.provider _) sim.sample_cluster (sim.fresh 0) = (Return tt, sim.fresh 0)
  /\ cluster.EnsureMetricsServer (R := sim.runtime (sim.without_client sim.healthy))
       (sim.provider _) sim.sample_cluster (sim.fresh 0) = (Return tt, sim.fresh 0)
  /\ machine.EnsureMarkNode (R := sim.runtime (sim.without_client sim.healthy))
       (sim.provider _) sim.sample_machine sim.sample_cluster (sim.fresh 0)
     = (Return tt, sim.fresh 0)
  /\ machine.EnsureNodeReady (R := sim.runtime (sim.without_client sim.healthy))
       (sim.provider _) sim.sample_machine sim.sample_cluster (sim.fresh 0)
     = (Return tt, sim.fresh 0).
Proof.
  split; [reflexivity|].
  apply (client_lookup_failure_is_benign (R := sim.runtime (sim.without_client sim.healthy))
           (sim.provider _) sim.sample_machine sim.sample_cluster (sim.fresh 0)
           (errors_New "cluster demo not found")).
  reflexivity.
Defined.

(** With the client at hand the addon phase does reconcile: the lookup is
    what decides. *)
Example EnsureAddons_reconciles_with_client :
  cluster.EnsureAddons (R := sim.runtime sim.healthy) (sim.provider _)
    sim.sample_cluster (sim.fresh 0)
  = (Return tt,
     sim.log (sim.call_Reconcile "coredns") (sim.log (sim.call_Reconcile "kube-proxy") (sim.fresh 0))).
Proof. vm_compute. reflexivity. Qed.

(** ** Join *)

(** C10, as the code has it. The join phase first asks for the machine's
    remote handle and returns the error when there is none; with the handle
    it takes the first public alternative name without checking the length,
    so on an empty list it panics with an index out of range, and on a
    non-empty list it runs the join procedure against the endpoint of the
    first name. *)
Theorem EnsureJoinNode_indexes_first_name `{R : Runtime}
    (p : Provider) (m : Machine) (c : Cluster) (w : World) :
  machine.EnsureJoinNode p m c w
  = match SSH (MSpec m) with
    | Err err => (Failure err, w)
    | Ok sh =>
        match PublicAlternativeNames (Spec (Cluster_ c)) with
        | [] => (Panicked index_out_of_range_0, w)
        | name :: _ =>
            match JoinNodePhase sh (Cfg p) c
                    (BuildApiserverEndpoint name (GetBindPort (Cluster_ c))) false w with
            | (None, w') => (Return tt, w')
            | (Some err, w') => (Failure err, w')
            end
        end
    end.
Proof.
  unfold machine.EnsureJoinNode, machine.index_0. go_unfold.
  destruct (SSH (MSpec m)) as [sh|err]; [|reflexivity].
  destruct (PublicAlternativeNames (Spec (Cluster_ c))) as [|name names]; reflexivity.
Qed.

(** C10, as stated, fails: the record has no alternative name, yet the
    phase returns an error instead of panicking, because the machine cannot
    be reached and the list is never looked at. *)
Lemma EnsureJoinNode_returns_error_on_empty_names :
  PublicAlternativeNames (Spec (Cluster_ sim.no_names_cluster)) = []
  /\ machine.EnsureJoinNode (R := sim.runtime (sim.without_ssh sim.healthy))
       (sim.provider _) sim.sample_machine sim.no_names_cluster (sim.fresh 0)
     = (Failure (errors_New "ssh: handshake failed"), sim.fresh 0).
Proof. split; vm_compute; reflexivity. Qed.

(** With a reachable machine the same record makes the phase panic. *)
Example EnsureJoinNode_panics_on_empty_names :
  machine.EnsureJoinNode (R := sim.runtime sim.healthy)
    (sim.provider _) sim.sample_machine sim.no_names_cluster (sim.fresh 0)
  = (Panicked index_out_of_range_0, sim.fresh 0).
Proof. vm_compute. reflexivity. Qed.

(** ** Node kubeconfig *)

(** C7, as the code has it. For a reachable machine of a cluster with
    third-party HA and a cluster token, the phase installs a kubeconfig whose
    endpoint is built from the third-party VIP and the bind port, with the
    cluster's CA certificate and the cluster token [ClusterCredential.Token]. *)
Theorem EnsureKubeconfig_uses_cluster_token `{R : Runtime}
    (p : Provider) (m : Machine) (c : Cluster) (w : World)
    (sh : SSHClient) (ha : HA) (tp : ThirdPartyHA) (token : string) :
  SSH (MSpec m) = Ok sh ->
  Features_HA (Features (Spec (Cluster_ c))) = Some ha ->
  HA_ThirdPartyHA ha = Some tp ->
  Token (Credential c) = Some token ->
  machine.EnsureKubeconfig p m c w
  = match InstallNode sh
            {| MasterEndpoint := BuildApiserverEndpoint (VIP tp) (GetBindPort (Cluster_ c));
               ClusterName := Name (Cluster_ c);
               Option_CACert := CACert (Credential c);
               Option_Token := token |} w with
    | (None, w') => (Return tt, w')
    | (Some err, w') => (Failure err, w')
    end.
Proof.
  intros Hssh Hha Htp Htok. unfold machine.EnsureKubeconfig. go_unfold.
  rewrite Hssh, Hha. simpl. rewrite Htp, Htok. reflexivity.
Qed.

Lemma EnsureKubeconfig_uses_cluster_token_witness :
  machine.EnsureKubeconfig (R := sim.runtime sim.healthy)
    (sim.provider _) sim.sample_machine sim.ha_cluster (sim.fresh 0)
  = (Return tt,
     sim.log (sim.call_InstallNode "10.1.0.2"
                {| MasterEndpoint := "https://10.1.0.200:6443";
                   ClusterName := "demo";
                   Option_CACert := "ca-cert";
                   Option_Token := "1srOrx2ZWZBpBUvZwXKQmoEYga2" |})
             (sim.fresh 0)).
Proof.
  pose proof (EnsureKubeconfig_uses_cluster_token (R := sim.runtime sim.healthy)
                (sim.provider _) sim.sample_machine sim.ha_cluster (sim.fresh 0)
                "10.1.0.2" sim.both_ha {| VIP := "10.1.0.200"; VPort := 8443 |}
                "1srOrx2ZWZBpBUvZwXKQmoEYga2"
                eq_refl eq_refl eq_refl eq_refl) as X.
  vm_compute in X. vm_compute. exact X.
Defined.

(** C7, as stated, fails: the bootstrap token of the record is not the
    token the installed kubeconfig carries; without HA the phase builds no
    kubeconfig at all, it panics on the nil HA configuration; and for a
    machine that cannot be reached it returns the connection error. *)
Lemma EnsureKubeconfig_not_bootstrap_token :
  BootstrapToken (Credential sim.ha_cluster) = Some "abcdef.0123456789abcdef"
  /\ sim.calls (snd (machine.EnsureKubeconfig (R := sim.runtime sim.healthy)
                       (sim.provider _) sim.sample_machine sim.ha_cluster (sim.fresh 0)))
     = [ sim.call_InstallNode "10.1.0.2"
           {| MasterEndpoint := "https://10.1.0.200:6443";
              ClusterName := "demo";
              Option_CACert := "ca-cert";
              Option_Token := "1srOrx2ZWZBpBUvZwXKQmoEYga2" |} ]
  /\ "1srOrx2ZWZBpBUvZwXKQmoEYga2" <> "abcdef.0123456789abcdef"
  /\ machine.EnsureKubeconfig (R := sim.runtime sim.healthy)
       (sim.provider _) sim.sample_machine sim.no_ha_cluster (sim.fresh 0)
     = (Panicked nil_dereference, sim.fresh 0)
  /\ machine.EnsureKubeconfig (R := sim.runtime (sim.without_ssh sim.healthy))
       (sim.provider _) sim.sample_machine sim.ha_cluster (sim.fresh 0)
     = (Failure (errors_New "ssh: handshake failed"), sim.fresh 0).
Proof.
  split; [vm_compute; reflexivity|].
  split; [vm_compute; reflexivity|].
  split; [discriminate|].
  split; vm_compute; reflexivity.
Qed.


(** ** Hooks *)

Lemma string_app_assoc (a b c : string) : (a +:+ b) +:+ c = a +:+ b +:+ c.
Proof.
  induction a as [|ch a IH]; [reflexivity|].
  change (String ch ((a +:+ b) +:+ c) = String ch (a +:+ b +:+ c)).
  f_equal. exact IH.
Qed.

(** The error of a failed hook carries the captured stderr and the exit
    code. *)
Lemma hook_failed_mentions `{R : Runtime} (hook stderr : string) (exit : Z)
    (err : option error) :
  contains (Error (machine.hook_failed hook exit stderr err)) stderr
  /\ contains (Error (machine.hook_failed hook exit stderr err)) (pretty exit).
Proof.
  unfold machine.hook_failed, contains. cbn [Error]. split.
  - exists ("exec " +:+ strconv_Quote hook +:+ " failed:exit " +:+ pretty exit +:+ ":stderr "),
           (":error " +:+ machine.fmt_s_error err).
    rewrite !string_app_assoc. reflexivity.
  - exists ("exec " +:+ strconv_Quote hook +:+ " failed:exit "),
           (":stderr " +:+ stderr +:+ ":error " +:+ machine.fmt_s_error err).
    rewrite !string_app_assoc. reflexivity.
Qed.

(** The pre-install phase looks at the post-install key only: without a
    hook under that key nothing is run, whatever the other keys hold. *)
Lemma EnsurePreInstallHook_without_post_install_key `{R : Runtime}
    (p : Provider) (m : Machine) (c : Cluster) (w : World) :
  Hooks (Features (Spec (Cluster_ c))) !! HookPostInstall = None ->
  machine.EnsurePreInstallHook p m c w = (Return tt, w).
Proof.
  intros Hnone. unfold machine.EnsurePreInstallHook. rewrite Hnone. reflexivity.
Qed.

(** When the hook found under the post-install key is run and does not
    exit with 0, or the transport fails, the phase returns the error that
    carries stderr and the exit code. *)
Lemma EnsurePreInstallHook_reports_failure `{R : Runtime}
    (p : Provider) (m : Machine) (c : Cluster) (w : World)
    (hook : string) (sh : SSHClient) :
  Hooks (Features (Spec (Cluster_ c))) !! HookPostInstall = Some hook ->
  hook <> "" ->
  SSH (MSpec m) = Ok sh ->
  let w1 := snd (Exec sh ("chmod +x " +:+ machine.first_field hook) w) in
  let '(_, stderr, exit, err) := fst (Exec sh hook w1) in
  is_Some err \/ exit <> 0%Z ->
  machine.EnsurePreInstallHook p m c w
  = (Failure (machine.hook_failed hook exit stderr err), snd (Exec sh hook w1)).
Proof.
  intros Hhook Hne Hssh. unfold machine.EnsurePreInstallHook.
  rewrite Hhook. simpl. destruct (decide (hook = "")) as [|_]; [contradiction|].
  go_unfold. rewrite Hssh.
  destruct (Exec sh ("chmod +x " +:+ machine.first_field hook) w) as [r0 w1]. simpl.
  destruct (Exec sh hook w1) as [[[[out stderr] exit] err] w2]. simpl.
  intros Hbad.
  assert (Hb : bool_decide (is_Some err) || negb (exit =? 0)%Z = true).
  { destruct Hbad as [Hs|Hx].
    - rewrite (bool_decide_eq_true_2 _ Hs). reflexivity.
    - apply orb_true_iff. right. apply negb_true_iff. apply Z.eqb_neq. exact Hx. }
  rewrite Hb. reflexivity.
Qed.

(** C5 at a failing input. A hook is configured under the pre-install key
    and remote commands exit with status 1; the pre-install phase returns nil
    and runs no remote command. The hook it does run is the one configured
    under the post-install key; there it reports the failure. *)
Theorem EnsurePreInstallHook_skips_pre_install_hook :
  Hooks (Features (Spec (Cluster_ sim.pre_hook_cluster))) !! HookPreInstall
  = Some "/opt/hooks/pre.sh --strict"
  /\ machine.EnsurePreInstallHook (R := sim.runtime sim.failing_exec)
       (sim.provider _) sim.sample_machine sim.pre_hook_cluster (sim.fresh 0)
     = (Return tt, sim.fresh 0)
  /\ machine.EnsurePreInstallHook (R := sim.runtime sim.failing_exec)
       (sim.provider _) sim.sample_machine sim.post_hook_cluster (sim.fresh 0)
     = (Failure (machine.hook_failed (R := sim.runtime sim.failing_exec)
                   "/opt/hooks/post.sh --all" 1 "boom" None),
        sim.log (sim.call_Exec "10.1.0.2" "/opt/hooks/post.sh --all")
          (sim.log (sim.call_Exec "10.1.0.2" "chmod +x /opt/hooks/post.sh") (sim.fresh 0))).
Proof.
  split; [vm_compute; reflexivity|].
  split; vm_compute; reflexivity.
Qed.

(** ** Endpoint selection *)

Section endpoint_facts.
Context `{R : Runtime}.

(** After the loop the cell of the range variable holds the last element,
    and both slices hold nothing but pointers to that cell. *)
Lemma fold_range_step (addresses : list ClusterAddress) (st : machine.locals) :
  machine.heap (fold_left machine.range_step addresses st) !! machine.one_loc
  = match last addresses with
    | Some a => Some a
    | None => machine.heap st !! machine.one_loc
    end
  /\ machine.advertise (fold_left machine.range_step addresses st)
     = (machine.advertise st
        ++ replicate (length (filter (has_type AddressAdvertise) addresses)) machine.one_loc)%list
  /\ machine.internal (fold_left machine.range_step addresses st)
     = (machine.internal st
        ++ replicate (length (filter (has_type AddressReal) addresses)) machine.one_loc)%list.
Proof.
  revert st. induction addresses as [|a addresses IH]; intros st.
  - simpl. rewrite !app_nil_r. auto.
  - simpl fold_left. destruct (IH (machine.range_step st a)) as (Hh & Ha & Hi).
    rewrite Hh, Ha, Hi. clear IH Hh Ha Hi. split; [|split].
    + rewrite last_cons. destruct (last addresses); [reflexivity|].
      apply lookup_insert_eq.
    + unfold machine.range_step; cbn [machine.advertise]. destruct a as [[] h p]; cbn [Type_].
      * rewrite filter_cons_False by (unfold has_type; simpl; discriminate).
        destruct (decide (AddressReal = AddressAdvertise)); [discriminate|]. reflexivity.
      * rewrite filter_cons_True by reflexivity.
        destruct (decide (AddressAdvertise = AddressAdvertise)); [|congruence].
        cbn [length replicate]. rewrite <- app_assoc. reflexivity.
    + unfold machine.range_step; cbn [machine.internal]. destruct a as [[] h p]; cbn [Type_].
      * rewrite filter_cons_True by reflexivity.
        destruct (decide (AddressReal = AddressReal)); [|congruence].
        cbn [length replicate]. rewrite <- app_assoc. reflexivity.
      * rewrite filter_cons_False by (unfold has_type; simpl; discriminate).
        destruct (decide (AddressAdvertise = AddressReal)); [discriminate|]. reflexivity.
Qed.

Lemma pick_replicate (n : nat) (w : World) :
  machine.pick (machine.one_loc :: replicate n machine.one_loc) w
  = (Return machine.one_loc, snd (math_rand_Intn (S n) w)).
Proof.
  change (machine.one_loc :: replicate n machine.one_loc)
    with (replicate (S n) machine.one_loc).
  unfold machine.pick. go_unfold. rewrite length_replicate.
  pose proof (math_rand_Intn_lt (S n) w ltac:(lia)) as Hlt.
  destruct (math_rand_Intn (S n) w) as [i w']. simpl in Hlt.
  rewrite lookup_replicate_2 by exact Hlt. reflexivity.
Qed.

Lemma types_partition (addresses : list ClusterAddress) :
  length (filter (has_type AddressAdvertise) addresses)
  + length (filter (has_type AddressReal) addresses) = length addresses.
Proof.
  induction addresses as [|[[] h p] l IH]; [reflexivity| |].
  - rewrite filter_cons_False by (unfold has_type; simpl; discriminate).
    rewrite filter_cons_True by reflexivity. cbn [length]. lia.
  - rewrite filter_cons_True by reflexivity.
    rewrite filter_cons_False by (unfold has_type; simpl; discriminate). cbn [length]. lia.
Qed.

(** Whatever the draw, a non-empty list yields the endpoint of its last
    element. *)
Lemma GetMasterEndpoint_returns_last (addresses : list ClusterAddress)
    (a : ClusterAddress) (w : World) :
  last addresses = Some a ->
  machine.GetMasterEndpoint addresses w
  = (Return (endpoint_of a),
     snd (math_rand_Intn
            (match length (filter (has_type AddressAdvertise) addresses) with
             | 0 => length (filter (has_type AddressReal) addresses)
             | n => n
             end) w)).
Proof.
  intros Hlast. unfold machine.GetMasterEndpoint.
  destruct (fold_range_step addresses
              {| machine.heap := ∅; machine.advertise := []; machine.internal := [] |})
    as (Hh & Ha & Hi).
  rewrite Hlast in Hh. simpl in Ha, Hi.
  pose proof (types_partition addresses) as Hpart.
  assert (Hlen : 0 < length addresses).
  { destruct addresses; [discriminate | simpl; lia]. }
  unfold bind. rewrite Ha, Hi.
  destruct (length (filter (has_type AddressAdvertise) addresses)) as [|n] eqn:En.
  - destruct (length (filter (has_type AddressReal) addresses)) as [|k] eqn:Ek; [lia|].
    cbn [replicate]. rewrite (pick_replicate k w).
    unfold ret, deref. rewrite Hh. reflexivity.
  - cbn [replicate]. rewrite (pick_replicate n w).
    unfold ret, deref. rewrite Hh. reflexivity.
Qed.

(** No address at all: the error. *)
Lemma GetMasterEndpoint_nil (w : World) :
  machine.GetMasterEndpoint [] w = (Failure machine.no_address, w).
Proof. reflexivity. Qed.

(** Only Real addresses: the endpoint of one of them. *)
Lemma GetMasterEndpoint_only_real (addresses : list ClusterAddress) (w : World) :
  addresses <> [] ->
  Forall (has_type AddressReal) addresses ->
  exists a, a ∈ addresses /\ Type_ a = AddressReal
            /\ fst (machine.GetMasterEndpoint addresses w) = Return (endpoint_of a).
Proof.
  intros Hne Hall.
  destruct (last addresses) as [a|] eqn:Hlast.
  - exists a. assert (Hin : a ∈ addresses).
    { apply last_Some in Hlast as [l' ->]. apply elem_of_app. right. apply list_elem_of_singleton. reflexivity. }
    split; [exact Hin|]. split.
    + rewrite Forall_forall in Hall. apply (Hall a Hin).
    + rewrite (GetMasterEndpoint_returns_last addresses a w Hlast). reflexivity.
  - apply last_None in Hlast. contradiction.
Qed.

End endpoint_facts.

(** C2 at a failing input. The list holds an Advertise address followed by
    a Real address; for every runtime and every state of the random source
    the selected endpoint is the one of the Real address. *)
Theorem GetMasterEndpoint_mixed_returns_real `{R : Runtime} (w : World) :
  machine.GetMasterEndpoint sim.mixed_addresses w
  = (Return "https://10.1.0.1:6443", snd (math_rand_Intn 1 w)).
Proof.
  rewrite (GetMasterEndpoint_returns_last sim.mixed_addresses
             {| Type_ := AddressReal; Host := "10.1.0.1"; Port := 6443 |} w eq_refl).
  reflexivity.
Qed.


(** ** The node-ready wait *)

Example node_ready_schedule :
  node_ready_ticks = 60 /\ (Z.of_nat node_ready_ticks * node_ready_interval = 5 * time_Minute)%Z.
Proof. split; vm_compute; reflexivity. Qed.

Section wait_facts.
Context `{R : Runtime}.
Variables (clusterCtx : ClusterCtx) (m : Machine) (interval : Z) (ticks : nat) (w0 : World).

Local Abbreviation cond := (machine.node_ready_condition clusterCtx m).
Local Abbreviation at_poll k := (before_poll clusterCtx m interval ticks k w0).
Local Abbreviation seen k := (fst (observe clusterCtx m (at_poll k))).
Local Abbreviation after k := (snd (observe clusterCtx m (at_poll k))).

Lemma condition_observe (w : World) :
  cond w = (Return (fst (observe clusterCtx m w)), snd (observe clusterCtx m w)).
Proof.
  unfold machine.node_ready_condition, observe. go_unfold.
  destruct (Nodes_Get _ _ w) as [[node|e] w']; reflexivity.
Qed.

Lemma at_poll_tick (k : nat) : k < ticks -> at_poll (S k) = Sleep interval (after k).
Proof.
  intros Hk. cbn [before_poll].
  destruct (Nat.ltb_spec k ticks); [reflexivity | lia].
Qed.

Lemma at_poll_close : at_poll (S ticks) = after ticks.
Proof. cbn [before_poll]. rewrite Nat.ltb_irrefl. reflexivity. Qed.

(** From the world left by a negative poll [k], with [n] ticks to go: if
    the later polls are all negative the loop ends in the timeout. *)
Lemma poll_ticks_timeout (n k : nat) :
  k + n = ticks ->
  (forall j, k < j -> j <= S ticks -> seen j = false) ->
  poll_ticks n interval cond (after k) = (Failure ErrWaitTimeout, after (S ticks)).
Proof.
  revert k. induction n as [|n IH]; intros k Hk Hneg.
  - assert (k = ticks) by lia. subst k.
    cbn [poll_ticks]. unfold bind. rewrite condition_observe.
    rewrite <- at_poll_close. rewrite (Hneg (S ticks)) by lia. reflexivity.
  - cbn [poll_ticks]. unfold bind, modify.
    rewrite <- at_poll_tick by lia. rewrite condition_observe.
    rewrite (Hneg (S k)) by lia.
    apply IH; [lia|]. intros j Hj Hle. apply Hneg; lia.
Qed.

(** ... and if poll [j] is the first positive one, the loop returns nil
    right after it. *)
Lemma poll_ticks_success (n k j : nat) :
  k + n = ticks ->
  k < j -> j <= S ticks ->
  (forall i, k < i -> i < j -> seen i = false) ->
  seen j = true ->
  poll_ticks n interval cond (after k) = (Return tt, after j).
Proof.
  revert k. induction n as [|n IH]; intros k Hk Hlt Hle Hneg Hpos.
  - assert (k = ticks) by lia. subst k. assert (j = S ticks) by lia. subst j.
    cbn [poll_ticks]. unfold bind. rewrite condition_observe.
    rewrite <- at_poll_close. rewrite Hpos. reflexivity.
  - cbn [poll_ticks]. unfold bind, modify.
    rewrite <- at_poll_tick by lia. rewrite condition_observe.
    destruct (decide (j = S k)) as [->|Hne].
    + rewrite Hpos. reflexivity.
    + rewrite (Hneg (S k)) by lia.
      apply IH; [lia | lia | lia | | exact Hpos].
      intros i Hi1 Hi2. apply Hneg; lia.
Qed.

Lemma PollImmediate_timeout (timeout : Z) :
  ticks = Z.to_nat (timeout / interval) ->
  (forall j, j <= S ticks -> seen j = false) ->
  wait_PollImmediate interval timeout cond w0 = (Failure ErrWaitTimeout, after (S ticks)).
Proof.
  intros Hticks Hneg. unfold wait_PollImmediate, bind.
  rewrite condition_observe. change w0 with (at_poll 0) at 1 2.
  rewrite (Hneg 0) by lia. rewrite <- Hticks.
  apply poll_ticks_timeout; [lia|]. intros j _ Hle. apply Hneg. exact Hle.
Qed.

Lemma PollImmediate_success (timeout : Z) (j : nat) :
  ticks = Z.to_nat (timeout / interval) ->
  j <= S ticks ->
  (forall i, i < j -> seen i = false) ->
  seen j = true ->
  wait_PollImmediate interval timeout cond w0 = (Return tt, after j).
Proof.
  intros Hticks Hle Hneg Hpos. unfold wait_PollImmediate, bind.
  rewrite condition_observe. change w0 with (at_poll 0) at 1 2.
  destruct j as [|j].
  - rewrite Hpos. reflexivity.
  - rewrite (Hneg 0) by lia. rewrite <- Hticks.
    apply poll_ticks_success; [lia | lia | lia | | exact Hpos].
    intros i Hi1 Hi2. apply Hneg. exact Hi2.
Qed.

End wait_facts.

(** C4, as the code has it. When the client lookup fails the phase returns
    nil at once, without polling. With the client at hand the phase polls at
    most [node_ready_ticks + 2] times (at once, after each of the 60 ticks of
    5 s, and a last time when the 5 min timer fires): if none of these polls
    sees a Ready condition that is true it returns the timeout error after
    the last one; if poll [k] is the first that sees one, it returns nil
    right after poll [k]. *)
Theorem EnsureNodeReady_bounded_wait `{R : Runtime}
    (p : Provider) (m : Machine) (c : Cluster) (w : World) :
  match ClusterManager_Get (Name (Cluster_ c)) w with
  | Err _ => machine.EnsureNodeReady p m c w = (Return tt, w)
  | Ok clusterCtx =>
      ((forall k, k <= S node_ready_ticks ->
          fst (observe clusterCtx m
                 (before_poll clusterCtx m node_ready_interval node_ready_ticks k w)) = false) ->
       machine.EnsureNodeReady p m c w
       = (Failure ErrWaitTimeout,
          snd (observe clusterCtx m
                 (before_poll clusterCtx m node_ready_interval node_ready_ticks
                    (S node_ready_ticks) w))))
      /\ (forall k, k <= S node_ready_ticks ->
            (forall j, j < k ->
               fst (observe clusterCtx m
                      (before_poll clusterCtx m node_ready_interval node_ready_ticks j w))
               = false) ->
            fst (observe clusterCtx m
                   (before_poll clusterCtx m node_ready_interval node_ready_ticks k w)) = true ->
            machine.EnsureNodeReady p m c w
            = (Return tt,
               snd (observe clusterCtx m
                      (before_poll clusterCtx m node_ready_interval node_ready_ticks k w))))
  end.
Proof.
  unfold machine.EnsureNodeReady.
  destruct (ClusterManager_Get (Name (Cluster_ c)) w) as [clusterCtx|e]; [|reflexivity].
  split.
  - intros Hneg.
    apply (PollImmediate_timeout clusterCtx m node_ready_interval node_ready_ticks w
             (5 * time_Minute) eq_refl Hneg).
  - intros k Hk Hneg Hpos.
    apply (PollImmediate_success clusterCtx m node_ready_interval node_ready_ticks w
             (5 * time_Minute) k eq_refl Hk Hneg Hpos).
Qed.

Lemma EnsureNodeReady_bounded_wait_witness :
  machine.EnsureNodeReady (R := sim.runtime (sim.ready_after None sim.healthy))
    (sim.provider _) sim.sample_machine sim.sample_cluster (sim.fresh 0)
  = (Failure ErrWaitTimeout,
     snd (observe (R := sim.runtime (sim.ready_after None sim.healthy)) "demo" sim.sample_machine
            (before_poll (R := sim.runtime (sim.ready_after None sim.healthy))
               "demo" sim.sample_machine node_ready_interval node_ready_ticks
               (S node_ready_ticks) (sim.fresh 0))))
  /\ machine.EnsureNodeReady (R := sim.runtime (sim.ready_after (Some 3) sim.healthy))
       (sim.provider _) sim.sample_machine sim.sample_cluster (sim.fresh 0)
     = (Return tt,
        snd (observe (R := sim.runtime (sim.ready_after (Some 3) sim.healthy))
               "demo" sim.sample_machine
               (before_poll (R := sim.runtime (sim.ready_after (Some 3) sim.healthy))
                  "demo" sim.sample_machine node_ready_interval node_ready_ticks
                  3 (sim.fresh 0)))).
Proof.
  split.
  - apply (proj1 (EnsureNodeReady_bounded_wait
                    (R := sim.runtime (sim.ready_after None sim.healthy))
                    (sim.provider _) sim.sample_machine sim.sample_cluster (sim.fresh 0))).
    intros k _. reflexivity.
  - apply (proj2 (EnsureNodeReady_bounded_wait
                    (R := sim.runtime (sim.ready_after (Some 3) sim.healthy))
                    (sim.provider _) sim.sample_machine sim.sample_cluster (sim.fresh 0)) 3).
    + vm_compute. lia.
    + intros j Hj.
      destruct j as [|[|[|j]]]; [vm_compute; reflexivity.. | lia].
    + vm_compute. reflexivity.
Defined.

(** C4, as stated, fails: the node never shows Ready at any poll, yet the
    phase returns nil, not the timeout error, because the client lookup
    fails and no poll is made. *)
Lemma EnsureNodeReady_without_client_returns_nil :
  forallb (fun k =>
             negb (fst (observe (R := sim.runtime (sim.without_client (sim.ready_after None sim.healthy)))
                          "demo" sim.sample_machine
                          (before_poll (R := sim.runtime (sim.without_client (sim.ready_after None sim.healthy)))
                             "demo" sim.sample_machine node_ready_interval node_ready_ticks
                             k (sim.fresh 0)))))
          (seq 0 (S (S node_ready_ticks))) = true
  /\ machine.EnsureNodeReady
       (R := sim.runtime (sim.without_client (sim.ready_after None sim.healthy)))
       (sim.provider _) sim.sample_machine sim.sample_cluster (sim.fresh 0)
     = (Return tt, sim.fresh 0)
  /\ Return tt <> @Failure unit ErrWaitTimeout.
Proof.
  split; [vm_compute; reflexivity|].
  split; [vm_compute; reflexivity|].
  discriminate.
Qed.

(** ** More on state derivation *)

Lemma bind_returned {S A B} (m : Go S A) (k : A -> Go S B) (s s' : S) (b : B) :
  bind m k s = (Return b, s') ->
  exists a s1, m s = (Return a, s1) /\ k a s1 = (Return b, s').
Proof.
  unfold bind. destruct (m s) as [[a|e|msg] s1]; intros H; try discriminate.
  exists a, s1. split; [reflexivity | exact H].
Qed.

Lemma for_range_preserves {S A} (P : S -> Prop) (xs : list A) (body : A -> Go S unit) :
  (forall x s, P s -> P (snd (body x s))) ->
  forall s, P s -> P (snd (for_range xs body s)).
Proof.
  intros Hbody. induction xs as [|x xs IH]; intros s Hs; simpl; [exact Hs|].
  unfold bind. pose proof (Hbody x s Hs) as H1.
  destruct (body x s) as [[[]|e|msg] s1]; simpl in *; auto.
Qed.

Section derivation_facts.
Context `{R : Runtime}.

(** What a record declares: its name and its spec. *)
Lemma K8sVersion_keeps_declaration (s : cluster.St) :
  Cluster_ (fst (snd (cluster.completeK8sVersion s)))
  = {| Name := Name (Cluster_ (fst s)); Spec := Spec (Cluster_ (fst s));
       Status := Status (Cluster_ (fst (snd (cluster.completeK8sVersion s)))) |}.
Proof. destruct s as [c w]. reflexivity. Qed.

Lemma Networking_outcome (c : Cluster) (w : World) :
  (exists cidr mask,
     cluster.completeNetworking (c, w)
     = (Return tt, (set_Status (with_Networking cidr mask) c, w))
     /\ forall declared, Spec_ServiceCIDR (Spec (Cluster_ c)) = Some declared -> cidr = declared)
  \/ (fst (cluster.completeNetworking (c, w)) <> Return tt
      /\ snd (cluster.completeNetworking (c, w)) = (c, w)).
Proof.
  unfold cluster.completeNetworking. go_unfold. simpl.
  destruct (Spec_ServiceCIDR (Spec (Cluster_ c))) as [svc|]; simpl.
  - destruct (MaxNodePodNum (Properties (Spec (Cluster_ c)))) as [n|]; simpl;
      [|right; split; [discriminate | reflexivity]].
    destruct (GetNodeCIDRMaskSize _ n) as [mask|e]; simpl;
      [|right; split; [discriminate | reflexivity]].
    left. exists svc, mask. split; [reflexivity|]. intros d [= ->]. reflexivity.
  - destruct (MaxClusterServiceNum (Properties (Spec (Cluster_ c)))) as [m|]; simpl;
      [|right; split; [discriminate | reflexivity]].
    destruct (MaxNodePodNum (Properties (Spec (Cluster_ c)))) as [n|]; simpl;
      [|right; split; [discriminate | reflexivity]].
    destruct (GetServiceCIDRAndNodeCIDRMaskSize _ m n) as [[cidr mask]|e]; simpl;
      [|right; split; [discriminate | reflexivity]].
    left. exists cidr, mask. split; [reflexivity|]. intros d [=].
Qed.

Lemma DNS_outcome (c : Cluster) (w : World) :
  (exists ip,
     GetIndexedIP (Status_ServiceCIDR (Status (Cluster_ c))) DNSIPIndex = Ok ip
     /\ cluster.completeDNS (c, w) = (Return tt, (set_Status (with_DNSIP ip) c, w)))
  \/ (fst (cluster.completeDNS (c, w)) <> Return tt
      /\ snd (cluster.completeDNS (c, w)) = (c, w)).
Proof.
  unfold cluster.completeDNS. go_unfold. simpl.
  destruct (GetIndexedIP _ _) as [ip|e] eqn:E; simpl.
  - left. exists ip. split; reflexivity.
  - right. split; [discriminate | reflexivity].
Qed.

(** The credentials step, case by case. *)
Lemma Credential_outcome (c : Cluster) (w : World) :
  cluster.completeCredential (c, w)
  = let (token, w1) := ksuid_New w in
    let c1 := set_Credential (with_Token token) c in
    match GenerateBootstrapToken w1 with
    | (Err e, w2) => (Failure e, (c1, w2))
    | (Ok bootstrapToken, w2) =>
        let c2 := set_Credential (with_BootstrapToken bootstrapToken) c1 in
        match crypto_rand_Read 32 w2 with
        | (Err e, w3) => (Failure e, (c2, w3))
        | (Ok certBytes, w3) =>
            (Return tt,
             (set_Credential (with_CertificateKey (hex_EncodeToString certBytes)) c2, w3))
        end
    end.
Proof.
  unfold cluster.completeCredential. go_unfold. simpl.
  destruct (ksuid_New w) as [token w1]; simpl.
  destruct (GenerateBootstrapToken w1) as [[b|e] w2]; simpl; [|reflexivity].
  destruct (crypto_rand_Read 32 w2) as [[bs|e] w3]; reflexivity.
Qed.

Lemma step_keeps_declaration (f : Go cluster.St unit) (s : cluster.St) :
  f ∈ cluster.funcs ->
  Name (Cluster_ (fst (snd (f s)))) = Name (Cluster_ (fst s))
  /\ Spec (Cluster_ (fst (snd (f s)))) = Spec (Cluster_ (fst s)).
Proof.
  destruct s as [c w]. unfold cluster.funcs. rewrite !elem_of_cons, elem_of_nil.
  intros [->|[->|[->|[->|[->|[]]]]]].
  - split; reflexivity.
  - destruct (Networking_outcome c w) as [(cidr & mask & E & _)|[_ E]]; rewrite E;
      split; reflexivity.
  - destruct (DNS_outcome c w) as [(ip & _ & E)|[_ E]]; rewrite E; split; reflexivity.
  - rewrite completeAddresses_registers. split; reflexivity.
  - rewrite Credential_outcome.
    destruct (ksuid_New w) as [token w1].
    destruct (GenerateBootstrapToken w1) as [[b|e] w2]; [|split; reflexivity].
    destruct (crypto_rand_Read 32 w2) as [[bs|e] w3]; split; reflexivity.
Qed.

Lemma for_range_funcs_keeps_declaration (fs : list (Go cluster.St unit)) (s : cluster.St) :
  (forall f, f ∈ fs -> f ∈ cluster.funcs) ->
  Name (Cluster_ (fst (snd (for_range fs (fun f => f) s)))) = Name (Cluster_ (fst s))
  /\ Spec (Cluster_ (fst (snd (for_range fs (fun f => f) s)))) = Spec (Cluster_ (fst s)).
Proof.
  revert s. induction fs as [|f fs IH]; intros s Hin; simpl; [split; reflexivity|].
  unfold bind.
  pose proof (step_keeps_declaration f s (Hin f (list_elem_of_here f fs))) as [Hn Hs].
  destruct (f s) as [[[]|e|msg] s1]; simpl in *; [|split; assumption..].
  destruct (IH s1) as [Hn' Hs'].
  { intros g Hg. apply Hin. apply list_elem_of_further. exact Hg. }
  split; congruence.
Qed.

End derivation_facts.

(** X1. State derivation never changes what the record declares: whatever
    the outcome (nil, an error, a panic on a nil capacity field), the name
    and the spec of the record are the ones it started with. *)
Theorem EnsureClusterComplete_keeps_declaration `{R : Runtime}
    (p : Provider) (c : Cluster) (w : World) :
  Name (Cluster_ (fst (snd (cluster.EnsureClusterComplete p (c, w))))) = Name (Cluster_ c)
  /\ Spec (Cluster_ (fst (snd (cluster.EnsureClusterComplete p (c, w))))) = Spec (Cluster_ c).
Proof.
  unfold cluster.EnsureClusterComplete.
  apply (for_range_funcs_keeps_declaration cluster.funcs (c, w)). auto.
Qed.

(** X2. When state derivation returns nil, the status carries the declared
    version, the declared service CIDR if there is one, a DNS address that
    is the indexed address of the service CIDR found in status, and all
    three credentials are set. *)
Theorem EnsureClusterComplete_success_postconditions `{R : Runtime}
    (p : Provider) (c c' : Cluster) (w w' : World) :
  cluster.EnsureClusterComplete p (c, w) = (Return tt, (c', w')) ->
  Status_Version (Status (Cluster_ c')) = Spec_Version (Spec (Cluster_ c))
  /\ (forall declared, Spec_ServiceCIDR (Spec (Cluster_ c)) = Some declared ->
        Status_ServiceCIDR (Status (Cluster_ c')) = declared)
  /\ GetIndexedIP (Status_ServiceCIDR (Status (Cluster_ c'))) DNSIPIndex
     = Ok (DNSIP (Status (Cluster_ c')))
  /\ is_Some (Token (Credential c'))
  /\ is_Some (BootstrapToken (Credential c'))
  /\ is_Some (CertificateKey (Credential c')).
Proof.
  unfold cluster.EnsureClusterComplete, cluster.funcs. simpl. intros H.
  apply bind_returned in H as ([] & [c1 w1] & E1 & H).
  apply bind_returned in H as ([] & [c2 w2] & E2 & H).
  apply bind_returned in H as ([] & [c3 w3] & E3 & H).
  apply bind_returned in H as ([] & [c4 w4] & E4 & H).
  apply bind_returned in H as ([] & [c5 w5] & E5 & H).
  injection H as <- <-.
  injection E1 as <- <-.
  destruct (Networking_outcome (set_Status (with_Version (Spec_Version (Spec (Cluster_ c)))) c) w)
    as [(cidr & mask & E2' & Hdecl)|[Hbad _]]; [|rewrite E2 in Hbad; contradiction].
  rewrite E2' in E2. injection E2 as <- <-.
  match type of E3 with cluster.completeDNS (?c2, _) = _ =>
    destruct (DNS_outcome c2 w) as [(ip & Hip & E3')|[Hbad _]];
      [|rewrite E3 in Hbad; contradiction]
  end.
  rewrite E3' in E3. injection E3 as <- <-.
  rewrite completeAddresses_registers in E4. injection E4 as <- <-.
  rewrite Credential_outcome in E5.
  destruct (ksuid_New w) as [token wa].
  destruct (GenerateBootstrapToken wa) as [[b|e] wb]; [|discriminate].
  destruct (crypto_rand_Read 32 wb) as [[bs|e] wc]; [|discriminate].
  injection E5 as <- <-. simpl.
  split; [reflexivity|]. split; [exact Hdecl|]. split; [exact Hip|].
  repeat split; eexists; reflexivity.
Qed.

Lemma EnsureClusterComplete_success_postconditions_witness :
  cluster.EnsureClusterComplete (R := sim.runtime sim.healthy) (sim.provider sim.healthy)
    (sim.declared_cidr_cluster, sim.fresh 0)
  = (Return tt,
     snd (cluster.EnsureClusterComplete (R := sim.runtime sim.healthy)
            (sim.provider sim.healthy) (sim.declared_cidr_cluster, sim.fresh 0)))
  /\ Status_ServiceCIDR
       (Status (Cluster_ (fst (snd (cluster.EnsureClusterComplete
                                      (R := sim.runtime sim.healthy)
                                      (sim.provider sim.healthy)
                                      (sim.declared_cidr_cluster, sim.fresh 0))))))
     = "10.96.0.0/12".
Proof.
  split; [vm_compute; reflexivity|].
  assert (H : cluster.EnsureClusterComplete (R := sim.runtime sim.healthy)
                (sim.provider sim.healthy) (sim.declared_cidr_cluster, sim.fresh 0)
              = (Return tt,
                 (fst (snd (cluster.EnsureClusterComplete (R := sim.runtime sim.healthy)
                              (sim.provider sim.healthy)
                              (sim.declared_cidr_cluster, sim.fresh 0))),
                  snd (snd (cluster.EnsureClusterComplete (R := sim.runtime sim.healthy)
                              (sim.provider sim.healthy)
                              (sim.declared_cidr_cluster, sim.fresh 0))))))
    by (vm_compute; reflexivity).
  pose proof (EnsureClusterComplete_success_postconditions (R := sim.runtime sim.healthy)
                _ _ _ _ _ H) as (_ & Hdecl & _).
  apply Hdecl. vm_compute. reflexivity.
Defined.

(** X3. The credentials step does not roll back. When the bootstrap token
    cannot be generated the error is returned as it is, the token has
    already been replaced by the fresh identifier and the other two
    credentials are as before; when the random bytes cannot be read the
    token and the bootstrap token are the new ones and the certificate key is
    as before. *)
Theorem completeCredential_fails_half_way `{R : Runtime} (c : Cluster) (w : World) :
  (forall e w2,
     GenerateBootstrapToken (snd (ksuid_New w)) = (Err e, w2) ->
     cluster.completeCredential (c, w)
     = (Failure e,
        ({| Cluster_ := Cluster_ c;
            Credential := {| Token := Some (fst (ksuid_New w));
                             BootstrapToken := BootstrapToken (Credential c);
                             CertificateKey := CertificateKey (Credential c);
                             CAKey := CAKey (Credential c);
                             CACert := CACert (Credential c) |} |}, w2)))
  /\ (forall bootstrapToken w2 e w3,
        GenerateBootstrapToken (snd (ksuid_New w)) = (Ok bootstrapToken, w2) ->
        crypto_rand_Read 32 w2 = (Err e, w3) ->
        cluster.completeCredential (c, w)
        = (Failure e,
           ({| Cluster_ := Cluster_ c;
               Credential := {| Token := Some (fst (ksuid_New w));
                                BootstrapToken := Some bootstrapToken;
                                CertificateKey := CertificateKey (Credential c);
                                CAKey := CAKey (Credential c);
                                CACert := CACert (Credential c) |} |}, w3))).
Proof.
  split.
  - intros e w2 Hb. rewrite Credential_outcome.
    destruct (ksuid_New w) as [token w1]. simpl in Hb. rewrite Hb. reflexivity.
  - intros b w2 e w3 Hb Hr. rewrite Credential_outcome.
    destruct (ksuid_New w) as [token w1]. simpl in Hb. rewrite Hb, Hr. reflexivity.
Qed.

Lemma completeCredential_fails_half_way_witness :
  cluster.completeCredential (R := sim.runtime sim_phases.bootstrap_down)
    (sim.ha_cluster, sim.fresh 0)
  = (Failure (errors_New "entropy exhausted"),
     ({| Cluster_ := Cluster_ sim.ha_cluster;
         Credential :=
           {| Token := Some (fst (ksuid_New (Runtime := sim.runtime sim_phases.bootstrap_down)
                                    (sim.fresh 0)));
              BootstrapToken := BootstrapToken (Credential sim.ha_cluster);
              CertificateKey := CertificateKey (Credential sim.ha_cluster);
              CAKey := CAKey (Credential sim.ha_cluster);
              CACert := CACert (Credential sim.ha_cluster) |} |},
      snd (ksuid_New (Runtime := sim.runtime sim_phases.bootstrap_down) (sim.fresh 0))))
  /\ cluster.completeCredential (R := sim.runtime sim_phases.rand_down)
       (sim.ha_cluster, sim.fresh 0)
     = (Failure (errors_New "entropy exhausted"),
        ({| Cluster_ := Cluster_ sim.ha_cluster;
            Credential :=
              {| Token := Some (fst (ksuid_New (Runtime := sim.runtime sim_phases.rand_down)
                                       (sim.fresh 0)));
                 BootstrapToken := Some "abcdef.0123456789abcdef";
                 CertificateKey := CertificateKey (Credential sim.ha_cluster);
                 CAKey := CAKey (Credential sim.ha_cluster);
                 CACert := CACert (Credential sim.ha_cluster) |} |},
         snd (ksuid_New (Runtime := sim.runtime sim_phases.rand_down) (sim.fresh 0)))).
Proof.
  split.
  - apply (proj1 (completeCredential_fails_half_way
                    (R := sim.runtime sim_phases.bootstrap_down) sim.ha_cluster (sim.fresh 0))).
    reflexivity.
  - apply (proj2 (completeCredential_fails_half_way
                    (R := sim.runtime sim_phases.rand_down) sim.ha_cluster (sim.fresh 0))
             "abcdef.0123456789abcdef"
             (snd (ksuid_New (Runtime := sim.runtime sim_phases.rand_down) (sim.fresh 0)))).
    + reflexivity.
    + reflexivity.
Defined.

(** X4. When the credentials step returns nil, the certificate key it
    leaves is the hex encoding of the bytes just read from the random
    source, in the world left by the bootstrap-token generation: characters
    2i and 2i+1 of the key are the digits, taken from 0123456789abcdef, of
    the high and the low half of byte i, and the key has two characters per
    byte and no other character. *)
Theorem completeCredential_certificate_key_is_hex `{R : Runtime}
    (c c' : Cluster) (w w' : World) :
  cluster.completeCredential (c, w) = (Return tt, (c', w')) ->
  exists (certBytes : list Byte.byte) (key : string),
    crypto_rand_Read 32 (snd (GenerateBootstrapToken (snd (ksuid_New w))))
    = (Ok certBytes, w')
    /\ CertificateKey (Credential c') = Some key
    /\ String.length key = 2 * length certBytes
    /\ (forall i b,
          certBytes !! i = Some b ->
          String.get (2 * i) key
          = String.get (N.to_nat (Byte.to_N b / 16)) "0123456789abcdef"
          /\ String.get (2 * i + 1) key
             = String.get (N.to_nat (Byte.to_N b mod 16)) "0123456789abcdef")
    /\ forallb is_hex_digit (String.list_ascii_of_string key) = true.
Proof.
  rewrite Credential_outcome.
  destruct (ksuid_New w) as [token w1]. cbn [snd].
  destruct (GenerateBootstrapToken w1) as [[b|e] w2]; [|discriminate]. cbn [snd].
  destruct (crypto_rand_Read 32 w2) as [[bs|e] w3]; [|discriminate].
  intros [= <- <-]. exists bs, (hex_EncodeToString bs).
  split; [reflexivity|]. split; [reflexivity|].
  split; [|split].
  - induction bs as [|x bs IH]; simpl; [reflexivity | rewrite IH; lia].
  - assert (Halphabet : forall n : N,
              (n < 16)%N ->
              String.get (N.to_nat n) "0123456789abcdef" = Some (hex_digit n)).
    { intros n Hn. destruct n as [|p]; [reflexivity|].
      destruct p as [p|p|]; [| |reflexivity];
        (destruct p as [p|p|]; [| |reflexivity]);
        (destruct p as [p|p|]; [| |reflexivity]);
        (destruct p as [p|p|]; [lia | lia | reflexivity]). }
    induction bs as [|x0 bs IH]; intros i x Hi; [discriminate|].
    destruct i as [|i].
    + injection Hi as ->. cbn [hex_EncodeToString].
      pose proof (Byte.to_N_bounded x) as Hx.
      assert (Hhi : (Byte.to_N x / 16 < 16)%N)
        by (apply N.Div0.div_lt_upper_bound; lia).
      assert (Hlo : (Byte.to_N x mod 16 < 16)%N) by (apply N.mod_lt; discriminate).
      rewrite (Halphabet _ Hhi), (Halphabet _ Hlo). split; reflexivity.
    + cbn [hex_EncodeToString].
      replace (2 * S i) with (S (S (2 * i))) by lia.
      replace (S (S (2 * i)) + 1) with (S (S (2 * i + 1))) by lia.
      cbn [String.get Nat.eqb]. apply IH. exact Hi.
  - induction bs as [|x bs IH]; [reflexivity|].
    cbn [hex_EncodeToString String.list_ascii_of_string forallb].
    assert (Hdigit : forall n : N, is_hex_digit (hex_digit n) = true).
    { intros n. destruct n as [|p]; [reflexivity|].
      do 4 (try (destruct p as [p|p|])); reflexivity. }
    rewrite !Hdigit, IH. reflexivity.
Qed.

Lemma completeCredential_certificate_key_is_hex_witness :
  exists (key : string),
    CertificateKey
      (Credential (fst (snd (cluster.completeCredential (R := sim.runtime sim.healthy)
                               (sim.sample_cluster, sim.fresh 0))))) = Some key
    /\ String.length key = 64
    /\ String.get 0 key = Some "2"%char
    /\ String.get 1 key = Some "a"%char.
Proof.
  assert (H : cluster.completeCredential (R := sim.runtime sim.healthy)
                (sim.sample_cluster, sim.fresh 0)
              = (Return tt,
                 (fst (snd (cluster.completeCredential (R := sim.runtime sim.healthy)
                              (sim.sample_cluster, sim.fresh 0))),
                  snd (snd (cluster.completeCredential (R := sim.runtime sim.healthy)
                              (sim.sample_cluster, sim.fresh 0))))))
    by (vm_compute; reflexivity).
  destruct (completeCredential_certificate_key_is_hex (R := sim.runtime sim.healthy) _ _ _ _ H)
    as (bs & key & Hread & Hkey & Hlen & Hpos & _).
  exists key. split; [exact Hkey|].
  vm_compute in Hread. injection Hread as <-.
  split; [rewrite Hlen; reflexivity|].
  destruct (Hpos 0 Byte.x2a eq_refl) as [H0 H1].
  split; [exact H0 | exact H1].
Defined.

(** ** More on the addon phase *)

Section addon_facts.
Context `{R : Runtime}.

Lemma EnsureAddons_with_client (p : Provider) (c : Cluster) (w : World)
    (clusterCtx : ClusterCtx) :
  ClusterManager_Get (Name (Cluster_ c)) w = Ok clusterCtx ->
  cluster.EnsureAddons p c w
  = match BuildKubeproxyAddon (Cfg p) c with
    | Err e => (Failure (errors_Wrapf e "build kube-proxy err: " e), w)
    | Ok kubeproxyObjs =>
        match cluster.reconcile_all (ctx_Client clusterCtx) kubeproxyObjs w with
        | (Return _, w1) =>
            match BuildCoreDNSAddon (Cfg p) c with
            | Err e => (Failure (errors_Wrapf e "build kube-proxy err: " e), w1)
            | Ok corednsObjs => cluster.reconcile_all (ctx_Client clusterCtx) corednsObjs w1
            end
        | other => other
        end
    end.
Proof.
  intros Hget. unfold cluster.EnsureAddons. rewrite Hget. go_unfold.
  destruct (BuildKubeproxyAddon (Cfg p) c) as [kp|e]; [|reflexivity].
  destruct (cluster.reconcile_all (ctx_Client clusterCtx) kp w) as [[[]|e|msg] w1];
    try reflexivity.
  destruct (BuildCoreDNSAddon (Cfg p) c) as [dns|e]; reflexivity.
Qed.

End addon_facts.

(** X5. With the client at hand, a kube-proxy build error ends the addon
    phase before anything is reconciled. A CoreDNS build error ends it after
    the kube-proxy objects have been reconciled, which stay as they are, and
    is reported under the kube-proxy wording too: in both cases the message
    is "build kube-proxy err: " followed by the cause, twice. *)
Theorem EnsureAddons_build_errors `{R : Runtime}
    (p : Provider) (c : Cluster) (w : World) (clusterCtx : ClusterCtx) :
  ClusterManager_Get (Name (Cluster_ c)) w = Ok clusterCtx ->
  (forall e,
     BuildKubeproxyAddon (Cfg p) c = Err e ->
     exists err,
       cluster.EnsureAddons p c w = (Failure err, w)
       /\ Error err = "build kube-proxy err: " +:+ Error e +:+ ": " +:+ Error e)
  /\ (forall kubeproxyObjs w1 e,
        BuildKubeproxyAddon (Cfg p) c = Ok kubeproxyObjs ->
        cluster.reconcile_all (ctx_Client clusterCtx) kubeproxyObjs w = (Return tt, w1) ->
        BuildCoreDNSAddon (Cfg p) c = Err e ->
        exists err,
          cluster.EnsureAddons p c w = (Failure err, w1)
          /\ Error err = "build kube-proxy err: " +:+ Error e +:+ ": " +:+ Error e).
Proof.
  intros Hget. rewrite (EnsureAddons_with_client p c w clusterCtx Hget). split.
  - intros e Hkp. rewrite Hkp. eexists. split; [reflexivity|].
    unfold errors_Wrapf. cbn [Error]. rewrite string_app_assoc. reflexivity.
  - intros kp w1 e Hkp Hrec Hdns. rewrite Hkp, Hrec, Hdns. eexists. split; [reflexivity|].
    unfold errors_Wrapf. cbn [Error]. rewrite string_app_assoc. reflexivity.
Qed.

Lemma EnsureAddons_build_errors_witness :
  (exists err,
     cluster.EnsureAddons (R := sim_phases.runtime sim.healthy sim_phases.kubeproxy_unbuildable)
       (sim_phases.provider _ _) sim.sample_cluster (sim.fresh 0)
     = (Failure err, sim.fresh 0)
     /\ Error err = "build kube-proxy err: no cluster CIDR: no cluster CIDR")
  /\ (exists err,
        cluster.EnsureAddons (R := sim_phases.runtime sim.healthy sim_phases.coredns_unbuildable)
          (sim_phases.provider _ _) sim.sample_cluster (sim.fresh 0)
        = (Failure err,
           sim.log (sim.call_Reconcile "kube-proxy")
             (sim.log (sim.call_Reconcile "kube-proxy-cm") (sim.fresh 0)))
        /\ Error err = "build kube-proxy err: no DNS address: no DNS address").
Proof.
  split.
  - apply (proj1 (EnsureAddons_build_errors
                    (R := sim_phases.runtime sim.healthy sim_phases.kubeproxy_unbuildable)
                    (sim_phases.provider _ _) sim.sample_cluster (sim.fresh 0) "demo" eq_refl)
             (errors_New "no cluster CIDR")).
    reflexivity.
  - apply (proj2 (EnsureAddons_build_errors
                    (R := sim_phases.runtime sim.healthy sim_phases.coredns_unbuildable)
                    (sim_phases.provider _ _) sim.sample_cluster (sim.fresh 0) "demo" eq_refl)
             ["kube-proxy-cm"; "kube-proxy"] _ (errors_New "no DNS address")).
    + reflexivity.
    + reflexivity.
    + reflexivity.
Defined.

(** X6. With the client at hand and both builders succeeding, the addon
    phase reconciles the kube-proxy objects and then the CoreDNS objects as
    one sequence; the first object whose reconcile fails ends the phase with
    that error, wrapped, and no later object is reconciled. *)
Theorem EnsureAddons_reconciles_in_order `{R : Runtime}
    (p : Provider) (c : Cluster) (w : World) (clusterCtx : ClusterCtx)
    (kubeproxyObjs corednsObjs : list Object) :
  ClusterManager_Get (Name (Cluster_ c)) w = Ok clusterCtx ->
  BuildKubeproxyAddon (Cfg p) c = Ok kubeproxyObjs ->
  BuildCoreDNSAddon (Cfg p) c = Ok corednsObjs ->
  cluster.EnsureAddons p c w
  = cluster.reconcile_all (ctx_Client clusterCtx) (kubeproxyObjs ++ corednsObjs) w
  /\ forall pre obj post w1 w2 e,
       (kubeproxyObjs ++ corednsObjs = pre ++ obj :: post)%list ->
       cluster.reconcile_all (ctx_Client clusterCtx) pre w = (Return tt, w1) ->
       Reconcile (ctx_Client clusterCtx) obj w1 = (Some e, w2) ->
       cluster.EnsureAddons p c w = (Failure (errors_Wrapf e "Reconcile  err: " e), w2).
Proof.
  intros Hget Hkp Hdns.
  assert (Heq : cluster.EnsureAddons p c w
                = cluster.reconcile_all (ctx_Client clusterCtx)
                    (kubeproxyObjs ++ corednsObjs) w).
  { rewrite (EnsureAddons_with_client p c w clusterCtx Hget), Hkp, Hdns.
    unfold cluster.reconcile_all. rewrite for_range_app. unfold bind.
    destruct (for_range kubeproxyObjs _ w) as [[[]|e|msg] w1]; reflexivity. }
  split; [exact Heq|].
  intros pre obj post w1 w2 e Hsplit Hpre Hobj. rewrite Heq, Hsplit.
  unfold cluster.reconcile_all in *.
  apply (for_range_abort pre post obj _ w w1 w2 _ Hpre).
  unfold check. rewrite Hobj. reflexivity.
Qed.

Lemma EnsureAddons_reconciles_in_order_witness :
  cluster.EnsureAddons (R := sim_phases.runtime sim.healthy (sim_phases.refusing ["kube-proxy"]))
    (sim_phases.provider _ _) sim.sample_cluster (sim.fresh 0)
  = (Failure (errors_Wrapf (errors_New "admission refused kube-proxy") "Reconcile  err: "
                (errors_New "admission refused kube-proxy")),
     sim.log (sim.call_Reconcile "kube-proxy")
       (sim.log (sim.call_Reconcile "kube-proxy-cm") (sim.fresh 0))).
Proof.
  apply (proj2 (EnsureAddons_reconciles_in_order
                  (R := sim_phases.runtime sim.healthy (sim_phases.refusing ["kube-proxy"]))
                  (sim_phases.provider _ _) sim.sample_cluster (sim.fresh 0) "demo"
                  ["kube-proxy-cm"; "kube-proxy"] ["coredns"] eq_refl eq_refl eq_refl)
           ["kube-proxy-cm"] "kube-proxy" ["coredns"]
           (sim.log (sim.call_Reconcile "kube-proxy-cm") (sim.fresh 0))).
  - reflexivity.
  - reflexivity.
  - reflexivity.
Defined.

(** ** The control plane *)

(** X7. The control-plane phase reconciles four objects through the
    management client, in the order API server, API server service,
    controller manager, scheduler. The first reconcile that fails ends the
    phase with that error under "create kubeconfig err: ", leaving the
    earlier objects reconciled and the later ones untouched; when all four
    succeed the phase returns nil. *)
Theorem EnsureKubeMaster_in_order `{PR : PhaseRuntime}
    (p : Provider) (c : Cluster) (client : Client) (w : World) :
  (forall pre obj post w1 w2 e,
     [ apiServerDeployment p c; apiServerSvc p c;
       controllerManagerDeployment p c; schedulerDeployment p c ] = (pre ++ obj :: post)%list ->
     cluster.reconcile_all client pre w = (Return tt, w1) ->
     Reconcile client obj w1 = (Some e, w2) ->
     exists err,
       cluster_phases.EnsureKubeMaster p c client w = (Failure err, w2)
       /\ Error err = "create kubeconfig err: " +:+ Error e +:+ ": " +:+ Error e)
  /\ (forall w1 w2 w3 w4,
        Reconcile client (apiServerDeployment p c) w = (None, w1) ->
        Reconcile client (apiServerSvc p c) w1 = (None, w2) ->
        Reconcile client (controllerManagerDeployment p c) w2 = (None, w3) ->
        Reconcile client (schedulerDeployment p c) w3 = (None, w4) ->
        cluster_phases.EnsureKubeMaster p c client w = (Return tt, w4)).
Proof.
  split.
  - intros pre obj post w1 w2 e Hsplit Hpre Hobj.
    exists (errors_Wrapf e "create kubeconfig err: " e). split.
    + unfold cluster_phases.EnsureKubeMaster, cluster_phases.control_plane_objects.
      rewrite Hsplit. rewrite for_range_app. unfold bind.
      assert (Hpre' : for_range pre (fun obj0 =>
                        check (Reconcile client obj0)
                          (fun err => errors_Wrapf err "create kubeconfig err: " err)) w
                      = (Return tt, w1)).
      { clear Hsplit Hobj. revert w Hpre. unfold cluster.reconcile_all.
        induction pre as [|x pre IH]; intros w Hpre; simpl in *; [exact Hpre|].
        unfold bind, check in *.
        destruct (Reconcile client x w) as [[e0|] w0]; [discriminate|].
        apply IH. exact Hpre. }
      rewrite Hpre'. simpl. unfold bind, check. rewrite Hobj. reflexivity.
    + unfold errors_Wrapf. cbn [Error]. rewrite string_app_assoc. reflexivity.
  - intros w1 w2 w3 w4 H1 H2 H3 H4.
    unfold cluster_phases.EnsureKubeMaster, cluster_phases.control_plane_objects.
    simpl. unfold bind, check, ret. rewrite H1, H2, H3, H4. reflexivity.
Qed.

Lemma EnsureKubeMaster_in_order_witness :
  (exists err,
     cluster_phases.EnsureKubeMaster
       (PR := sim_phases.phases sim.healthy (sim_phases.refusing ["kube-controller-manager"]))
       (sim_phases.provider _ _) sim.sample_cluster "management" (sim.fresh 0)
     = (Failure err,
        sim.log (sim.call_Reconcile "kube-controller-manager")
          (sim.log (sim.call_Reconcile "kube-apiserver-svc")
             (sim.log (sim.call_Reconcile "kube-apiserver") (sim.fresh 0))))
     /\ Error err
        = "create kubeconfig err: admission refused kube-controller-manager: admission refused kube-controller-manager")
  /\ cluster_phases.EnsureKubeMaster (PR := sim_phases.phases sim.healthy sim_phases.fine)
       (sim_phases.provider _ _) sim.sample_cluster "management" (sim.fresh 0)
     = (Return tt,
        sim.log (sim.call_Reconcile "kube-scheduler")
          (sim.log (sim.call_Reconcile "kube-controller-manager")
             (sim.log (sim.call_Reconcile "kube-apiserver-svc")
                (sim.log (sim.call_Reconcile "kube-apiserver") (sim.fresh 0))))).
Proof.
  split.
  - apply (proj1 (EnsureKubeMaster_in_order
                    (PR := sim_phases.phases sim.healthy
                             (sim_phases.refusing ["kube-controller-manager"]))
                    (sim_phases.provider _ _) sim.sample_cluster "management" (sim.fresh 0))
             ["kube-apiserver"; "kube-apiserver-svc"] "kube-controller-manager"
             ["kube-scheduler"]
             (sim.log (sim.call_Reconcile "kube-apiserver-svc")
                (sim.log (sim.call_Reconcile "kube-apiserver") (sim.fresh 0)))
             _ (errors_New "admission refused kube-controller-manager")).
    + reflexivity.
    + reflexivity.
    + reflexivity.
  - apply (proj2 (EnsureKubeMaster_in_order
                    (PR := sim_phases.phases sim.healthy sim_phases.fine)
                    (sim_phases.provider _ _) sim.sample_cluster "management" (sim.fresh 0))
             (sim.log (sim.call_Reconcile "kube-apiserver") (sim.fresh 0))
             (sim.log (sim.call_Reconcile "kube-apiserver-svc")
                (sim.log (sim.call_Reconcile "kube-apiserver") (sim.fresh 0)))
             (sim.log (sim.call_Reconcile "kube-controller-manager")
                (sim.log (sim.call_Reconcile "kube-apiserver-svc")
                   (sim.log (sim.call_Reconcile "kube-apiserver") (sim.fresh 0)))));
      reflexivity.
Defined.

(** ** The exported kubeconfig *)

Section ext_facts.
Context `{PR : PhaseRuntime}.

(** The loop over the kubeconfigs, started on a map that is not nil: the
    world is not touched, the map stays a map, only the export key can
    change, and after a full pass the key holds the bytes of the kubeconfig
    visited last. *)
Lemma range_kubeconfigs (cfgMaps : list KubeConfig) (extData : gmap string string)
    (w : World) :
  exists r extData',
    for_range cfgMaps (fun v =>
      by_ <- try (BuildKubeConfigByte v) (fun err => err) ;;
      cluster_phases.ExtData_store ExternalAdminKubeConfigFileName by_) (Some extData, w)
    = (r, (Some extData', w))
    /\ (forall key, key <> ExternalAdminKubeConfigFileName -> extData' !! key = extData !! key)
    /\ (forall msg, r <> Panicked msg)
    /\ (r = Return tt ->
        match last cfgMaps with
        | None => extData' = extData
        | Some v =>
            exists by_, BuildKubeConfigByte v = Ok by_
                        /\ extData' = <[ExternalAdminKubeConfigFileName := by_]> extData
        end).
Proof.
  revert extData. induction cfgMaps as [|v cfgMaps IH]; intros extData.
  - exists (Return tt), extData. simpl. unfold ret. repeat split; try discriminate; auto.
  - simpl. unfold bind at 1. unfold bind at 1. unfold try.
    destruct (BuildKubeConfigByte v) as [by_|e] eqn:Hby.
    + unfold ret at 1. unfold cluster_phases.ExtData_store at 1. cbn [fst snd].
      destruct (IH (<[ExternalAdminKubeConfigFileName := by_]> extData))
        as (r & extData' & E & Hkeep & Hpanic & Hlast).
      exists r, extData'. split; [exact E|]. split; [|split; [exact Hpanic|]].
      * intros key Hkey. rewrite (Hkeep key Hkey). apply lookup_insert_ne. congruence.
      * intros Hr. specialize (Hlast Hr). rewrite last_cons.
        destruct (last cfgMaps) as [v'|].
        -- destruct Hlast as (by' & Hby' & ->). exists by'. split; [exact Hby'|].
           apply insert_insert_eq.
        -- exists by_. split; [exact Hby | exact Hlast].
    + exists (Failure e), extData. unfold fail. repeat split; try discriminate; auto.
Qed.

End ext_facts.

(** X8. The export phase leaves the credential with an extension map that
    is not nil, whatever its outcome, and among the entries of that map only
    the one under the export name can differ from before (a nil map counting
    as empty). *)
Theorem EnsureExtKubeconfig_keeps_other_entries `{PR : PhaseRuntime}
    (p : Provider) (c : Cluster) (extData : option (gmap string string)) (w : World) :
  exists extData',
    fst (snd (cluster_phases.EnsureExtKubeconfig p c (extData, w))) = Some extData'
    /\ forall key, key <> ExternalAdminKubeConfigFileName ->
         extData' !! key = default ∅ extData !! key.
Proof.
  unfold cluster_phases.EnsureExtKubeconfig.
  unfold bind at 1. unfold modify at 1. cbn [fst snd].
  assert (Hinit : match extData with None => Some ∅ | Some m => Some m end
                  = Some (default ∅ extData)) by (destruct extData; reflexivity).
  rewrite Hinit. clear Hinit. set (m := default ∅ extData).
  unfold bind at 1. unfold deref at 1.
  destruct (Features_HA (Features (Spec (Cluster_ c)))) as [ha|];
    [|exists m; split; [reflexivity | auto]].
  unfold ret at 1. unfold bind at 1. unfold deref at 1.
  destruct (HA_ThirdPartyHA ha) as [tp|]; [|exists m; split; [reflexivity | auto]].
  unfold ret at 1. unfold bind at 1. cbn [fst snd].
  destruct (CreateApiserverKubeConfigFile _ _ _ _ w) as [[cfgMaps|e] w1].
  - unfold bind at 1. unfold try at 1, ret at 1.
    destruct (range_kubeconfigs cfgMaps m w1) as (r & extData' & E & Hkeep & _ & _).
    rewrite E. exists extData'. split; [reflexivity | exact Hkeep].
  - unfold bind at 1. unfold try at 1, fail at 1. exists m. split; [reflexivity | auto].
Qed.

(** X9. When the export phase returns nil, the map holds under the export
    name the bytes of the kubeconfig the loop visited last, every earlier one
    having been overwritten; when no kubeconfig was produced the map is the
    one from before. *)
Theorem EnsureExtKubeconfig_last_kubeconfig_wins `{PR : PhaseRuntime}
    (p : Provider) (c : Cluster) (extData extData' : option (gmap string string))
    (w w' : World) :
  cluster_phases.EnsureExtKubeconfig p c (extData, w) = (Return tt, (extData', w')) ->
  exists ha thirdParty cfgMaps,
    Features_HA (Features (Spec (Cluster_ c))) = Some ha
    /\ HA_ThirdPartyHA ha = Some thirdParty
    /\ CreateApiserverKubeConfigFile (CAKey (Credential c)) (CACert (Credential c))
         (BuildApiserverEndpoint (VIP thirdParty) (GetBindPort (Cluster_ c)))
         (Name (Cluster_ c)) w = (Ok cfgMaps, w')
    /\ match last cfgMaps with
       | None => extData' = Some (default ∅ extData)
       | Some v =>
           exists by_, BuildKubeConfigByte v = Ok by_
                       /\ extData' = Some (<[ExternalAdminKubeConfigFileName := by_]>
                                             (default ∅ extData))
       end.
Proof.
  unfold cluster_phases.EnsureExtKubeconfig.
  unfold bind at 1. unfold modify at 1. cbn [fst snd].
  assert (Hinit : match extData with None => Some ∅ | Some m => Some m end
                  = Some (default ∅ extData)) by (destruct extData; reflexivity).
  rewrite Hinit. clear Hinit. set (m := default ∅ extData).
  unfold bind at 1. unfold deref at 1.
  destruct (Features_HA (Features (Spec (Cluster_ c)))) as [ha|]; [|discriminate].
  unfold ret at 1. unfold bind at 1. unfold deref at 1.
  destruct (HA_ThirdPartyHA ha) as [tp|] eqn:Htp; [|discriminate].
  unfold ret at 1. unfold bind at 1. cbn [fst snd].
  destruct (CreateApiserverKubeConfigFile _ _ _ _ w) as [[cfgMaps|e] w1] eqn:Hcreate.
  - unfold bind at 1. unfold try at 1, ret at 1.
    destruct (range_kubeconfigs cfgMaps m w1) as (r & m' & E & _ & _ & Hlast).
    rewrite E. intros [= -> <- <-].
    exists ha, tp, cfgMaps. split; [reflexivity|]. split; [exact Htp|].
    split; [exact Hcreate|].
    specialize (Hlast eq_refl). destruct (last cfgMaps) as [v|].
    + destruct Hlast as (by_ & Hby & ->). exists by_. split; [exact Hby | reflexivity].
    + rewrite Hlast. reflexivity.
  - unfold bind at 1. unfold try at 1, fail at 1. discriminate.
Qed.

Lemma EnsureExtKubeconfig_last_kubeconfig_wins_witness :
  cluster_phases.EnsureExtKubeconfig (PR := sim_phases.phases sim.healthy sim_phases.fine)
    (sim_phases.provider _ _) sim.ha_cluster
    (Some {[ "note" := "kept" ]}, sim.fresh 0)
  = (Return tt,
     (Some (<["admin.kubeconfig" := "kubeconfig-b"]> {[ "note" := "kept" ]}), sim.fresh 0)).
Proof.
  destruct (EnsureExtKubeconfig_last_kubeconfig_wins
              (PR := sim_phases.phases sim.healthy sim_phases.fine)
              (sim_phases.provider _ _) sim.ha_cluster
              (Some {[ "note" := "kept" ]})
              (fst (snd (cluster_phases.EnsureExtKubeconfig
                           (PR := sim_phases.phases sim.healthy sim_phases.fine)
                           (sim_phases.provider _ _) sim.ha_cluster
                           (Some {[ "note" := "kept" ]}, sim.fresh 0))))
              (sim.fresh 0) (sim.fresh 0))
    as (ha & tp & cfgMaps & _ & _ & Hcreate & Hlast).
  - vm_compute. reflexivity.
  - vm_compute. reflexivity.
Defined.

(** ** More on the hook phases *)

(** The pre-install and the post-install phase of a machine are the same
    function: both run the hook stored under the post-install key. *)
Lemma hook_phases_coincide `{R : Runtime}
    (p : Provider) (m : Machine) (c : Cluster) (w : World) :
  machine.EnsurePreInstallHook p m c w = machine.EnsurePostInstallHook p m c w.
Proof. reflexivity. Qed.

(** X10. With a non-empty hook under the post-install key and a reachable
    machine, the post-install phase runs two remote commands, the chmod of
    the hook's first field and then the hook. What the chmod returns is not
    looked at: the phase returns nil exactly when the hook itself ran without
    transport error and with exit code 0. *)
Theorem EnsurePostInstallHook_outcome `{R : Runtime}
    (p : Provider) (m : Machine) (c : Cluster) (w : World)
    (hook : string) (sh : SSHClient) :
  Hooks (Features (Spec (Cluster_ c))) !! HookPostInstall = Some hook ->
  hook <> "" ->
  SSH (MSpec m) = Ok sh ->
  let w1 := snd (Exec sh ("chmod +x " +:+ machine.first_field hook) w) in
  let '(_, _, exit, err) := fst (Exec sh hook w1) in
  snd (machine.EnsurePostInstallHook p m c w) = snd (Exec sh hook w1)
  /\ (fst (machine.EnsurePostInstallHook p m c w) = Return tt <-> err = None /\ exit = 0%Z).
Proof.
  intros Hhook Hne Hssh. unfold machine.EnsurePostInstallHook.
  rewrite Hhook. simpl. destruct (decide (hook = "")) as [|_]; [contradiction|].
  go_unfold. rewrite Hssh.
  destruct (Exec sh ("chmod +x " +:+ machine.first_field hook) w) as [r0 w1]. simpl.
  destruct (Exec sh hook w1) as [[[[out stderr] exit] err] w2]. simpl.
  destruct err as [e|]; simpl.
  - split; [reflexivity|]. split; [discriminate | intros [? _]; discriminate].
  - destruct (Z.eqb_spec exit 0) as [->|Hx]; simpl.
    + split; [reflexivity|]. split; auto.
    + split; [reflexivity|]. split; [discriminate | intros [_ ?]; contradiction].
Qed.

Lemma EnsurePostInstallHook_outcome_witness :
  snd (machine.EnsurePostInstallHook (R := sim.runtime sim.healthy)
         (sim.provider _) sim.sample_machine sim.post_hook_cluster (sim.fresh 0))
  = sim.log (sim.call_Exec "10.1.0.2" "/opt/hooks/post.sh --all")
      (sim.log (sim.call_Exec "10.1.0.2" "chmod +x /opt/hooks/post.sh") (sim.fresh 0))
  /\ (fst (machine.EnsurePostInstallHook (R := sim.runtime sim.healthy)
             (sim.provider _) sim.sample_machine sim.post_hook_cluster (sim.fresh 0))
      = Return tt <-> @None error = None /\ 0%Z = 0%Z).
Proof.
  apply (EnsurePostInstallHook_outcome (R := sim.runtime sim.healthy)
           (sim.provider _) sim.sample_machine sim.post_hook_cluster (sim.fresh 0)
           "/opt/hooks/post.sh --all" "10.1.0.2").
  - reflexivity.
  - discriminate.
  - reflexivity.
Defined.

(** X11. The chmod target, the first field of the hook, is the text of the
    hook before its first space: it holds no space, and the hook is this
    text followed by nothing or by a space and the rest. *)
Theorem first_field_is_text_before_space (hook : string) :
  space_free (machine.first_field hook)
  /\ exists rest,
       hook = machine.first_field hook +:+ rest
       /\ (rest = "" \/ exists tail, rest = String " " tail).
Proof.
  induction hook as [|ch hook [Hfree (rest & Hrest & Hshape)]].
  - split; [constructor|]. exists "". split; [reflexivity | left; reflexivity].
  - cbn [machine.first_field]. destruct (Ascii.eqb_spec ch " ") as [->|Hch].
    + split; [constructor|]. exists (String " " hook). split; [reflexivity|].
      right. exists hook. reflexivity.
    + split.
      * constructor; [exact Hch | exact Hfree].
      * exists rest. split; [|exact Hshape].
        change (String ch hook = String ch (machine.first_field hook +:+ rest)).
        f_equal. exact Hrest.
Qed.

(** ** More on endpoint selection *)

(** X12. Endpoint selection fails exactly on the empty list, with the
    no-address error, and never panics. *)
Theorem GetMasterEndpoint_fails_iff_empty `{R : Runtime}
    (addresses : list ClusterAddress) (w : World) :
  (fst (machine.GetMasterEndpoint addresses w) = Failure machine.no_address
   <-> addresses = [])
  /\ forall msg, fst (machine.GetMasterEndpoint addresses w) <> Panicked msg.
Proof.
  destruct (last addresses) as [a|] eqn:Hlast.
  - rewrite (GetMasterEndpoint_returns_last addresses a w Hlast). simpl.
    split; [|discriminate]. split; [discriminate|].
    intros ->. discriminate.
  - apply last_None in Hlast. subst addresses. split; [|discriminate].
    split; reflexivity.
Qed.

(** X13. Whatever comes before it and whatever the random draw, the
    endpoint selected from a list is the https endpoint of the address that
    stands last in it. *)
Theorem GetMasterEndpoint_selects_last `{R : Runtime}
    (addresses : list ClusterAddress) (a : ClusterAddress) (w : World) :
  fst (machine.GetMasterEndpoint (addresses ++ [a]) w)
  = Return ("https://" +:+ Host a +:+ ":" +:+ pretty (Port a)).
Proof.
  rewrite (GetMasterEndpoint_returns_last (addresses ++ [a]) a w ltac:(apply last_snoc)).
  reflexivity.
Qed.

(** ** More on the node-ready wait *)

Lemma poll_ticks_outcomes `{R : Runtime} (clusterCtx : ClusterCtx) (m : Machine)
    (interval : Z) (n : nat) (w : World) :
  fst (poll_ticks n interval (machine.node_ready_condition clusterCtx m) w) = Return tt
  \/ fst (poll_ticks n interval (machine.node_ready_condition clusterCtx m) w)
     = Failure ErrWaitTimeout.
Proof.
  revert w. induction n as [|n IH]; intros w; cbn [poll_ticks]; unfold bind, modify.
  - rewrite condition_observe.
    destruct (fst (observe clusterCtx m w)); [left | right]; reflexivity.
  - rewrite condition_observe.
    destruct (fst (observe clusterCtx m (Sleep interval w))); [left; reflexivity|].
    apply IH.
Qed.

(** X14. The node-ready wait ends in one of two ways only: nil or the
    timeout error. An error of the node request is never returned (it
    counts as not ready yet), and the phase does not panic. *)
Theorem EnsureNodeReady_nil_or_timeout `{R : Runtime}
    (p : Provider) (m : Machine) (c : Cluster) (w : World) :
  fst (machine.EnsureNodeReady p m c w) = Return tt
  \/ fst (machine.EnsureNodeReady p m c w) = Failure ErrWaitTimeout.
Proof.
  unfold machine.EnsureNodeReady.
  destruct (ClusterManager_Get (Name (Cluster_ c)) w) as [clusterCtx|e]; [|left; reflexivity].
  unfold wait_PollImmediate, bind. rewrite condition_observe.
  destruct (fst (observe clusterCtx m w)); [left; reflexivity|].
  apply poll_ticks_outcomes.
Qed.

(** ** The remaining machine phases *)

(** X15. The two CNI phases act only for a cluster whose CNI hook is
    configured as exactly "dke-cni": with the key missing or holding
    anything else they return nil and leave the world alone, without even
    asking for the machine's remote handle. *)
Theorem cni_phases_need_dke_cni `{PR : PhaseRuntime}
    (p : Provider) (m : Machine) (c : Cluster) (w : World) :
  Hooks (Features (Spec (Cluster_ c))) !! HookCniInstall <> Some "dke-cni" ->
  machine_phases.EnsureEth p m c w = (Return tt, w)
  /\ machine_phases.EnsureCni p m c w = (Return tt, w).
Proof.
  intros Hne. unfold machine_phases.EnsureEth, machine_phases.EnsureCni.
  destruct (Hooks (Features (Spec (Cluster_ c))) !! HookCniInstall) as [cniType|];
    [|split; reflexivity].
  destruct (decide (cniType = "dke-cni")) as [->|_]; [contradiction|].
  split; reflexivity.
Qed.

Lemma cni_phases_need_dke_cni_witness :
  machine_phases.EnsureEth
    (PR := sim_phases.phases (sim.without_ssh sim.healthy) sim_phases.fine)
    (sim_phases.provider _ _) sim.sample_machine (sim_phases.cni_cluster "flannel") (sim.fresh 0)
  = (Return tt, sim.fresh 0)
  /\ machine_phases.EnsureCni
       (PR := sim_phases.phases (sim.without_ssh sim.healthy) sim_phases.fine)
       (sim_phases.provider _ _) sim.sample_machine (sim_phases.cni_cluster "flannel")
       (sim.fresh 0)
     = (Return tt, sim.fresh 0).
Proof.
  apply (cni_phases_need_dke_cni
           (PR := sim_phases.phases (sim.without_ssh sim.healthy) sim_phases.fine)
           (sim_phases.provider _ _) sim.sample_machine (sim_phases.cni_cluster "flannel")
           (sim.fresh 0)).
  vm_compute. discriminate.
Defined.

(** With "dke-cni" configured the phase does reach the machine. *)
Example EnsureEth_applies_for_dke_cni :
  machine_phases.EnsureEth (PR := sim_phases.phases sim.healthy sim_phases.fine)
    (sim_phases.provider _ _) sim.sample_machine (sim_phases.cni_cluster "dke-cni") (sim.fresh 0)
  = (Return tt, sim.log (sim.call_Exec "10.1.0.2" "apply eth") (sim.fresh 0)).
Proof. vm_compute. reflexivity. Qed.

(** X16. The registry-hosts phase does nothing when the configuration does
    not ask for host entries. When it does, on a reachable machine it
    writes the entry of the registry domain first and the entry of the
    tenant's subdomain second; an error of the first write is returned at
    once and the second entry is not written. *)
Theorem EnsureRegistryHosts_writes_two_entries `{PR : PhaseRuntime}
    (p : Provider) (m : Machine) (c : Cluster) (w : World) :
  (NeedSetHosts (Cfg p) = false ->
   machine_phases.EnsureRegistryHosts p m c w = (Return tt, w))
  /\ (forall sh,
        NeedSetHosts (Cfg p) = true ->
        SSH (MSpec m) = Ok sh ->
        machine_phases.EnsureRegistryHosts p m c w
        = match RemoteHosts_Set sh (Registry_Domain (Cfg p)) (Registry_IP (Cfg p)) w with
          | (Some e, w1) => (Failure e, w1)
          | (None, w1) =>
              match RemoteHosts_Set sh
                      (TenantID (MSpec m) +:+ "." +:+ Registry_Domain (Cfg p))
                      (Registry_IP (Cfg p)) w1 with
              | (Some e, w2) => (Failure e, w2)
              | (None, w2) => (Return tt, w2)
              end
          end).
Proof.
  unfold machine_phases.EnsureRegistryHosts, machine_phases.registry_domains. split.
  - intros ->. reflexivity.
  - intros sh -> Hssh. simpl. go_unfold. rewrite Hssh.
    destruct (RemoteHosts_Set sh (Registry_Domain (Cfg p)) (Registry_IP (Cfg p)) w)
      as [[e|] w1]; [reflexivity|].
    destruct (RemoteHosts_Set sh _ (Registry_IP (Cfg p)) w1) as [[e|] w2]; reflexivity.
Qed.

Lemma EnsureRegistryHosts_writes_two_entries_witness :
  machine_phases.EnsureRegistryHosts
    (PR := sim_phases.phases sim.healthy sim_phases.install_failing)
    (sim_phases.provider _ _) sim.sample_machine sim.sample_cluster (sim.fresh 0)
  = (Return tt, sim.fresh 0)
  /\ machine_phases.EnsureRegistryHosts
       (PR := sim_phases.phases sim.healthy (sim_phases.hosts_down ["registry.example.test"]))
       (sim_phases.provider _ _) sim.sample_machine sim.sample_cluster (sim.fresh 0)
     = (Failure (errors_New "cannot write hosts entry for registry.example.test"),
        sim.log (sim.call_Exec "10.1.0.2" "hosts 10.1.0.250 registry.example.test")
          (sim.fresh 0))
  /\ machine_phases.EnsureRegistryHosts
       (PR := sim_phases.phases sim.healthy sim_phases.fine)
       (sim_phases.provider _ _) sim.sample_machine sim.sample_cluster (sim.fresh 0)
     = (Return tt,
        sim.log (sim.call_Exec "10.1.0.2" "hosts 10.1.0.250 default.registry.example.test")
          (sim.log (sim.call_Exec "10.1.0.2" "hosts 10.1.0.250 registry.example.test")
             (sim.fresh 0))).
Proof.
  split; [|split].
  - apply (proj1 (EnsureRegistryHosts_writes_two_entries
                    (PR := sim_phases.phases sim.healthy sim_phases.install_failing)
                    (sim_phases.provider _ _) sim.sample_machine sim.sample_cluster
                    (sim.fresh 0))).
    reflexivity.
  - pose proof (proj2 (EnsureRegistryHosts_writes_two_entries
                         (PR := sim_phases.phases sim.healthy
                                  (sim_phases.hosts_down ["registry.example.test"]))
                         (sim_phases.provider _ _) sim.sample_machine sim.sample_cluster
                         (sim.fresh 0)) "10.1.0.2" eq_refl eq_refl) as X.
    vm_compute in X. vm_compute. exact X.
  - pose proof (proj2 (EnsureRegistryHosts_writes_two_entries
                         (PR := sim_phases.phases sim.healthy sim_phases.fine)
                         (sim_phases.provider _ _) sim.sample_machine sim.sample_cluster
                         (sim.fresh 0)) "10.1.0.2" eq_refl eq_refl) as X.
    vm_compute in X. vm_compute. exact X.
Defined.

(** X17. The two installer phases return a connection error as it is, and
    an installer error under the IP of the host: the message is the host IP,
    a colon and the installer's message. *)
Theorem installer_errors_name_the_host `{PR : PhaseRuntime}
    (p : Provider) (m : Machine) (c : Cluster) (w : World) :
  (forall e,
     SSH (MSpec m) = Err e ->
     machine_phases.EnsureSystem p m c w = (Failure e, w)
     /\ machine_phases.EnsureK8sComponent p m c w = (Failure e, w))
  /\ (forall sh e w',
        SSH (MSpec m) = Ok sh ->
        system_Install sh c w = (Some e, w') ->
        exists err,
          machine_phases.EnsureSystem p m c w = (Failure err, w')
          /\ Error err = HostIP sh +:+ ": " +:+ Error e)
  /\ (forall sh e w',
        SSH (MSpec m) = Ok sh ->
        k8scomponent_Install sh c w = (Some e, w') ->
        exists err,
          machine_phases.EnsureK8sComponent p m c w = (Failure err, w')
          /\ Error err = HostIP sh +:+ ": " +:+ Error e).
Proof.
  unfold machine_phases.EnsureSystem, machine_phases.EnsureK8sComponent. go_unfold.
  split; [|split].
  - intros e ->. split; reflexivity.
  - intros sh e w' -> Hinst. rewrite Hinst. eexists. split; reflexivity.
  - intros sh e w' -> Hinst. rewrite Hinst. eexists. split; reflexivity.
Qed.

Lemma installer_errors_name_the_host_witness :
  (machine_phases.EnsureSystem
     (PR := sim_phases.phases (sim.without_ssh sim.healthy) sim_phases.install_failing)
     (sim_phases.provider _ _) sim.sample_machine sim.sample_cluster (sim.fresh 0)
   = (Failure (errors_New "ssh: handshake failed"), sim.fresh 0)
   /\ machine_phases.EnsureK8sComponent
        (PR := sim_phases.phases (sim.without_ssh sim.healthy) sim_phases.install_failing)
        (sim_phases.provider _ _) sim.sample_machine sim.sample_cluster (sim.fresh 0)
      = (Failure (errors_New "ssh: handshake failed"), sim.fresh 0))
  /\ (exists err,
        machine_phases.EnsureSystem
          (PR := sim_phases.phases sim.healthy sim_phases.install_failing)
          (sim_phases.provider _ _) sim.sample_machine sim.sample_cluster (sim.fresh 0)
        = (Failure err, sim.log (sim.call_Exec "10.1.0.2" "install system") (sim.fresh 0))
        /\ Error err = "10.1.0.2: yum: no package kubelet available")
  /\ (exists err,
        machine_phases.EnsureK8sComponent
          (PR := sim_phases.phases sim.healthy sim_phases.install_failing)
          (sim_phases.provider _ _) sim.sample_machine sim.sample_cluster (sim.fresh 0)
        = (Failure err,
           sim.log (sim.call_Exec "10.1.0.2" "install k8s components") (sim.fresh 0))
        /\ Error err = "10.1.0.2: yum: no package kubelet available").
Proof.
  split; [|split].
  - apply (proj1 (installer_errors_name_the_host
                    (PR := sim_phases.phases (sim.without_ssh sim.healthy)
                             sim_phases.install_failing)
                    (sim_phases.provider _ _) sim.sample_machine sim.sample_cluster
                    (sim.fresh 0))).
    reflexivity.
  - apply (proj1 (proj2 (installer_errors_name_the_host
                           (PR := sim_phases.phases sim.healthy sim_phases.install_failing)
                           (sim_phases.provider _ _) sim.sample_machine sim.sample_cluster
                           (sim.fresh 0)))
             "10.1.0.2" (errors_New "yum: no package kubelet available")).
    + reflexivity.
    + reflexivity.
  - apply (proj2 (proj2 (installer_errors_name_the_host
                           (PR := sim_phases.phases sim.healthy sim_phases.install_failing)
                           (sim_phases.provider _ _) sim.sample_machine sim.sample_cluster
                           (sim.fresh 0)))
             "10.1.0.2" (errors_New "yum: no package kubelet available")).
    + reflexivity.
    + reflexivity.
Defined.

(** X18. The node kubeconfig phase reports success and changes the world
    only through the installer: either it hands the installer a kubeconfig
    that carries the cluster token, or it ends without success (connection
    error, or panic on a nil HA configuration or a nil token) and leaves the
    world as it was. *)
Theorem EnsureKubeconfig_acts_only_through_installer `{R : Runtime}
    (p : Provider) (m : Machine) (c : Cluster) (w : World) :
  (exists sh option,
     SSH (MSpec m) = Ok sh
     /\ Token (Credential c) = Some (Option_Token option)
     /\ Option_CACert option = CACert (Credential c)
     /\ machine.EnsureKubeconfig p m c w
        = match InstallNode sh option w with
          | (None, w') => (Return tt, w')
          | (Some err, w') => (Failure err, w')
          end)
  \/ (fst (machine.EnsureKubeconfig p m c w) <> Return tt
      /\ snd (machine.EnsureKubeconfig p m c w) = w).
Proof.
  unfold machine.EnsureKubeconfig. go_unfold.
  destruct (SSH (MSpec m)) as [sh|e]; [|right; split; [discriminate | reflexivity]].
  destruct (Features_HA (Features (Spec (Cluster_ c)))) as [ha|]; simpl;
    [|right; split; [discriminate | reflexivity]].
  destruct (HA_ThirdPartyHA ha) as [tp|]; simpl;
    [|right; split; [discriminate | reflexivity]].
  destruct (Token (Credential c)) as [token|]; simpl;
    [|right; split; [discriminate | reflexivity]].
  left.
  exists sh, {| MasterEndpoint := BuildApiserverEndpoint (VIP tp) (GetBindPort (Cluster_ c));
                ClusterName := Name (Cluster_ c);
                Option_CACert := CACert (Credential c);
                Option_Token := token |}.
  split; [reflexivity|]. split; [reflexivity|]. split; reflexivity.
Qed.

(** ** The cluster queries *)

Section query_facts.
Context `{B : apimanager.Backend}.

(** One turn of the selection loop appends the item, with its node count
    set, when the selector is "meta" or "member" and is the role of the
    item; otherwise it appends nothing. *)
Lemma select_step_cases (lable : string) (st : apimanager.Store)
    (acc : list apimanager.ClusterItem) (item : apimanager.ClusterItem) :
  apimanager.select_step lable st acc item
  = if decide ((lable = "meta" \/ lable = "member")
               /\ apimanager.Labels item !! apimanager.cluster_role_label = Some lable)
    then (acc ++ [apimanager.with_NodeCount (apimanager.getCount (apimanager.Name item) st) item])%list
    else acc.
Proof.
  unfold apimanager.select_step. cbn [apimanager.Labels apimanager.with_NodeCount].
  destruct (apimanager.Labels item !! apimanager.cluster_role_label) as [role|] eqn:Hrole;
    cbn [default].
  - destruct (decide (lable = "meta")) as [->|Hmeta];
      [|destruct (decide (lable = "member")) as [->|Hmember]].
    + rewrite (bool_decide_eq_true_2 ("meta" = "meta") eq_refl).
      rewrite (bool_decide_eq_false_2 ("meta" = "member")) by discriminate.
      cbn [andb]. destruct (decide (role = "meta")) as [->|Hr].
      * rewrite bool_decide_eq_true_2 by reflexivity.
        rewrite decide_True by auto. reflexivity.
      * rewrite bool_decide_eq_false_2 by exact Hr.
        rewrite decide_False by (intros [_ [= ?]]; contradiction). reflexivity.
    + rewrite (bool_decide_eq_false_2 ("member" = "meta")) by discriminate.
      rewrite (bool_decide_eq_true_2 ("member" = "member") eq_refl).
      cbn [andb]. destruct (decide (role = "member")) as [->|Hr].
      * rewrite bool_decide_eq_true_2 by reflexivity.
        rewrite decide_True by auto. reflexivity.
      * rewrite bool_decide_eq_false_2 by exact Hr.
        rewrite decide_False by (intros [_ [= ?]]; contradiction). reflexivity.
    + rewrite (bool_decide_eq_false_2 (lable = "meta")) by exact Hmeta.
      rewrite (bool_decide_eq_false_2 (lable = "member")) by exact Hmember.
      cbn [andb]. rewrite decide_False by (intros [[?|?] _]; contradiction). reflexivity.
  - rewrite decide_False by (intros [_ ?]; discriminate).
    destruct (decide (lable = "meta")) as [->|Hmeta];
      [|destruct (decide (lable = "member")) as [->|Hmember]].
    + rewrite (bool_decide_eq_false_2 ("" = "meta")) by discriminate.
      rewrite (bool_decide_eq_false_2 ("meta" = "member")) by discriminate.
      rewrite !andb_false_r. reflexivity.
    + rewrite (bool_decide_eq_false_2 ("" = "member")) by discriminate.
      rewrite (bool_decide_eq_false_2 ("member" = "meta")) by discriminate.
      rewrite !andb_false_r. reflexivity.
    + rewrite (bool_decide_eq_false_2 (lable = "meta")) by exact Hmeta.
      rewrite (bool_decide_eq_false_2 (lable = "member")) by exact Hmember.
      reflexivity.
Qed.

Lemma fold_select_step (lable : string) (st : apimanager.Store)
    (items acc : list apimanager.ClusterItem) :
  fold_left (apimanager.select_step lable st) items acc
  = (acc ++
     filter (fun item => (lable = "meta" \/ lable = "member")
                         /\ apimanager.Labels item !! apimanager.cluster_role_label = Some lable)
       (map (fun item =>
               apimanager.with_NodeCount (apimanager.getCount (apimanager.Name item) st) item)
            items))%list.
Proof.
  revert acc. induction items as [|item items IH]; intros acc.
  - simpl. rewrite app_nil_r. reflexivity.
  - cbn [fold_left map]. rewrite IH, select_step_cases.
    destruct (decide ((lable = "meta" \/ lable = "member")
                      /\ apimanager.Labels item !! apimanager.cluster_role_label = Some lable))
      as [Hsel|Hsel].
    + rewrite filter_cons_True by exact Hsel. rewrite <- app_assoc. reflexivity.
    + rewrite filter_cons_False by exact Hsel. reflexivity.
Qed.

Lemma range_until_name_cases (name : string) (items : list apimanager.ClusterItem) :
  (apimanager.range_until_name name items apimanager.empty_cluster = apimanager.empty_cluster
   /\ Forall (fun item => apimanager.Name item <> name) items)
  \/ (exists pre post,
        items = (pre ++ apimanager.range_until_name name items apimanager.empty_cluster
                     :: post)%list
        /\ apimanager.Name
             (apimanager.range_until_name name items apimanager.empty_cluster) = name
        /\ Forall (fun item => apimanager.Name item <> name) pre).
Proof.
  induction items as [|cls items IH]; cbn [apimanager.range_until_name].
  - left. split; [reflexivity | constructor].
  - destruct (decide (apimanager.Name cls = name)) as [Hname|Hname].
    + right. exists [], items. split; [reflexivity|]. split; [exact Hname | constructor].
    + destruct IH as [[Hempty Hall]|(pre & post & Hsplit & Hn & Hpre)].
      * left. split; [exact Hempty | constructor; assumption].
      * right. exists (cls :: pre), post. split; [|split].
        -- simpl. f_equal. exact Hsplit.
        -- exact Hn.
        -- constructor; assumption.
Qed.

(** The count map with [a] masters and [b] others. *)
Lemma increment_master (a b : Z) :
  apimanager.increment "masterCount"
    (<["masterCount" := a]> (<["masterWorkerCount" := b]> ∅))
  = <["masterCount" := (a + 1)%Z]> (<["masterWorkerCount" := b]> ∅).
Proof.
  unfold apimanager.increment. rewrite lookup_insert_eq. cbn [default].
  apply insert_insert_eq.
Qed.

Lemma increment_worker (a b : Z) :
  apimanager.increment "masterWorkerCount"
    (<["masterCount" := a]> (<["masterWorkerCount" := b]> ∅))
  = <["masterCount" := a]> (<["masterWorkerCount" := (b + 1)%Z]> ∅).
Proof.
  unfold apimanager.increment.
  rewrite lookup_insert_ne by discriminate. rewrite lookup_insert_eq. cbn [default].
  apply map_eq. intros key.
  destruct (decide (key = "masterWorkerCount")) as [->|Hw].
  - rewrite lookup_insert_eq. rewrite lookup_insert_ne by discriminate.
    rewrite lookup_insert_eq. reflexivity.
  - rewrite lookup_insert_ne by congruence.
    destruct (decide (key = "masterCount")) as [->|Hm].
    + rewrite !lookup_insert_eq. reflexivity.
    + rewrite !lookup_insert_ne by congruence. reflexivity.
Qed.

Lemma fold_count_step (nodes : list apimanager.NodeItem) (a b : Z) :
  fold_left apimanager.count_step nodes
    (<["masterCount" := a]> (<["masterWorkerCount" := b]> ∅))
  = <["masterCount" :=
        (a + Z.of_nat (length (filter (fun n => is_Some (apimanager.NodeLabels n
                                                         !! apimanager.master_role_label))
                                 nodes)))%Z]>
      (<["masterWorkerCount" :=
           (b + Z.of_nat (length (filter (fun n => ~ is_Some (apimanager.NodeLabels n
                                                               !! apimanager.master_role_label))
                                    nodes)))%Z]> ∅).
Proof.
  revert a b. induction nodes as [|n nodes IH]; intros a b.
  - simpl. rewrite !Z.add_0_r. reflexivity.
  - cbn [fold_left]. unfold apimanager.count_step at 2.
    destruct (apimanager.NodeLabels n !! apimanager.master_role_label) as [v|] eqn:Hl.
    + rewrite increment_master, IH.
      rewrite (filter_cons_True _ n) by (rewrite Hl; eexists; reflexivity).
      rewrite (filter_cons_False _ n) by (rewrite Hl; intros H; apply H; eexists; reflexivity).
      cbn [length]. f_equal; lia.
    + rewrite increment_worker, IH.
      rewrite (filter_cons_False _ n) by (rewrite Hl; intros [? ?]; discriminate).
      rewrite (filter_cons_True _ n) by (rewrite Hl; intros [? ?]; discriminate).
      cbn [length]. f_equal; f_equal; lia.
Qed.

End query_facts.

(** X19. When the clusters can be listed and the meta cluster built, the
    list query answers with success. For the selector "meta" or "member"
    the answer holds, in listing order with the meta cluster last, the
    clusters whose role label equals the selector, each with its node count
    filled in; for any other selector, also the empty one, the answer is the
    empty list with count 0. *)
Theorem getClusterList_selects_by_role `{B : apimanager.Backend}
    (lable : string) (st : apimanager.Store)
    (listed : list apimanager.ClusterItem) (metaObj : apimanager.ClusterItem) :
  apimanager.List_clusters st = Ok listed ->
  apimanager.BuildMetaObj st = Ok metaObj ->
  (lable = "meta" \/ lable = "member" ->
   apimanager.getClusterList lable st
   = apimanager.RespSuccess true "success"
       (apimanager.ClusterListData
          (filter (fun item =>
                     apimanager.Labels item !! apimanager.cluster_role_label = Some lable)
             (map (fun item =>
                     apimanager.with_NodeCount
                       (apimanager.getCount (apimanager.Name item) st) item)
                  (listed ++ [metaObj]))))
       (Z.of_nat
          (length
             (filter (fun item =>
                        apimanager.Labels item !! apimanager.cluster_role_label = Some lable)
                (map (fun item =>
                        apimanager.with_NodeCount
                          (apimanager.getCount (apimanager.Name item) st) item)
                     (listed ++ [metaObj]))))))
  /\ (lable <> "meta" -> lable <> "member" ->
      apimanager.getClusterList lable st
      = apimanager.RespSuccess true "success" (apimanager.ClusterListData []) 0).
Proof.
  intros Hlist Hmeta.
  unfold apimanager.getClusterList, apimanager.list_with_meta.
  rewrite Hlist, Hmeta. rewrite fold_select_step. cbn [app].
  split.
  - intros Hsel.
    assert (Hfilter :
      filter (fun item => (lable = "meta" \/ lable = "member")
                          /\ apimanager.Labels item !! apimanager.cluster_role_label = Some lable)
        (map (fun item =>
                apimanager.with_NodeCount (apimanager.getCount (apimanager.Name item) st) item)
             (listed ++ [metaObj]))
      = filter (fun item =>
                  apimanager.Labels item !! apimanager.cluster_role_label = Some lable)
          (map (fun item =>
                  apimanager.with_NodeCount (apimanager.getCount (apimanager.Name item) st) item)
               (listed ++ [metaObj]))).
    { apply list_filter_iff. intros item. tauto. }
    rewrite Hfilter. reflexivity.
  - intros Hn1 Hn2.
    assert (Hfilter :
      filter (fun item => (lable = "meta" \/ lable = "member")
                          /\ apimanager.Labels item !! apimanager.cluster_role_label = Some lable)
        (map (fun item =>
                apimanager.with_NodeCount (apimanager.getCount (apimanager.Name item) st) item)
             (listed ++ [metaObj]))
      = []).
    { induction (map _ (listed ++ [metaObj])) as [|x xs IH]; [reflexivity|].
      rewrite filter_cons_False by tauto. exact IH. }
    rewrite Hfilter. reflexivity.
Qed.

Lemma getClusterList_selects_by_role_witness :
  apimanager.getClusterList (B := sim_phases.backend) "member" tt
  = apimanager.RespSuccess true "success"
      (apimanager.ClusterListData
         [ apimanager.with_NodeCount 3 (sim_phases.member "east"); sim_phases.member "west" ])
      2
  /\ apimanager.getClusterList (B := sim_phases.backend) "" tt
     = apimanager.RespSuccess true "success" (apimanager.ClusterListData []) 0.
Proof.
  split.
  - pose proof (proj1 (getClusterList_selects_by_role (B := sim_phases.backend) "member" tt
                         [sim_phases.member "east"; sim_phases.member "west"]
                         sim_phases.meta_cluster eq_refl eq_refl)
                  (or_intror eq_refl)) as X.
    rewrite X. vm_compute. reflexivity.
  - apply (proj2 (getClusterList_selects_by_role (B := sim_phases.backend) "" tt
                    [sim_phases.member "east"; sim_phases.member "west"]
                    sim_phases.meta_cluster eq_refl eq_refl)); discriminate.
Defined.

(** X20. When the clusters can be listed and the meta cluster built, the
    detail query always answers with success and count 1: with the first
    cluster of that name, the listed ones coming before the meta cluster, or,
    when no cluster has that name, with an empty cluster rather than an
    error. *)
Theorem GetClusterDetail_first_match_or_empty `{B : apimanager.Backend}
    (name : string) (st : apimanager.Store)
    (listed : list apimanager.ClusterItem) (metaObj : apimanager.ClusterItem) :
  apimanager.List_clusters st = Ok listed ->
  apimanager.BuildMetaObj st = Ok metaObj ->
  exists detail,
    apimanager.GetClusterDetail name st
    = apimanager.RespSuccess true "success" (apimanager.ClusterData detail) 1
    /\ ((detail = apimanager.empty_cluster
         /\ Forall (fun item => apimanager.Name item <> name) (listed ++ [metaObj]))
        \/ (exists pre post,
              (listed ++ [metaObj] = pre ++ detail :: post)%list
              /\ apimanager.Name detail = name
              /\ Forall (fun item => apimanager.Name item <> name) pre)).
Proof.
  intros Hlist Hmeta.
  exists (apimanager.range_until_name name (listed ++ [metaObj]) apimanager.empty_cluster).
  split.
  - unfold apimanager.GetClusterDetail, apimanager.list_with_meta.
    rewrite Hlist, Hmeta. reflexivity.
  - apply range_until_name_cases.
Qed.

Lemma GetClusterDetail_first_match_or_empty_witness :
  apimanager.GetClusterDetail (B := sim_phases.backend) "north" tt
  = apimanager.RespSuccess true "success" (apimanager.ClusterData apimanager.empty_cluster) 1
  /\ apimanager.GetClusterDetail (B := sim_phases.backend) "meta" tt
     = apimanager.RespSuccess true "success" (apimanager.ClusterData sim_phases.meta_cluster) 1.
Proof.
  destruct (GetClusterDetail_first_match_or_empty (B := sim_phases.backend) "north" tt
              [sim_phases.member "east"; sim_phases.member "west"]
              sim_phases.meta_cluster eq_refl eq_refl) as (d1 & E1 & _).
  destruct (GetClusterDetail_first_match_or_empty (B := sim_phases.backend) "meta" tt
              [sim_phases.member "east"; sim_phases.member "west"]
              sim_phases.meta_cluster eq_refl eq_refl) as (d2 & E2 & _).
  split; vm_compute; reflexivity.
Defined.

(** X21. When the client of the cluster is known and its nodes can be
    listed, the count query answers with a map of exactly two entries: the
    number of nodes that carry the master role label, whatever its value,
    under "masterCount", and the number of all other nodes under
    "masterWorkerCount"; the two add up to the number of nodes and the count
    of the answer is 2. *)
Theorem GetClusterCounts_partitions_nodes `{B : apimanager.Backend}
    (clusterName : string) (st : apimanager.Store)
    (cli : apimanager.NodeClient) (nodes : list apimanager.NodeItem) :
  apimanager.getClient clusterName st = (Some cli, None) ->
  apimanager.List_nodes cli st = Ok nodes ->
  exists (counts : gmap string Z) (masters others : nat),
    apimanager.GetClusterCounts clusterName st
    = Return (apimanager.RespSuccess true "success" (apimanager.CountData counts) 2)
    /\ masters
       = length (filter (fun n => is_Some (apimanager.NodeLabels n
                                           !! apimanager.master_role_label)) nodes)
    /\ masters + others = length nodes
    /\ counts !! "masterCount" = Some (Z.of_nat masters)
    /\ counts !! "masterWorkerCount" = Some (Z.of_nat others)
    /\ forall key, key <> "masterCount" -> key <> "masterWorkerCount" -> counts !! key = None.
Proof.
  intros Hcli Hnodes.
  unfold apimanager.GetClusterCounts. rewrite Hcli, Hnodes.
  rewrite (fold_count_step nodes 0 0). rewrite !Z.add_0_l.
  set (masters := length (filter (fun n => is_Some (apimanager.NodeLabels n
                                                    !! apimanager.master_role_label)) nodes)).
  set (others := length (filter (fun n => ~ is_Some (apimanager.NodeLabels n
                                                     !! apimanager.master_role_label)) nodes)).
  exists (<["masterCount" := Z.of_nat masters]>
            (<["masterWorkerCount" := Z.of_nat others]> ∅)), masters, others.
  split; [|split; [reflexivity|split; [|split; [|split]]]].
  - do 3 f_equal.
  - subst masters others. clear. induction nodes as [|n nodes IH]; [reflexivity|].
    destruct (decide (is_Some (apimanager.NodeLabels n !! apimanager.master_role_label)))
      as [Hm|Hm].
    + rewrite (filter_cons_True _ n) by exact Hm.
      rewrite (filter_cons_False _ n) by tauto. cbn [length]. lia.
    + rewrite (filter_cons_False _ n) by exact Hm.
      rewrite (filter_cons_True _ n) by exact Hm. cbn [length]. lia.
  - apply lookup_insert_eq.
  - rewrite lookup_insert_ne by discriminate. apply lookup_insert_eq.
  - intros key H1 H2. rewrite !lookup_insert_ne by congruence. apply lookup_empty.
Qed.

Lemma GetClusterCounts_partitions_nodes_witness :
  exists counts,
    apimanager.GetClusterCounts (B := sim_phases.backend) "east" tt
    = Return (apimanager.RespSuccess true "success" (apimanager.CountData counts) 2)
    /\ counts !! "masterCount" = Some 1%Z
    /\ counts !! "masterWorkerCount" = Some 2%Z.
Proof.
  destruct (GetClusterCounts_partitions_nodes (B := sim_phases.backend) "east" tt "east"
              [sim_phases.master_node; sim_phases.worker_node; sim_phases.worker_node]
              eq_refl eq_refl)
    as (counts & masters & others & E & Hm & Hsum & Hmc & Hwc & _).
  exists counts. split; [exact E|].
  assert (masters = 1) by (rewrite Hm; vm_compute; reflexivity).
  assert (others = 2) by (simpl in Hsum; lia).
  subst. split; assumption.
Defined.

(** Without a client, and without an error either, the count query
    panics; with a client error it answers with the error text. *)
Example GetClusterCounts_without_client :
  apimanager.GetClusterCounts (B := sim_phases.backend) "west" tt
  = Return (apimanager.RespError "get cluster client error.").
Proof. vm_compute. reflexivity. Qed.

(** ** Phases and the remote handle *)

(** X22. A machine phase that needs the remote handle and cannot obtain it
    returns the connection error as it is and leaves the world untouched:
    clean, preflight, the two installers, the node kubeconfig and the join
    always; the registry hosts when host entries are asked for, the CNI
    phases when "dke-cni" is configured, the post-install hook when a hook
    is configured. *)
Theorem connection_error_ends_machine_phase `{PR : PhaseRuntime}
    (p : Provider) (m : Machine) (c : Cluster) (w : World) (e : error) :
  SSH (MSpec m) = Err e ->
  machine_phases.EnsureClean p m c w = (Failure e, w)
  /\ machine_phases.EnsurePreflight p m c w = (Failure e, w)
  /\ machine_phases.EnsureSystem p m c w = (Failure e, w)
  /\ machine_phases.EnsureK8sComponent p m c w = (Failure e, w)
  /\ machine.EnsureKubeconfig p m c w = (Failure e, w)
  /\ machine.EnsureJoinNode p m c w = (Failure e, w)
  /\ (NeedSetHosts (Cfg p) = true ->
      machine_phases.EnsureRegistryHosts p m c w = (Failure e, w))
  /\ (Hooks (Features (Spec (Cluster_ c))) !! HookCniInstall = Some "dke-cni" ->
      machine_phases.EnsureEth p m c w = (Failure e, w)
      /\ machine_phases.EnsureCni p m c w = (Failure e, w))
  /\ (forall hook,
        Hooks (Features (Spec (Cluster_ c))) !! HookPostInstall = Some hook ->
        hook <> "" ->
        machine.EnsurePostInstallHook p m c w = (Failure e, w)).
Proof.
  intros Hssh.
  unfold machine_phases.EnsureClean, machine_phases.EnsurePreflight,
    machine_phases.EnsureSystem, machine_phases.EnsureK8sComponent,
    machine.EnsureKubeconfig, machine.EnsureJoinNode,
    machine_phases.EnsureRegistryHosts, machine_phases.EnsureEth,
    machine_phases.EnsureCni, machine.EnsurePostInstallHook.
  go_unfold. rewrite Hssh.
  repeat (split; [reflexivity|]). split; [|split].
  - intros ->. reflexivity.
  - intros ->. split; reflexivity.
  - intros hook -> Hne. simpl.
    destruct (decide (hook = "")) as [|_]; [contradiction | reflexivity].
Qed.

Lemma connection_error_ends_machine_phase_witness :
  machine_phases.EnsureClean
    (PR := sim_phases.phases (sim.without_ssh sim.healthy) sim_phases.fine)
    (sim_phases.provider _ _) sim.sample_machine sim.sample_cluster (sim.fresh 0)
  = (Failure (errors_New "ssh: handshake failed"), sim.fresh 0)
  /\ machine_phases.EnsurePreflight
       (PR := sim_phases.phases (sim.without_ssh sim.healthy) sim_phases.fine)
       (sim_phases.provider _ _) sim.sample_machine sim.sample_cluster (sim.fresh 0)
     = (Failure (errors_New "ssh: handshake failed"), sim.fresh 0).
Proof.
  destruct (connection_error_ends_machine_phase
              (PR := sim_phases.phases (sim.without_ssh sim.healthy) sim_phases.fine)
              (sim_phases.provider _ _) sim.sample_machine sim.sample_cluster (sim.fresh 0)
              (errors_New "ssh: handshake failed") eq_refl)
    as (Hclean & Hpre & _).
  split; [exact Hclean | exact Hpre].
Defined.

(** ** Derived addresses and endpoint selection *)

Section derived_endpoint_facts.
Context `{R : Runtime}.

Lemma register_all_appends (addrs : list ClusterAddress) (c : Cluster) :
  (forall t host port l,
     AddAddress t host port l = (l ++ [ {| Type_ := t; Host := host; Port := port |} ])%list) ->
  Addresses (Status (Cluster_ (register_all addrs c)))
  = (Addresses (Status (Cluster_ c)) ++ addrs)%list.
Proof.
  intros Happend. unfold register_all. cbn [set_Status Cluster_ Status Addresses].
  generalize (Addresses (Status (Cluster_ c))). induction addrs as [|a addrs IH]; intros l.
  - simpl. rewrite app_nil_r. reflexivity.
  - cbn [fold_left]. rewrite IH, Happend. destruct a as [t h p]. cbn [Type_ Host Port].
    rewrite <- app_assoc. reflexivity.
Qed.

End derived_endpoint_facts.

(** X23. Where registering an address appends it to the address list, the
    endpoint selected from the addresses that the addresses step leaves is
    the endpoint of the address the step registered last, whatever the
    random draw: with third-party HA configured it is always the
    third-party VIP at its port. *)
Theorem derived_addresses_select_last_registered `{R : Runtime}
    (c : Cluster) (w w' : World) :
  (forall t host port l,
     AddAddress t host port l = (l ++ [ {| Type_ := t; Host := host; Port := port |} ])%list) ->
  (forall a,
     last (declared_addresses (Spec (Cluster_ c))) = Some a ->
     fst (machine.GetMasterEndpoint
            (Addresses (Status (Cluster_ (fst (snd (cluster.completeAddresses (c, w)))))))
            w')
     = Return ("https://" +:+ Host a +:+ ":" +:+ pretty (Port a)))
  /\ (forall ha thirdParty,
        Features_HA (Features (Spec (Cluster_ c))) = Some ha ->
        HA_ThirdPartyHA ha = Some thirdParty ->
        fst (machine.GetMasterEndpoint
               (Addresses (Status (Cluster_ (fst (snd (cluster.completeAddresses (c, w)))))))
               w')
        = Return ("https://" +:+ VIP thirdParty +:+ ":" +:+ pretty (VPort thirdParty))).
Proof.
  intros Happend.
  assert (Hgeneral : forall a,
    last (declared_addresses (Spec (Cluster_ c))) = Some a ->
    fst (machine.GetMasterEndpoint
           (Addresses (Status (Cluster_ (fst (snd (cluster.completeAddresses (c, w)))))))
           w')
    = Return ("https://" +:+ Host a +:+ ":" +:+ pretty (Port a))).
  { intros a Hlast. rewrite completeAddresses_registers. cbn [fst snd].
    rewrite (register_all_appends _ c Happend).
    apply last_Some in Hlast as [pre Hpre]. rewrite Hpre, app_assoc.
    rewrite (GetMasterEndpoint_returns_last _ a w' ltac:(apply last_snoc)).
    reflexivity. }
  split; [exact Hgeneral|].
  intros ha tp Hha Htp.
  apply (Hgeneral {| Type_ := AddressAdvertise; Host := VIP tp; Port := VPort tp |}).
  unfold declared_addresses, advertise_addresses. rewrite Hha, Htp.
  rewrite !app_assoc. apply last_snoc.
Qed.

Lemma derived_addresses_select_last_registered_witness :
  fst (machine.GetMasterEndpoint (R := sim.runtime sim.healthy)
         (Addresses (Status (Cluster_ (fst (snd (cluster.completeAddresses
                                                   (R := sim.runtime sim.healthy)
                                                   (sim.ha_cluster, sim.fresh 0)))))))
         (sim.fresh 7))
  = Return ("https://" +:+ "10.1.0.200" +:+ ":" +:+ pretty 8443%Z).
Proof.
  apply (proj2 (derived_addresses_select_last_registered (R := sim.runtime sim.healthy)
                  sim.ha_cluster (sim.fresh 0) (sim.fresh 7)
                  (fun t host port l => eq_refl))
           sim.both_ha {| VIP := "10.1.0.200"; VPort := 8443 |}).
  - reflexivity.
  - reflexivity.
Defined.
